(** * NSE announcement monitors: a shallow embedding and its properties

    The development follows the Python sources of the repository:

    - [stock_webhook.py]       class [CompleteNSEMonitor]      (module [Complete])
    - [simple_nse_monitor.py]  class [SimpleNSECurlMonitor]    (module [Simple])
    - [nse_monitor.py]         class [IncrementalNSEMonitor]   (module [Incremental])
    - [nse_downloader.py]      class [NSEDownloader]           (module [Downloader])

    Python [str] values are modelled by [string] (one [ascii] per code
    point, so the model covers code points below 256); dictionaries by
    [gmap string _]; sets by [gset string].  Everything the programs obtain
    from outside (HTTP transfers, child processes, the XML parser, the
    clock) is an input of the model: an environment of oracles indexed by a
    logical time, so that two calls of the same operation may differ. *)

From Stdlib Require Import ZArith Ascii String List Bool Lia.
From Stdlib Require Import Decimal DecimalString.
From stdpp Require Import base gmap strings list.

Local Open Scope Z_scope.
Local Open Scope nat_scope.

(** ** Python string operations *)

Module Py.

Definition code (c : ascii) : nat := nat_of_ascii c.

Definition in_range (lo hi : nat) (c : ascii) : bool :=
  (lo <=? code c) && (code c <=? hi).

(** The regular-expression classes [0-9], [a-z], [A-Z]. *)
Definition is_digit (c : ascii) : bool := in_range 48 57 c.
Definition is_lower (c : ascii) : bool := in_range 97 122 c.
Definition is_upper (c : ascii) : bool := in_range 65 90 c.
Definition is_alnum (c : ascii) : bool := is_lower c || is_upper c || is_digit c.

(** [\s] of a [str] pattern and the characters removed by [str.strip()]:
    the code points below 256 for which [str.isspace] holds. *)
Definition isspace (c : ascii) : bool :=
  in_range 9 13 c || in_range 28 32 c || (code c =? 133) || (code c =? 160).

Definition is_char (x : ascii) (c : ascii) : bool := Ascii.eqb c x.

Definition underscore : ascii := "_"%char.
Definition newline : ascii := "010"%char.

Definition len (s : string) : nat := String.length s.

Fixpoint filter (p : ascii -> bool) (s : string) : string :=
  match s with
  | EmptyString => EmptyString
  | String c r => if p c then String c (filter p r) else filter p r
  end.

Fixpoint forallb (p : ascii -> bool) (s : string) : bool :=
  match s with
  | EmptyString => true
  | String c r => p c && forallb p r
  end.

(** [s.replace(old, new)] for a one-character [old]. *)
Fixpoint replace (old : ascii) (new : string) (s : string) : string :=
  match s with
  | EmptyString => EmptyString
  | String c r =>
      if is_char old c then new +:+ replace old new r
      else String c (replace old new r)
  end.

Fixpoint lstrip_by (p : ascii -> bool) (s : string) : string :=
  match s with
  | EmptyString => EmptyString
  | String c r => if p c then lstrip_by p r else s
  end.

Fixpoint rstrip_by (p : ascii -> bool) (s : string) : string :=
  match s with
  | EmptyString => EmptyString
  | String c r =>
      match rstrip_by p r with
      | EmptyString => if p c then EmptyString else String c EmptyString
      | r' => String c r'
      end
  end.

(** [s.strip()] *)
Definition strip (s : string) : string := rstrip_by isspace (lstrip_by isspace s).

(** [s.startswith(t)] and [s.endswith(t)] *)
Fixpoint startswith (s t : string) : bool :=
  match t, s with
  | EmptyString, _ => true
  | String _ _, EmptyString => false
  | String b t', String a s' => Ascii.eqb a b && startswith s' t'
  end.

(** [s] ends with [t] when one of the tails of [s] is [t]. *)
Fixpoint endswith (s t : string) : bool :=
  String.eqb s t ||
  match s with
  | EmptyString => false
  | String _ r => endswith r t
  end.

(** [t in s] *)
Fixpoint contains (s t : string) : bool :=
  startswith s t ||
  match s with
  | EmptyString => false
  | String _ r => contains r t
  end.

(** [s[:n]] for a non-negative [n]. *)
Fixpoint take (n : nat) (s : string) : string :=
  match n, s with
  | S m, String c r => String c (take m r)
  | _, _ => EmptyString
  end.

(** [re.sub(p{min,}, rep, s)] for a one-character class [p]: every maximal
    run of characters of the class that has at least [min] (>= 1) elements
    is replaced by [rep]; shorter runs stay.  [run] holds the run being
    read. *)
Definition flush_run (min : nat) (rep run : string) : string :=
  match run with
  | EmptyString => EmptyString
  | _ => if min <=? len run then rep else run
  end.

Fixpoint sub_runs_from (p : ascii -> bool) (min : nat) (rep run s : string) : string :=
  match s with
  | EmptyString => flush_run min rep run
  | String c r =>
      if p c then sub_runs_from p min rep (run +:+ String c EmptyString) r
      else flush_run min rep run +:+ String c (sub_runs_from p min rep EmptyString r)
  end.

Definition sub_runs (p : ascii -> bool) (min : nat) (rep s : string) : string :=
  sub_runs_from p min rep EmptyString s.

(** [re.sub(r'^_+|_+$', '', s)]: the leading run of underscores goes, and so
    does the run that ends the string; [$] also matches just before a
    newline that ends the string. *)
Fixpoint last_char (s : string) : option ascii :=
  match s with
  | EmptyString => None
  | String c EmptyString => Some c
  | String _ r => last_char r
  end.

Definition ends_with_newline (s : string) : bool :=
  match last_char s with
  | Some c => is_char newline c
  | None => false
  end.

Definition sub_edge_underscores (s : string) : string :=
  let s1 := lstrip_by (is_char underscore) s in
  if ends_with_newline s1
  then rstrip_by (is_char underscore) (take (len s1 - 1) s1) +:+ String newline EmptyString
  else rstrip_by (is_char underscore) s1.

(** [os.path.basename(p)] on POSIX: what follows the last [/]. *)
Fixpoint basename_from (acc s : string) : string :=
  match s with
  | EmptyString => acc
  | String c r =>
      if is_char "/" c then basename_from EmptyString r
      else basename_from (acc +:+ String c EmptyString) r
  end.

Definition basename (p : string) : string := basename_from EmptyString p.

(** [os.path.dirname(p)] on POSIX: what precedes the last [/] with that
    slash, then without the slashes that end it unless it is made of
    slashes only.  [head] is the path up to the last slash read, [pending]
    what follows it. *)
Fixpoint head_from (head pending s : string) : string :=
  match s with
  | EmptyString => head
  | String c r =>
      if is_char "/" c
      then head_from (head +:+ pending +:+ String c EmptyString) EmptyString r
      else head_from head (pending +:+ String c EmptyString) r
  end.

Definition dirname (p : string) : string :=
  let head := head_from EmptyString EmptyString p in
  if forallb (is_char "/") head then head else rstrip_by (is_char "/") head.

(** [os.path.join(a, b)] on POSIX. *)
Definition path_join (a b : string) : string :=
  if startswith b "/" then b
  else if (len a =? 0) || endswith a "/" then a +:+ b
  else a +:+ "/" +:+ b.

Fixpoint existsb (p : ascii -> bool) (s : string) : bool :=
  match s with
  | EmptyString => false
  | String c r => p c || existsb p r
  end.

(** The first character, if any. *)
Definition first_char (s : string) : option ascii :=
  match s with
  | String c _ => Some c
  | EmptyString => None
  end.

End Py.

(** ** The clock *)

Inductive month : Type :=
  Jan | Feb | Mar | Apr | May | Jun | Jul | Aug | Sep | Oct | Nov | Dec.

Record datetime : Type := DateTime {
  dt_year : nat; dt_month : month; dt_day : nat;
  dt_hour : nat; dt_minute : nat; dt_second : nat
}.

Module Clock.

Definition dec (n : nat) : string := NilZero.string_of_uint (Nat.to_uint n).

(** [%d], [%H], [%M], [%S], [%m]: at least two digits. *)
Definition pad2 (n : nat) : string := if n <? 10 then "0" +:+ dec n else dec n.

(** [%Y]: at least four digits. *)
Definition pad4 (n : nat) : string :=
  if n <? 10 then "000" +:+ dec n
  else if n <? 100 then "00" +:+ dec n
  else if n <? 1000 then "0" +:+ dec n
  else dec n.

(** [%b] in the C locale. *)
Definition month_abbr (m : month) : string :=
  match m with
  | Jan => "Jan" | Feb => "Feb" | Mar => "Mar" | Apr => "Apr"
  | May => "May" | Jun => "Jun" | Jul => "Jul" | Aug => "Aug"
  | Sep => "Sep" | Oct => "Oct" | Nov => "Nov" | Dec => "Dec"
  end.

Definition month_number (m : month) : nat :=
  match m with
  | Jan => 1 | Feb => 2 | Mar => 3 | Apr => 4 | May => 5 | Jun => 6
  | Jul => 7 | Aug => 8 | Sep => 9 | Oct => 10 | Nov => 11 | Dec => 12
  end.

(** [strftime('%d%b%Y_%H%M%S')] *)
Definition strftime_dbY_HMS (t : datetime) : string :=
  pad2 (dt_day t) +:+ month_abbr (dt_month t) +:+ pad4 (dt_year t) +:+ "_" +:+
  pad2 (dt_hour t) +:+ pad2 (dt_minute t) +:+ pad2 (dt_second t).

(** [strftime('%Y%m%d_%H%M%S')] *)
Definition strftime_Ymd_HMS (t : datetime) : string :=
  pad4 (dt_year t) +:+ pad2 (month_number (dt_month t)) +:+ pad2 (dt_day t) +:+ "_" +:+
  pad2 (dt_hour t) +:+ pad2 (dt_minute t) +:+ pad2 (dt_second t).

End Clock.

(** ** [CompleteNSEMonitor.create_safe_filename] (stock_webhook.py) *)

Module Sanitizer.

(** [[^a-zA-Z0-9\s]] is removed: what stays is alphanumeric or white space. *)
Definition keep_company (c : ascii) : bool := Py.is_alnum c || Py.isspace c.

(** [[^a-zA-Z0-9_]] is removed. *)
Definition keep_date (c : ascii) : bool := Py.is_alnum c || Py.is_char Py.underscore c.

Definition file_ext_of (file_url : string) : string :=
  if Py.endswith file_url ".pdf" then ".pdf"
  else if Py.endswith file_url ".xml" then ".xml"
  else ".pdf".

Definition company_clean (company : string) : string :=
  Py.sub_runs Py.isspace 1 "_" (Py.strip (Py.filter keep_company company)).

Definition date_clean (now : datetime) (pub_date : string) : string :=
  if Py.len pub_date =? 0 then Clock.strftime_dbY_HMS now
  else
    let date_parts :=
      Py.replace " " "_" (Py.replace ":" "" (Py.replace "-" "" pub_date)) in
    Py.filter keep_date date_parts.

(** The name before the validity check and the truncation. *)
Definition combined (now : datetime) (company pub_date file_url : string) : string :=
  let filename := company_clean company +:+ "_" +:+ date_clean now pub_date +:+ file_ext_of file_url in
  let filename := Py.sub_runs (Py.is_char Py.underscore) 2 "_" filename in
  Py.sub_edge_underscores filename.

Definition needs_fallback (file_ext filename : string) : bool :=
  (Py.len filename =? 0) || String.eqb filename file_ext || (Py.len filename <? 5).

(** The two reads of [datetime.now()] of one call are the same instant
    [now]. *)
Definition create_safe_filename (now : datetime) (company pub_date file_url : string) : string :=
  let file_ext := file_ext_of file_url in
  let filename := combined now company pub_date file_url in
  let filename :=
    if needs_fallback file_ext filename
    then "NSE_Announcement_" +:+ Clock.strftime_Ymd_HMS now +:+ file_ext
    else filename in
  if 200 <? Py.len filename
  then Py.take 190 filename +:+ file_ext
  else filename.

(** The part of the cleaned name before the extension. *)
Definition stem (now : datetime) (company pub_date : string) : string :=
  Py.lstrip_by (Py.is_char Py.underscore)
    (Py.sub_runs (Py.is_char Py.underscore) 2 "_"
       (company_clean company +:+ "_" +:+ date_clean now pub_date)).

(** Path separators of the common file systems. *)
Definition is_path_sep (c : ascii) : bool := Py.is_char "/" c || Py.is_char "\" c.

(** The characters a generated name is made of. *)
Definition name_char (c : ascii) : bool :=
  Py.is_alnum c || Py.is_char Py.underscore c || Py.is_char "." c.

End Sanitizer.

(** ** The outside world *)

(** A streamed [GET] whose body is written to a file: [session.get(url,
    stream=True)], [raise_for_status()], [open(path, 'wb')] and the loop
    over [iter_content].  A failure carries what had reached the file:
    [None] when the file was not opened. *)
Inductive HttpOutcome : Type :=
| HttpBody (body : string)
| HttpTimeout (partial : option string)       (* requests.exceptions.Timeout *)
| HttpError (partial : option string)         (* another RequestException *)
| LocalError (partial : option string).       (* an exception that is no RequestException *)

(** [subprocess.run(argv, timeout=...)]. *)
Inductive ProcStatus : Type :=
| Exited (returncode : Z)
| TimeoutExpired
| ToolNotFound                                  (* FileNotFoundError *)
| ProcError.                                    (* any other exception *)

(** [proc_output]: what the tool left at the path named by its [-o] or [-O]
    option; [None] when it did not touch the path. *)
Record ProcOutcome : Type := {
  proc_status : ProcStatus;
  proc_stdout : string;
  proc_output : option string
}.

(** [xml.etree.ElementTree.Element]: tag, text, children. *)
#[warnings="-register-all"]
Inductive Element : Type :=
| Elem (tag : string) (text : option string) (children : list Element).

(** [session.head(url)]. *)
Inductive HeadOutcome : Type :=
| HeadError
| HeadNoLength
| HeadLength (content_length : nat).

(** A headless browser session of [method5_browser_automation].  The
    browser is given the directory of the downloads only: [saved] is the
    name it chose for the file in that directory and the content, if it
    saved one. *)
Inductive BrowserOutcome : Type :=
| BrowserMissing                                (* ImportError *)
| BrowserError
| BrowserDone (saved : option (string * string)).

(** [requests.get(rss_url)] followed by [feedparser.parse]. *)
Inductive FeedOutcome : Type :=
| FeedError
| FeedEntries (entries : list (gmap string string)).

Record Env : Type := {
  http_get : nat -> string -> HttpOutcome;
  http_head : nat -> string -> HeadOutcome;
  http_range : nat -> string -> Z -> Z -> option string;
  run_process : nat -> list string -> ProcOutcome;
  browser_get : nat -> string -> BrowserOutcome;
  feed_get : nat -> string -> FeedOutcome;
  et_fromstring : string -> option Element;
  now : nat -> datetime
}.

Inductive Event : Type :=
| EvHttpGet (url : string)
| EvHttpHead (url : string)
| EvHttpRange (url : string) (first last : Z)
| EvProcess (argv : list string)
| EvBrowser (url : string)
| EvFeedGet (url : string).

(** The lines of standard output that the properties refer to. *)
Inductive Msg : Type :=
| MsgTryingMethod (method : string)
| MsgXmlParseError
| MsgRetryError.

(** One element for each write to a log file.  [simple_nse_monitor.py] and
    [nse_monitor.py] end what they write with a line break, so that an
    element is a line of the file; [stock_webhook.py] ends it with the two
    characters backslash and [n], so that its entries follow one another
    on one line. *)
Record DownloadLine : Type := {
  dl_time : datetime; dl_filename : string; dl_size : nat; dl_method : option string
}.

Record FailedLine : Type := {
  fl_time : datetime; fl_url : string; fl_filename : string
}.

Record CacheFile : Type := {
  cf_seen_items : gset string;
  cf_last_check_time : option datetime;
  cf_last_updated : datetime
}.

Record RetryItem : Type := {
  ri_url : string; ri_filename : string; ri_company : string;
  ri_date : string; ri_timestamp : datetime
}.

(** The files of the working directory.  The logs, the caches and the
    retry queue are kept apart from [fs], which holds the other regular
    files (the downloads) by path and content; directories are not
    modelled.  [trace] lists the network and process activity so far; its
    length is the logical time. *)
Record World : Type := {
  fs : gmap string string;
  download_log : list DownloadLine;             (* download_log.txt *)
  failed_log : list FailedLine;                 (* failed_downloads.txt *)
  cache_files : gmap string CacheFile;          (* nse_*_cache.json *)
  retry_file : option (list RetryItem);         (* retry_downloads.json *)
  stdout : list Msg;
  trace : list Event
}.

Module W.

Definition tick (w : World) : nat := length (trace w).

Definition set_fs (f : gmap string string) (w : World) : World :=
  {| fs := f; download_log := download_log w; failed_log := failed_log w;
     cache_files := cache_files w; retry_file := retry_file w;
     stdout := stdout w; trace := trace w |}.

Definition emit (e : Event) (w : World) : World :=
  {| fs := fs w; download_log := download_log w; failed_log := failed_log w;
     cache_files := cache_files w; retry_file := retry_file w;
     stdout := stdout w; trace := trace w ++ [e] |}.

Definition print (m : Msg) (w : World) : World :=
  {| fs := fs w; download_log := download_log w; failed_log := failed_log w;
     cache_files := cache_files w; retry_file := retry_file w;
     stdout := stdout w ++ [m]; trace := trace w |}.

Definition log_download (l : DownloadLine) (w : World) : World :=
  {| fs := fs w; download_log := download_log w ++ [l]; failed_log := failed_log w;
     cache_files := cache_files w; retry_file := retry_file w;
     stdout := stdout w; trace := trace w |}.

Definition log_failed (l : FailedLine) (w : World) : World :=
  {| fs := fs w; download_log := download_log w; failed_log := failed_log w ++ [l];
     cache_files := cache_files w; retry_file := retry_file w;
     stdout := stdout w; trace := trace w |}.

Definition set_cache (name : string) (c : CacheFile) (w : World) : World :=
  {| fs := fs w; download_log := download_log w; failed_log := failed_log w;
     cache_files := <[name := c]> (cache_files w); retry_file := retry_file w;
     stdout := stdout w; trace := trace w |}.

Definition set_retry (q : list RetryItem) (w : World) : World :=
  {| fs := fs w; download_log := download_log w; failed_log := failed_log w;
     cache_files := cache_files w; retry_file := Some q;
     stdout := stdout w; trace := trace w |}.

(** [os.path.exists], [os.path.getsize], [os.remove], and a file written
    and closed. *)
Definition exists_ (path : string) (w : World) : bool := bool_decide (is_Some (fs w !! path)).

Definition getsize (path : string) (w : World) : nat :=
  match fs w !! path with Some c => Py.len c | None => 0 end.

Definition remove (path : string) (w : World) : World := set_fs (delete path (fs w)) w.

Definition write (path content : string) (w : World) : World :=
  set_fs (<[path := content]> (fs w)) w.

(** What an interrupted writer or a tool leaves at [path]. *)
Definition leave (path : string) (left : option string) (w : World) : World :=
  match left with
  | Some c => write path c w
  | None => w
  end.

(** [if os.path.exists(path): os.remove(path)] *)
Definition remove_if_exists (path : string) (w : World) : World :=
  if exists_ path w then remove path w else w.

End W.

(** Python's [l[:n]] for any integer [n]. *)
Definition py_take {A : Type} (n : Z) (l : list A) : list A :=
  if (0 <=? n)%Z then take (Z.to_nat n) l
  else take (length l - Z.to_nat (- n)) l.

Definition rss_url : string :=
  "https://nsearchives.nseindia.com/content/RSS/Online_announcements.xml".

(** [d.get(k, default)] *)
Definition dict_get (d : gmap string string) (k default : string) : string :=
  match d !! k with Some v => v | None => default end.

(** ** The feed parser, shared by [CompleteNSEMonitor] and
    [SimpleNSECurlMonitor] ([parse_rss_manually] is the same text in both) *)

Module Parser.

(** [re.sub(r'<\?xml[^>]*\?>', '', s)].  [decl] is [None] outside a
    candidate match and [Some buf] after [<?xml], [buf] being what
    [[^>]*\?] has read so far.  The candidate ends at the first [>]: it is
    a match, and is dropped, when the character before is [?]; otherwise
    the text read stays. *)
Definition decl_open : string := "<?xml".

Fixpoint sub_xml_decl_from (decl : option string) (s : string) : string :=
  match decl with
  | None =>
      match s with
      | String "<" (String "?" (String "x" (String "m" (String "l" r)))) =>
          sub_xml_decl_from (Some "") r
      | String c r => String c (sub_xml_decl_from None r)
      | EmptyString => EmptyString
      end
  | Some buf =>
      match s with
      | EmptyString => decl_open +:+ buf
      | String c r =>
          if Py.is_char ">" c then
            match Py.last_char buf with
            | Some "?"%char => sub_xml_decl_from None r
            | _ => decl_open +:+ buf +:+ String c (sub_xml_decl_from None r)
            end
          else sub_xml_decl_from (Some (buf +:+ String c EmptyString)) r
      end
  end.

Definition sub_xml_decl (s : string) : string := sub_xml_decl_from None s.

Definition tag_of (e : Element) : string := match e with Elem t _ _ => t end.
Definition text_of (e : Element) : option string := match e with Elem _ t _ => t end.
Definition children_of (e : Element) : list Element := match e with Elem _ _ cs => cs end.

(** The elements below [e], in document order. *)
Fixpoint descendants (e : Element) : list Element :=
  match e with
  | Elem _ _ cs => flat_map (fun c => c :: descendants c) cs
  end.

(** [root.findall('.//item')] *)
Definition findall_items (root : Element) : list Element :=
  List.filter (fun e => String.eqb (tag_of e) "item") (descendants root).

Definition whitelist : list string := ["title"; "link"; "description"; "pubDate"].

Definition in_whitelist (tag : string) : bool :=
  existsb (String.eqb tag) whitelist.

(** [(child.text or '').strip()] *)
Definition text_value (child : Element) : string :=
  Py.strip (match text_of child with Some t => t | None => "" end).

(** The loop over the children of one [item]. *)
Definition item_data_of (item : Element) : gmap string string :=
  fold_left
    (fun item_data child =>
       if in_whitelist (tag_of child)
       then <[tag_of child := text_value child]> item_data
       else item_data)
    (children_of item) ∅.

(** [if item_data.get('title')] *)
Definition has_title (item_data : gmap string string) : bool :=
  match item_data !! "title" with
  | Some t => negb (Py.len t =? 0)
  | None => false
  end.

(** The result and the error reported on the way, if any. *)
Definition parse_rss_manually (env : Env) (xml_content : string)
  : list (gmap string string) * option Msg :=
  let xml_content := sub_xml_decl xml_content in
  match et_fromstring env xml_content with
  | Some root =>
      (List.filter has_title (map item_data_of (findall_items root)), None)
  | None => ([], Some MsgXmlParseError)
  end.

End Parser.

(** ** [CompleteNSEMonitor] (stock_webhook.py) *)

Module Complete.

Record Monitor : Type := {
  seen_items : gset string;
  max_items : Z;
  download_pdfs : bool
}.

Definition cache_file : string := "nse_complete_cache.json".

Definition set_seen (s : gset string) (m : Monitor) : Monitor :=
  {| seen_items := s; max_items := max_items m; download_pdfs := download_pdfs m |}.

Definition load_cache (m : Monitor) (w : World) : Monitor :=
  match cache_files w !! cache_file with
  | Some cache => set_seen (cf_seen_items cache) m
  | None => m
  end.

Definition save_cache (env : Env) (m : Monitor) (w : World) : World :=
  W.set_cache cache_file
    {| cf_seen_items := seen_items m; cf_last_check_time := None;
       cf_last_updated := now env (W.tick w) |} w.

Definition fetch_cmd : list string :=
  ["curl"; "-s"; "-L"; "--connect-timeout"; "30"; "--max-time"; "120";
   "--retry"; "2"; "--retry-delay"; "3"; "--user-agent";
   "Mozilla/5.0 (X11; Linux x86_64) AppleWebKit/537.36 (KHTML, like Gecko) Chrome/120.0.0.0 Safari/537.36";
   "--header"; "Accept: text/html,application/xhtml+xml,application/xml;q=0.9,*/*;q=0.8";
   "--header"; "Accept-Language: en-US,en;q=0.9"; "--compressed"; rss_url].

(** What [fetch_rss_with_curl] makes of the result of the child process. *)
Definition accept_fetch (o : ProcOutcome) : option string :=
  match proc_status o with
  | Exited rc =>
      if (rc =? 0)%Z && negb (Py.len (Py.strip (proc_stdout o)) =? 0) then
        let content := Py.strip (proc_stdout o) in
        if Py.contains content "<rss" && Py.contains content "</rss>"
        then Some content
        else None
      else None
  | TimeoutExpired | ToolNotFound | ProcError => None
  end.

Definition fetch_rss_with_curl (env : Env) (w : World) : option string * World :=
  let o := run_process env (W.tick w) fetch_cmd in
  (accept_fetch o, W.emit (EvProcess fetch_cmd) w).

Definition supported (file_url : string) : bool :=
  Py.endswith file_url ".pdf" || Py.endswith file_url ".xml".

Definition _download_with_requests (env : Env) (file_url filepath filename : string)
    (w : World) : bool * World :=
  let r := http_get env (W.tick w) file_url in
  let w := W.emit (EvHttpGet file_url) w in
  match r with
  | HttpBody body =>
      let w := W.write filepath body w in
      let file_size := W.getsize filepath w in
      (true, W.log_download
               {| dl_time := now env (W.tick w); dl_filename := filename;
                  dl_size := file_size; dl_method := Some "requests" |} w)
  | HttpTimeout partial | HttpError partial | LocalError partial =>
      (false, W.remove_if_exists filepath (W.leave filepath partial w))
  end.

(** [_download_with_curl] and [_download_with_wget] differ in the command
    line and in the name written to the log. *)
Definition download_with_tool (method : string) (cmd : list string)
    (env : Env) (filepath filename : string) (w : World) : bool * World :=
  let o := run_process env (W.tick w) cmd in
  let w := W.leave filepath (proc_output o) (W.emit (EvProcess cmd) w) in
  match proc_status o with
  | Exited rc =>
      if (rc =? 0)%Z && W.exists_ filepath w then
        let file_size := W.getsize filepath w in
        if 0 <? file_size then
          (true, W.log_download
                   {| dl_time := now env (W.tick w); dl_filename := filename;
                      dl_size := file_size; dl_method := Some method |} w)
        else (false, W.remove filepath w)
      else (false, w)
  | TimeoutExpired | ToolNotFound | ProcError =>
      (false, W.remove_if_exists filepath w)
  end.

Definition curl_cmd (file_url filepath : string) : list string :=
  ["curl"; "-L"; "-o"; filepath; "--connect-timeout"; "30"; "--max-time"; "300";
   "--retry"; "2"; "--user-agent"; "Mozilla/5.0 (X11; Linux x86_64) AppleWebKit/537.36";
   "--silent"; file_url].

Definition wget_cmd (file_url filepath : string) : list string :=
  ["wget"; "-O"; filepath; "--timeout=30"; "--tries=2";
   "--user-agent=Mozilla/5.0 (X11; Linux x86_64) AppleWebKit/537.36";
   "--quiet"; file_url].

Definition _download_with_curl (env : Env) (file_url filepath filename : string)
    (w : World) : bool * World :=
  download_with_tool "curl" (curl_cmd file_url filepath) env filepath filename w.

Definition _download_with_wget (env : Env) (file_url filepath filename : string)
    (w : World) : bool * World :=
  download_with_tool "wget" (wget_cmd file_url filepath) env filepath filename w.

Definition smart_download_file (env : Env) (file_url filename : string) (w : World)
  : bool * World :=
  if negb (supported file_url) then (false, w)
  else
    let filepath := Py.path_join "nse_downloads" filename in
    if W.exists_ filepath w then (true, w)
    else
      let '(success, w) := _download_with_requests env file_url filepath filename w in
      if success then (true, w)
      else
        let '(success, w) := _download_with_curl env file_url filepath filename w in
        if success then (true, w)
        else
          let '(success, w) := _download_with_wget env file_url filepath filename w in
          if success then (true, w)
          else
            (false, W.log_failed
                      {| fl_time := now env (W.tick w); fl_url := file_url;
                         fl_filename := filename |} w).

Definition process_announcement (env : Env) (m : Monitor) (item : gmap string string)
    (is_new : bool) (w : World) : World :=
  let file_link := dict_get item "link" "" in
  if download_pdfs m && is_new then
    if supported file_link then
      let filename :=
        Sanitizer.create_safe_filename (now env (W.tick w))
          (dict_get item "title" "Unknown") (dict_get item "pubDate" "") file_link in
      snd (smart_download_file env file_link filename w)
    else w
  else w.

(** [f"{item.get('title', '')}-{item.get('pubDate', '')}"] *)
Definition item_id_of (item : gmap string string) : string :=
  dict_get item "title" "" +:+ "-" +:+ dict_get item "pubDate" "".

(** The state of the loop of [check_announcements]. *)
Record Loop : Type := {
  lp_monitor : Monitor;
  lp_new_count : nat;
  lp_world : World
}.

(** The statements run for a record whose identifier is not in the set, in
    the order of the source: [self.seen_items.add(item_id)],
    [new_count += 1], [self.process_announcement(item, is_new=True)]. *)
Inductive Stmt : Type := AddSeen | CountNew | Process.

Definition body : list Stmt := [AddSeen; CountNew; Process].

Definition exec (env : Env) (item : gmap string string) (l : Loop) (s : Stmt) : Loop :=
  match s with
  | AddSeen =>
      {| lp_monitor :=
           set_seen ({[item_id_of item]} ∪ seen_items (lp_monitor l)) (lp_monitor l);
         lp_new_count := lp_new_count l;
         lp_world := lp_world l |}
  | CountNew =>
      {| lp_monitor := lp_monitor l;
         lp_new_count := lp_new_count l + 1;
         lp_world := lp_world l |}
  | Process =>
      {| lp_monitor := lp_monitor l;
         lp_new_count := lp_new_count l;
         lp_world := process_announcement env (lp_monitor l) item true (lp_world l) |}
  end.

(** The first [k] statements of the body: the state of the loop when the
    run is cut short after them. *)
Definition run_body (env : Env) (item : gmap string string) (k : nat) (l : Loop) : Loop :=
  fold_left (exec env item) (take k body) l.

Definition check_item (env : Env) (l : Loop) (item : gmap string string) : Loop :=
  if bool_decide (item_id_of item ∈ seen_items (lp_monitor l)) then l
  else fold_left (exec env item) body l.

Definition check_loop (env : Env) (l : Loop) (items : list (gmap string string)) : Loop :=
  fold_left (check_item env) items l.

Definition check_announcements (env : Env) (m : Monitor) (w : World) : Monitor * World :=
  let '(rss_content, w) := fetch_rss_with_curl env w in
  match rss_content with
  | None => (m, w)
  | Some rss_content =>
      let '(items, report) := Parser.parse_rss_manually env rss_content in
      let w := match report with Some msg => W.print msg w | None => w end in
      match items with
      | [] => (m, w)
      | _ =>
          let latest_items := py_take (max_items m) items in
          let l := check_loop env
                     {| lp_monitor := m; lp_new_count := 0; lp_world := w |}
                     latest_items in
          if 0 <? lp_new_count l
          then (lp_monitor l, save_cache env (lp_monitor l) (lp_world l))
          else (lp_monitor l, lp_world l)
      end
  end.

(** Poll cycles one after the other, each in its own environment. *)
Definition run_cycles (envs : list Env) (st : Monitor * World) : Monitor * World :=
  fold_left (fun st env => check_announcements env (fst st) (snd st)) envs st.

(** [__init__]: no seen item, then [load_cache]. *)
Definition __init__ (max_items : Z) (download_pdfs : bool) (w : World) : Monitor :=
  load_cache {| seen_items := ∅; max_items := max_items; download_pdfs := download_pdfs |} w.

End Complete.

(** ** [SimpleNSECurlMonitor] (simple_nse_monitor.py) *)

Module Simple.

Record Monitor : Type := {
  seen_items : gset string;
  download_pdfs : bool
}.

Definition cache_file : string := "nse_simple_cache.json".

Definition set_seen (s : gset string) (m : Monitor) : Monitor :=
  {| seen_items := s; download_pdfs := download_pdfs m |}.

Definition load_cache (m : Monitor) (w : World) : Monitor :=
  match cache_files w !! cache_file with
  | Some cache => set_seen (cf_seen_items cache) m
  | None => m
  end.

Definition save_cache (env : Env) (m : Monitor) (w : World) : World :=
  W.set_cache cache_file
    {| cf_seen_items := seen_items m; cf_last_check_time := None;
       cf_last_updated := now env (W.tick w) |} w.

Definition version_cmd : list string := ["curl"; "--version"].

(** The command line is the one of [CompleteNSEMonitor]; before it the
    availability of [curl] is probed. *)
Definition fetch_rss_with_curl (env : Env) (w : World) : option string * World :=
  let probe := run_process env (W.tick w) version_cmd in
  let w := W.emit (EvProcess version_cmd) w in
  match proc_status probe with
  | Exited rc =>
      if negb (rc =? 0)%Z then (None, w)
      else
        let o := run_process env (W.tick w) Complete.fetch_cmd in
        (Complete.accept_fetch o, W.emit (EvProcess Complete.fetch_cmd) w)
  | TimeoutExpired | ToolNotFound | ProcError => (None, w)
  end.

Definition curl_cmd (pdf_url filepath : string) : list string :=
  ["curl"; "-L"; "-o"; filepath; "--connect-timeout"; "30"; "--max-time"; "300";
   "--retry"; "2"; "--user-agent"; "Mozilla/5.0 (X11; Linux x86_64) AppleWebKit/537.36";
   "--silent"; pdf_url].

Definition download_pdf_with_curl (env : Env) (pdf_url filename : string) (w : World)
  : bool * World :=
  if negb (Py.endswith pdf_url ".pdf") then (false, w)
  else
    let filepath := Py.path_join "nse_downloads" filename in
    if W.exists_ filepath w then (true, w)
    else
      let cmd := curl_cmd pdf_url filepath in
      let o := run_process env (W.tick w) cmd in
      let w := W.leave filepath (proc_output o) (W.emit (EvProcess cmd) w) in
      match proc_status o with
      | Exited rc =>
          if (rc =? 0)%Z && W.exists_ filepath w then
            let file_size := W.getsize filepath w in
            if 0 <? file_size then
              (true, W.log_download
                       {| dl_time := now env (W.tick w); dl_filename := filename;
                          dl_size := file_size; dl_method := None |} w)
            else (false, W.remove filepath w)
          else (false, w)
      | TimeoutExpired => (false, W.remove_if_exists filepath w)
      | ToolNotFound | ProcError => (false, w)
      end.

(** [\w] of a [str] pattern below code point 256: [str.isalnum] or the
    underscore. *)
Definition isalnum (c : ascii) : bool :=
  Py.is_alnum c || (Py.code c =? 170) || (Py.code c =? 178) || (Py.code c =? 179)
  || (Py.code c =? 181) || (Py.code c =? 185) || (Py.code c =? 186)
  || Py.in_range 188 190 c || Py.in_range 192 214 c || Py.in_range 216 246 c
  || Py.in_range 248 255 c.

(** [[^\w\-_.]] is removed. *)
Definition keep_name (c : ascii) : bool :=
  isalnum c || Py.is_char "_" c || Py.is_char "-" c || Py.is_char "." c.

Definition filename_of (item : gmap string string) : string :=
  let company := Py.replace "/" "_" (Py.replace " " "_" (dict_get item "title" "Unknown")) in
  let pub_date :=
    Py.replace ":" "" (Py.replace " " "_" (Py.replace "-" "" (dict_get item "pubDate" ""))) in
  Py.filter keep_name (company +:+ "_" +:+ pub_date +:+ ".pdf").

Definition process_announcement (env : Env) (m : Monitor) (item : gmap string string)
    (is_new : bool) (w : World) : World :=
  let pdf_link := dict_get item "link" "" in
  if download_pdfs m && is_new && Py.endswith pdf_link ".pdf"
  then snd (download_pdf_with_curl env pdf_link (filename_of item) w)
  else w.

Definition item_id_of (item : gmap string string) : string :=
  dict_get item "title" "" +:+ "-" +:+ dict_get item "pubDate" "".

Record Loop : Type := {
  lp_monitor : Monitor;
  lp_new_count : nat;
  lp_world : World
}.

Definition check_item (env : Env) (l : Loop) (item : gmap string string) : Loop :=
  let item_id := item_id_of item in
  if bool_decide (item_id ∈ seen_items (lp_monitor l)) then l
  else
    let m := set_seen ({[item_id]} ∪ seen_items (lp_monitor l)) (lp_monitor l) in
    {| lp_monitor := m;
       lp_new_count := lp_new_count l + 1;
       lp_world := process_announcement env m item true (lp_world l) |}.

Definition check_loop (env : Env) (l : Loop) (items : list (gmap string string)) : Loop :=
  fold_left (check_item env) items l.

Definition check_announcements (env : Env) (max_items : Z) (m : Monitor) (w : World)
  : Monitor * World :=
  let '(rss_content, w) := fetch_rss_with_curl env w in
  match rss_content with
  | None => (m, w)
  | Some rss_content =>
      let '(items, report) := Parser.parse_rss_manually env rss_content in
      let w := match report with Some msg => W.print msg w | None => w end in
      match items with
      | [] => (m, w)
      | _ =>
          let latest_items := py_take max_items items in
          let l := check_loop env
                     {| lp_monitor := m; lp_new_count := 0; lp_world := w |}
                     latest_items in
          if 0 <? lp_new_count l
          then (lp_monitor l, save_cache env (lp_monitor l) (lp_world l))
          else (lp_monitor l, lp_world l)
      end
  end.

(** [__init__]: no seen item, then [load_cache]. *)
Definition __init__ (download_pdfs : bool) (w : World) : Monitor :=
  load_cache {| seen_items := ∅; download_pdfs := download_pdfs |} w.

End Simple.

(** ** [IncrementalNSEMonitor] (nse_monitor.py) *)

Module Incremental.

Record Monitor : Type := {
  seen_items : gset string;
  max_items_to_process : Z;
  download_pdfs : bool;
  last_check_time : option datetime
}.

Definition cache_file : string := "nse_incremental_cache.json".
Definition retry_file_name : string := "retry_downloads.json".

Definition set_seen (s : gset string) (m : Monitor) : Monitor :=
  {| seen_items := s; max_items_to_process := max_items_to_process m;
     download_pdfs := download_pdfs m; last_check_time := last_check_time m |}.

Definition load_cache (m : Monitor) (w : World) : Monitor :=
  match cache_files w !! cache_file with
  | Some cache =>
      {| seen_items := cf_seen_items cache;
         max_items_to_process := max_items_to_process m;
         download_pdfs := download_pdfs m;
         last_check_time :=
           match cf_last_check_time cache with
           | Some t => Some t
           | None => last_check_time m
           end |}
  | None => m
  end.

Definition save_cache (env : Env) (m : Monitor) (w : World) : World :=
  W.set_cache cache_file
    {| cf_seen_items := seen_items m;
       cf_last_check_time := Some (now env (W.tick w));
       cf_last_updated := now env (W.tick w) |} w.

(** [f"{entry.get('title', '')}-{entry.get('published', '')}-{entry.get('link', '')}"] *)
Definition generate_item_id (entry : gmap string string) : string :=
  dict_get entry "title" "" +:+ "-" +:+ dict_get entry "published" "" +:+ "-" +:+
  dict_get entry "link" "".

(** The three attempts of [_download_method_requests]; a partly written
    file is left as it is. *)
Fixpoint requests_attempts (env : Env) (pdf_url filepath : string) (attempts : nat)
    (w : World) : bool * World :=
  match attempts with
  | 0 => (false, w)
  | S attempts =>
      let r := http_get env (W.tick w) pdf_url in
      let w := W.emit (EvHttpGet pdf_url) w in
      match r with
      | HttpBody body =>
          let w := W.write filepath body w in
          let file_size := W.getsize filepath w in
          (true, W.log_download
                   {| dl_time := now env (W.tick w); dl_filename := Py.basename filepath;
                      dl_size := file_size; dl_method := Some "requests" |} w)
      | HttpTimeout partial | HttpError partial =>
          requests_attempts env pdf_url filepath attempts (W.leave filepath partial w)
      | LocalError partial => (false, W.leave filepath partial w)
      end
  end.

Definition _download_method_requests (env : Env) (pdf_url filepath : string) (w : World)
  : bool * World :=
  requests_attempts env pdf_url filepath 3 w.

(** [_download_method_curl] and [_download_method_wget]. *)
Definition download_method_tool (method : string) (cmd : list string)
    (env : Env) (filepath : string) (w : World) : bool * World :=
  let o := run_process env (W.tick w) cmd in
  let w := W.leave filepath (proc_output o) (W.emit (EvProcess cmd) w) in
  match proc_status o with
  | Exited rc =>
      if (rc =? 0)%Z && W.exists_ filepath w then
        let file_size := W.getsize filepath w in
        (true, W.log_download
                 {| dl_time := now env (W.tick w); dl_filename := Py.basename filepath;
                    dl_size := file_size; dl_method := Some method |} w)
      else (false, W.remove_if_exists filepath w)
  | TimeoutExpired | ToolNotFound | ProcError => (false, w)
  end.

Definition curl_cmd (pdf_url filepath : string) : list string :=
  ["curl"; "-L"; "-o"; filepath; "--connect-timeout"; "30"; "--max-time"; "300";
   "--retry"; "3"; "--retry-delay"; "2"; "--user-agent";
   "Mozilla/5.0 (Windows NT 10.0; Win64; x64) AppleWebKit/537.36"; "--silent"; pdf_url].

Definition wget_cmd (pdf_url filepath : string) : list string :=
  ["wget"; "-O"; filepath; "--timeout=30"; "--tries=3";
   "--user-agent=Mozilla/5.0 (Windows NT 10.0; Win64; x64) AppleWebKit/537.36";
   "--quiet"; pdf_url].

Definition _download_method_curl (env : Env) (pdf_url filepath : string) (w : World)
  : bool * World :=
  download_method_tool "curl" (curl_cmd pdf_url filepath) env filepath w.

Definition _download_method_wget (env : Env) (pdf_url filepath : string) (w : World)
  : bool * World :=
  download_method_tool "wget" (wget_cmd pdf_url filepath) env filepath w.

Definition download_pdf_with_smart_fallback (env : Env) (pdf_url filename : string)
    (w : World) : bool * World :=
  if (Py.len pdf_url =? 0) || negb (Py.endswith pdf_url ".pdf") then (false, w)
  else
    let filepath := Py.path_join "nse_downloads" filename in
    if W.exists_ filepath w then (true, w)
    else
      let '(ok, w) := _download_method_requests env pdf_url filepath w in
      if ok then (true, w)
      else
        let '(ok, w) := _download_method_curl env pdf_url filepath w in
        if ok then (true, w)
        else
          let '(ok, w) := _download_method_wget env pdf_url filepath w in
          if ok then (true, w) else (false, w).

(** [c.isalnum() or c in '._-'] *)
Definition keep_name (c : ascii) : bool :=
  Simple.isalnum c || Py.is_char "." c || Py.is_char "_" c || Py.is_char "-" c.

Definition safe_filename_of (entry : gmap string string) : string :=
  let company_name :=
    Py.replace "\" "_" (Py.replace "/" "_" (Py.replace " " "_" (dict_get entry "title" "Unknown"))) in
  let pub_date :=
    Py.replace "," "" (Py.replace ":" "" (Py.replace " " "_"
      (Py.replace "-" "" (dict_get entry "published" "")))) in
  Py.filter keep_name (company_name +:+ "_" +:+ pub_date +:+ ".pdf").

(** The queue read back from the retry file: empty when there is none. *)
Definition load_retry_queue (w : World) : list RetryItem :=
  match retry_file w with
  | Some q => q
  | None => []
  end.

Definition print_announcement (env : Env) (entry : gmap string string)
    (is_new download_pdf : bool) (w : World) : World :=
  let pdf_link := dict_get entry "link" "No Link" in
  if download_pdf && is_new && negb (String.eqb pdf_link "No Link") then
    let safe_filename := safe_filename_of entry in
    let '(success, w) := download_pdf_with_smart_fallback env pdf_link safe_filename w in
    if success then w
    else
      let failed_item :=
        {| ri_url := pdf_link; ri_filename := safe_filename;
           ri_company := dict_get entry "title" "";
           ri_date := dict_get entry "published" "";
           ri_timestamp := now env (W.tick w) |} in
      W.set_retry (load_retry_queue w ++ [failed_item]) w
  else w.

Record Loop : Type := {
  lp_monitor : Monitor;
  lp_new_count : nat;
  lp_world : World
}.

(** The statements run for an entry whose identifier is not in the set, in
    the order of the source: [self.seen_items.add(item_id)],
    [new_count += 1], [self.print_announcement(entry, is_new=True,
    download_pdf=self.download_pdfs)]. *)
Inductive Stmt : Type := AddSeen | CountNew | Announce.

Definition body : list Stmt := [AddSeen; CountNew; Announce].

Definition exec (env : Env) (entry : gmap string string) (l : Loop) (s : Stmt) : Loop :=
  match s with
  | AddSeen =>
      {| lp_monitor :=
           set_seen ({[generate_item_id entry]} ∪ seen_items (lp_monitor l)) (lp_monitor l);
         lp_new_count := lp_new_count l;
         lp_world := lp_world l |}
  | CountNew =>
      {| lp_monitor := lp_monitor l;
         lp_new_count := lp_new_count l + 1;
         lp_world := lp_world l |}
  | Announce =>
      {| lp_monitor := lp_monitor l;
         lp_new_count := lp_new_count l;
         lp_world :=
           print_announcement env entry true (download_pdfs (lp_monitor l)) (lp_world l) |}
  end.

(** The first [k] statements of the body: the state of the loop when the
    run is cut short after them. *)
Definition run_body (env : Env) (entry : gmap string string) (k : nat) (l : Loop) : Loop :=
  fold_left (exec env entry) (take k body) l.

Definition check_entry (env : Env) (l : Loop) (entry : gmap string string) : Loop :=
  if bool_decide (generate_item_id entry ∈ seen_items (lp_monitor l)) then l
  else fold_left (exec env entry) body l.

Definition method1_process_only_latest_items (env : Env) (m : Monitor) (w : World)
  : Monitor * World :=
  let r := feed_get env (W.tick w) rss_url in
  let w := W.emit (EvFeedGet rss_url) w in
  match r with
  | FeedError => (m, w)
  | FeedEntries [] => (m, w)
  | FeedEntries entries =>
      let latest_entries := py_take (max_items_to_process m) entries in
      let l := fold_left (check_entry env) latest_entries
                 {| lp_monitor := m; lp_new_count := 0; lp_world := w |} in
      (lp_monitor l, lp_world l)
  end.

Definition smart_incremental_check (env : Env) (m : Monitor) (w : World) : Monitor * World :=
  let '(m, w) := method1_process_only_latest_items env m w in
  (m, save_cache env m w).

(** What [self.<name>] is bound to on an instance: a method that takes a
    URL and a file name and returns a boolean, or something else (another
    method, a data attribute), which cannot be called that way. *)
Inductive Attribute : Type :=
| Downloader (f : Env -> string -> string -> World -> bool * World)
| OtherAttribute.

(** The names defined by the class body and by [__init__]. *)
Definition attributes : list (string * Attribute) :=
  [ ("__init__", OtherAttribute);
    ("load_cache", OtherAttribute);
    ("save_cache", OtherAttribute);
    ("method1_process_only_latest_items", OtherAttribute);
    ("method2_streaming_xml_parser", OtherAttribute);
    ("method3_time_based_filtering", OtherAttribute);
    ("method4_http_range_requests", OtherAttribute);
    ("smart_incremental_check", OtherAttribute);
    ("generate_item_id", OtherAttribute);
    ("download_pdf_with_smart_fallback", Downloader download_pdf_with_smart_fallback);
    ("_download_method_requests", Downloader _download_method_requests);
    ("_download_method_curl", Downloader _download_method_curl);
    ("_download_method_wget", Downloader _download_method_wget);
    ("print_announcement", OtherAttribute);
    ("print_announcement_from_dict", OtherAttribute);
    ("retry_failed_downloads", OtherAttribute);
    ("test_rss_fetching", OtherAttribute);
    ("run_incremental_monitoring", OtherAttribute);
    ("rss_url", OtherAttribute);
    ("check_interval", OtherAttribute);
    ("max_items_to_process", OtherAttribute);
    ("download_pdfs", OtherAttribute);
    ("last_check_time", OtherAttribute);
    ("seen_items", OtherAttribute);
    ("cache_file", OtherAttribute) ].

Fixpoint getattr (name : string) (attrs : list (string * Attribute)) : option Attribute :=
  match attrs with
  | [] => None
  | (n, a) :: rest => if String.eqb n name then Some a else getattr name rest
  end.

(** [self.<name>(url, filename)]: [None] stands for the exception raised
    when the attribute is missing ([AttributeError]) or is not such a
    method. *)
Definition call_method (name : string) (env : Env) (url filename : string) (w : World)
  : option (bool * World) :=
  match getattr name attributes with
  | Some (Downloader f) => Some (f env url filename w)
  | Some OtherAttribute => None
  | None => None
  end.

(** The loop of [retry_failed_downloads]: the entries that failed again,
    or [None] when an exception ended the loop. *)
Fixpoint retry_loop (env : Env) (retry_queue remaining_failures : list RetryItem)
    (w : World) : option (list RetryItem * World) :=
  match retry_queue with
  | [] => Some (remaining_failures, w)
  | item :: rest =>
      match call_method "download_pdf" env (ri_url item) (ri_filename item) w with
      | Some (success, w) =>
          if success
          then retry_loop env rest remaining_failures w
          else retry_loop env rest (remaining_failures ++ [item]) w
      | None => None
      end
  end.

Definition retry_failed_downloads (env : Env) (w : World) : World :=
  match retry_file w with
  | None => w
  | Some [] => w
  | Some retry_queue =>
      match retry_loop env retry_queue [] w with
      | Some (remaining_failures, w) => W.set_retry remaining_failures w
      | None => W.print MsgRetryError w
      end
  end.

Definition run_cycles (envs : list Env) (st : Monitor * World) : Monitor * World :=
  fold_left (fun st env => smart_incremental_check env (fst st) (snd st)) envs st.

(** [__init__]: no seen item, no last check, then [load_cache]. *)
Definition __init__ (max_items_to_process : Z) (download_pdfs : bool) (w : World) : Monitor :=
  load_cache {| seen_items := ∅; max_items_to_process := max_items_to_process;
                download_pdfs := download_pdfs; last_check_time := None |} w.



End Incremental.

(** ** [NSEDownloader] (nse_downloader.py) *)

Inductive Result : Type :=
| Returned (b : bool)
| Raised.

Module Downloader.

(** [method1_requests_with_retry]: an exception that is no
    [RequestException] is not caught. *)
Fixpoint requests_attempts (env : Env) (url filename : string) (attempts : nat)
    (w : World) : Result * World :=
  match attempts with
  | 0 => (Returned false, w)
  | S attempts =>
      let r := http_get env (W.tick w) url in
      let w := W.emit (EvHttpGet url) w in
      match r with
      | HttpBody body => (Returned true, W.write filename body w)
      | HttpTimeout partial | HttpError partial =>
          requests_attempts env url filename attempts (W.leave filename partial w)
      | LocalError partial => (Raised, W.leave filename partial w)
      end
  end.

Definition method1_requests_with_retry (env : Env) (url filename : string) (w : World)
  : Result * World :=
  requests_attempts env url filename 3 w.

(** [method2_curl_subprocess] and [method3_wget_subprocess]. *)
Definition method_tool (cmd : list string) (env : Env) (filename : string) (w : World)
  : Result * World :=
  let o := run_process env (W.tick w) cmd in
  let w := W.leave filename (proc_output o) (W.emit (EvProcess cmd) w) in
  match proc_status o with
  | Exited rc => (Returned ((rc =? 0)%Z && W.exists_ filename w), w)
  | TimeoutExpired | ToolNotFound | ProcError => (Returned false, w)
  end.

Definition curl_cmd (url filename : string) : list string :=
  ["curl"; "-L"; "-o"; filename; "--connect-timeout"; "30"; "--max-time"; "300";
   "--retry"; "3"; "--retry-delay"; "2"; "--user-agent";
   "Mozilla/5.0 (Windows NT 10.0; Win64; x64) AppleWebKit/537.36"; url].

Definition wget_cmd (url filename : string) : list string :=
  ["wget"; "-O"; filename; "--timeout=30"; "--tries=3";
   "--user-agent=Mozilla/5.0 (Windows NT 10.0; Win64; x64) AppleWebKit/537.36"; url].

Definition method2_curl_subprocess (env : Env) (url filename : string) (w : World)
  : Result * World :=
  method_tool (curl_cmd url filename) env filename w.

Definition method3_wget_subprocess (env : Env) (url filename : string) (w : World)
  : Result * World :=
  method_tool (wget_cmd url filename) env filename w.

Definition num_threads : nat := 4.

(** The byte range and the part file of worker [i]. *)
Definition chunk_range (file_size : nat) (i : nat) : Z * Z :=
  let chunk_size := (Z.of_nat file_size / Z.of_nat num_threads)%Z in
  let start := (Z.of_nat i * chunk_size)%Z in
  let stop := if i <? num_threads - 1
              then (start + chunk_size - 1)%Z
              else (Z.of_nat file_size - 1)%Z in
  (start, stop).

Definition chunk_filename (filename : string) (i : nat) : string :=
  filename +:+ ".part" +:+ Clock.dec i.

(** The workers write distinct part files, so that the files they leave do
    not depend on their interleaving; the trace lists their requests by
    index.  The result is whether every worker completed. *)
Fixpoint download_chunks (env : Env) (url filename : string) (file_size : nat)
    (indices : list nat) (w : World) : bool * World :=
  match indices with
  | [] => (true, w)
  | i :: rest =>
      let '(start, stop) := chunk_range file_size i in
      let r := http_range env (W.tick w) url start stop in
      let w := W.emit (EvHttpRange url start stop) w in
      let w := W.leave (chunk_filename filename i) r w in
      let '(ok, w) := download_chunks env url filename file_size rest w in
      (match r with Some _ => ok | None => false end, w)
  end.

(** The parts are appended to the target in order, each removed after it
    has been copied. *)
Fixpoint combine_chunks (filename : string) (indices : list nat) (acc : string)
    (w : World) : World :=
  match indices with
  | [] => W.write filename acc w
  | i :: rest =>
      let part := match fs w !! chunk_filename filename i with Some c => c | None => "" end in
      combine_chunks filename rest (acc +:+ part) (W.remove (chunk_filename filename i) w)
  end.

Definition method4_threaded_download (env : Env) (url filename : string) (w : World)
  : Result * World :=
  let h := http_head env (W.tick w) url in
  let w := W.emit (EvHttpHead url) w in
  match h with
  | HeadError => (Returned false, w)
  | HeadNoLength =>
      match method1_requests_with_retry env url filename w with
      | (Returned b, w) => (Returned b, w)
      | (Raised, w) => (Returned false, w)
      end
  | HeadLength file_size =>
      let '(ok, w) := download_chunks env url filename file_size (seq 0 num_threads) w in
      if ok
      then (Returned true, combine_chunks filename (seq 0 num_threads) "" w)
      else (Returned false, w)
  end.

Definition method5_browser_automation (env : Env) (url filename : string) (w : World)
  : Result * World :=
  let r := browser_get env (W.tick w) url in
  match r with
  | BrowserMissing => (Returned false, w)
  | BrowserError => (Returned false, W.emit (EvBrowser url) w)
  | BrowserDone saved =>
      let w := W.emit (EvBrowser url) w in
      let w := match saved with
               | Some (name, content) =>
                   W.write (Py.path_join (Py.dirname filename) name) content w
               | None => w
               end in
      (Returned (W.exists_ filename w), w)
  end.

(** The dispatch on the name of the method; an unknown name leaves
    [success = False]. *)
Definition run_method (env : Env) (method url filename : string) (w : World)
  : Result * World :=
  if String.eqb method "requests" then method1_requests_with_retry env url filename w
  else if String.eqb method "curl" then method2_curl_subprocess env url filename w
  else if String.eqb method "wget" then method3_wget_subprocess env url filename w
  else if String.eqb method "threaded" then method4_threaded_download env url filename w
  else if String.eqb method "browser" then method5_browser_automation env url filename w
  else (Returned false, w).

Definition default_methods : list string := ["requests"; "curl"; "wget"; "threaded"].

Fixpoint smart_download_loop (env : Env) (url filename : string) (methods : list string)
    (w : World) : Result * World :=
  match methods with
  | [] => (Returned false, w)
  | method :: rest =>
      let w := W.print (MsgTryingMethod method) w in
      match run_method env method url filename w with
      | (Returned true, w) => (Returned true, w)
      | (Returned false, w) =>
          smart_download_loop env url filename rest (W.remove_if_exists filename w)
      | (Raised, w) => (Raised, w)
      end
  end.

(** [if methods is None: methods = [...]] *)
Definition effective (methods : option (list string)) : list string :=
  match methods with
  | Some l => l
  | None => default_methods
  end.

Definition smart_download (env : Env) (url filename : string)
    (methods : option (list string)) (w : World) : Result * World :=
  smart_download_loop env url filename (effective methods) w.

(** One turn of the loop up to the test of [success]: the announcement and
    the method. *)
Definition attempt (env : Env) (url filename method : string) (w : World) : Result * World :=
  run_method env method url filename (W.print (MsgTryingMethod method) w).

(** The world in which the loop goes on after [method] has failed, and
    after each method of a list has. *)
Definition after_failure (env : Env) (url filename : string) (w : World) (method : string)
  : World :=
  W.remove_if_exists filename (snd (attempt env url filename method w)).

Definition after_failures (env : Env) (url filename : string) (methods : list string)
    (w : World) : World :=
  fold_left (after_failure env url filename) methods w.

(** The methods announced on standard output. *)
Definition tried (w : World) : list string :=
  omap (fun m => match m with MsgTryingMethod method => Some method | _ => None end)
       (stdout w).

End Downloader.

(** ** Concrete environments and worlds *)

Definition t0 : datetime := DateTime 2025 Aug 9 20 27 19.
Definition t1 : datetime := DateTime 2025 Aug 9 20 32 19.

Module Scenario.

Definition no_process : ProcOutcome :=
  {| proc_status := ToolNotFound; proc_stdout := ""; proc_output := None |}.

(** Nothing works: no network, no tool, no parser. *)
Definition dead (t : datetime) : Env :=
  {| http_get := fun _ _ => HttpError None;
     http_head := fun _ _ => HeadError;
     http_range := fun _ _ _ _ => None;
     run_process := fun _ _ => no_process;
     browser_get := fun _ _ => BrowserMissing;
     feed_get := fun _ _ => FeedError;
     et_fromstring := fun _ => None;
     now := fun _ => t |}.

Definition with_process (f : nat -> list string -> ProcOutcome) (env : Env) : Env :=
  {| http_get := http_get env; http_head := http_head env; http_range := http_range env;
     run_process := f; browser_get := browser_get env; feed_get := feed_get env;
     et_fromstring := et_fromstring env; now := now env |}.

Definition with_http (f : nat -> string -> HttpOutcome) (env : Env) : Env :=
  {| http_get := f; http_head := http_head env; http_range := http_range env;
     run_process := run_process env; browser_get := browser_get env;
     feed_get := feed_get env; et_fromstring := et_fromstring env; now := now env |}.

Definition with_parser (f : string -> option Element) (env : Env) : Env :=
  {| http_get := http_get env; http_head := http_head env; http_range := http_range env;
     run_process := run_process env; browser_get := browser_get env;
     feed_get := feed_get env; et_fromstring := f; now := now env |}.

Definition with_feed (f : nat -> string -> FeedOutcome) (env : Env) : Env :=
  {| http_get := http_get env; http_head := http_head env; http_range := http_range env;
     run_process := run_process env; browser_get := browser_get env;
     feed_get := f; et_fromstring := et_fromstring env; now := now env |}.

Definition empty_world : World :=
  {| fs := ∅; download_log := []; failed_log := []; cache_files := ∅;
     retry_file := None; stdout := []; trace := [] |}.

(** The first word of a command line. *)
Definition tool_of (argv : list string) : string :=
  match argv with
  | tool :: _ => tool
  | [] => ""
  end.

(** [-o path] or [-O path] of a command line. *)
Fixpoint output_path (argv : list string) : option string :=
  match argv with
  | flag :: ((path :: _) as rest) =>
      if String.eqb flag "-o" || String.eqb flag "-O" then Some path
      else output_path rest
  | _ => None
  end.

Definition has_output (argv : list string) : bool :=
  match output_path argv with Some _ => true | None => false end.

Definition feed_xml : string :=
  "<?xml version='1.0' encoding='UTF-8'?><rss><channel><item><title>EPL Limited</title><link>https://nsearchives.nseindia.com/corporate/EPL.pdf</link><description>Outcome of Board Meeting</description><pubDate>08-Aug-2025 21:14:22</pubDate><guid>1</guid></item><item><link>https://nsearchives.nseindia.com/corporate/none.pdf</link></item></channel></rss>".

Definition leaf (tag text : string) : Element := Elem tag (Some text) [].

Definition feed_tree : Element :=
  Elem "rss" None
    [Elem "channel" None
       [Elem "item" None
          [leaf "title" "EPL Limited";
           leaf "link" "https://nsearchives.nseindia.com/corporate/EPL.pdf";
           leaf "description" "Outcome of Board Meeting";
           leaf "pubDate" "08-Aug-2025 21:14:22";
           leaf "guid" "1"];
        Elem "item" None
          [leaf "link" "https://nsearchives.nseindia.com/corporate/none.pdf"]]].

(** The feed is served and parses; no download method works. *)
Definition serve_feed (argv : list string) : ProcOutcome :=
  if has_output argv then no_process
  else {| proc_status := Exited 0; proc_stdout := feed_xml; proc_output := None |}.

Definition parse_feed (s : string) : option Element :=
  if String.eqb s (Parser.sub_xml_decl feed_xml) then Some feed_tree else None.

Definition feed_only (t : datetime) : Env :=
  with_parser parse_feed (with_process (fun _ => serve_feed) (dead t)).

Definition epl_item : gmap string string :=
  {[ "title" := "EPL Limited";
     "link" := "https://nsearchives.nseindia.com/corporate/EPL.pdf";
     "description" := "Outcome of Board Meeting";
     "pubDate" := "08-Aug-2025 21:14:22" ]}.

(** A download directory that already holds one document. *)
Definition stocked_world : World :=
  W.write "nse_downloads/EPL_Limited_08Aug2025_211422.pdf" "%PDF-1.4 EPL" empty_world.

(** Every transfer succeeds. *)
Definition deliver (argv : list string) : ProcOutcome :=
  {| proc_status := Exited 0; proc_stdout := feed_xml;
     proc_output := if has_output argv then Some "%PDF-1.4 body" else None |}.

Definition generous (t : datetime) : Env :=
  with_http (fun _ _ => HttpBody "%PDF-1.4 body")
    (with_parser parse_feed (with_process (fun _ => deliver) (dead t))).

Definition epl_retry : RetryItem :=
  {| ri_url := "https://nsearchives.nseindia.com/corporate/EPL.pdf";
     ri_filename := "EPL_Limited_08Aug2025_211422.pdf";
     ri_company := "EPL Limited"; ri_date := "08-Aug-2025 21:14:22";
     ri_timestamp := t0 |}.

(** The transfer with [requests] fails, [curl] stops half-way with exit
    code 18 (partial file) and [wget] gives up with exit code 1. *)
Definition truncate (argv : list string) : ProcOutcome :=
  if String.eqb (tool_of argv) "curl" && has_output argv then
    {| proc_status := Exited 18; proc_stdout := ""; proc_output := Some "%PDF-1.4 trunc" |}
  else
    {| proc_status := Exited 1; proc_stdout := ""; proc_output := None |}.

Definition truncating (t : datetime) : Env := with_process (fun _ => truncate) (dead t).

(** [requests] fails and [curl] delivers. *)
Definition curl_only (argv : list string) : ProcOutcome :=
  if String.eqb (tool_of argv) "curl" && has_output argv then
    {| proc_status := Exited 0; proc_stdout := ""; proc_output := Some "%PDF-1.4 body" |}
  else no_process.

Definition curl_works (t : datetime) : Env := with_process (fun _ => curl_only) (dead t).

Definition epl_id : string := "EPL Limited-08-Aug-2025 21:14:22".

(** A monitor that has seen the record of the feed, and its cache file as
    written at [t0]. *)
Definition complete_monitor : Complete.Monitor :=
  {| Complete.seen_items := {[epl_id]}; Complete.max_items := 20;
     Complete.download_pdfs := true |}.

Definition fresh_monitor : Complete.Monitor :=
  {| Complete.seen_items := ∅; Complete.max_items := 20; Complete.download_pdfs := true |}.

Definition cached_world : World :=
  W.set_cache Complete.cache_file
    {| cf_seen_items := {[epl_id]}; cf_last_check_time := None; cf_last_updated := t0 |}
    empty_world.

(** A server that honours range requests for a document of 13 bytes. *)
Definition document : string := "%PDF-1.4 body".

Definition serve_range (first last : Z) : option string :=
  Some (String.substring (Z.to_nat first) (Z.to_nat (last - first + 1)) document).

Definition ranged (t : datetime) : Env :=
  {| http_get := fun _ _ => HttpError None;
     http_head := fun _ _ => HeadLength (Py.len document);
     http_range := fun _ _ => serve_range;
     run_process := fun _ _ => no_process;
     browser_get := fun _ _ => BrowserMissing;
     feed_get := fun _ _ => FeedError;
     et_fromstring := fun _ => None;
     now := fun _ => t |}.

(** A record whose link is not a PDF document. *)
Definition xml_entry : gmap string string :=
  {[ "title" := "EPL Limited";
     "link" := "https://nsearchives.nseindia.com/corporate/EPL.xml";
     "published" := "08-Aug-2025 21:14:22" ]}.

(** [curl] is missing, [requests] breaks off after the first bytes and
    [wget] runs into its timeout. *)
Definition stalling (t : datetime) : Env :=
  with_http (fun _ _ => HttpError (Some "%PDF-1.4 tr"))
    (with_process
       (fun _ argv =>
          if String.eqb (tool_of argv) "wget"
          then {| proc_status := TimeoutExpired; proc_stdout := ""; proc_output := None |}
          else no_process)
       (dead t)).


(** A feed that was cut off in the middle of its second item: it has no
    closing [</rss>]. *)
Definition truncated_xml : string :=
  "<rss><channel><item><title>EPL Limited</title><link>https://nsearchives.nseindia.com/corporate/EPL.pdf</link><pubDate>08-Aug-2025 21:14:22</pubDate></item><item><title>Cut o".

Definition epl_entry : gmap string string :=
  {[ "title" := "EPL Limited";
     "link" := "https://nsearchives.nseindia.com/corporate/EPL.pdf";
     "published" := "08-Aug-2025 21:14:22" ]}.

(** [feedparser.parse] is lenient: of a document that is cut off it gives
    the entries that are complete. *)
Definition lenient_parse (content : string) : list (gmap string string) :=
  if String.eqb content truncated_xml then [epl_entry] else [].

(** The server delivers the cut-off feed, to [requests.get] and to
    [curl]. *)
Definition truncated_served (t : datetime) : Env :=
  with_feed (fun _ _ => FeedEntries (lenient_parse truncated_xml))
    (with_process
       (fun _ _ => {| proc_status := Exited 0; proc_stdout := truncated_xml;
                      proc_output := None |})
       (dead t)).

End Scenario.


(** ** What an operation may change *)

Module Frame.

(** From [w] to [w']: of the files held in [fs], only [path] may differ;
    the caches and the retry queue are the same; at most [n] events were
    added to the trace, and the two logs were only appended to. *)
Record Effect (path : string) (n : nat) (w w' : World) : Prop := {
  eff_fs : forall p, p <> path -> fs w' !! p = fs w !! p;
  eff_cache : cache_files w' = cache_files w;
  eff_retry : retry_file w' = retry_file w;
  eff_trace : exists evs, trace w' = trace w ++ evs /\ length evs <= n;
  eff_dlog : download_log w `prefix_of` download_log w';
  eff_flog : failed_log w `prefix_of` failed_log w'
}.

(** A path directly inside the download directory: the directory, a
    slash, and a name without path separator. *)
Definition in_downloads (p : string) : Prop :=
  exists name,
    p = "nse_downloads/" +:+ name /\
    Py.forallb (fun c => negb (Sanitizer.is_path_sep c)) name = true.

(** From [w] to [w']: the files outside the download directory are the
    same, and at most [n] events were added to the trace. *)
Record Within (n : nat) (w w' : World) : Prop := {
  win_fs : forall p, ~ in_downloads p -> fs w' !! p = fs w !! p;
  win_trace : exists evs, trace w' = trace w ++ evs /\ length evs <= n
}.

(** From [w] to [w']: of the files, only those in [allowed] may differ; the
    two logs, the caches and the retry queue are the same; at most [n]
    events were added to the trace. *)
Record Among (allowed : string -> Prop) (n : nat) (w w' : World) : Prop := {
  am_fs : forall p, ~ allowed p -> fs w' !! p = fs w !! p;
  am_dlog : download_log w' = download_log w;
  am_flog : failed_log w' = failed_log w;
  am_cache : cache_files w' = cache_files w;
  am_retry : retry_file w' = retry_file w;
  am_trace : exists evs, trace w' = trace w ++ evs /\ length evs <= n
}.

(** A file name that names a regular file of the directory it is put in:
    no path separator, and none of the empty name, [.] and [..]. *)
Definition plain (name : string) : Prop :=
  Py.forallb (fun c => negb (Sanitizer.is_path_sep c)) name = true /\
  name <> "" /\ name <> "." /\ name <> "..".

(** The files that the monitors keep in the working directory: the two
    logs, the retry queue and the three caches.  The model holds them
    apart from [fs]. *)
Definition book_files : list string :=
  ["download_log.txt"; "failed_downloads.txt"; Incremental.retry_file_name;
   Complete.cache_file; Simple.cache_file; Incremental.cache_file].

(** From [w] to [w'], what a monitor whose cache file is [cache] may
    change in the working directory: files directly in the download
    directory, its own cache file, the two logs, to which it appends, and
    the retry queue, which it extends.  Every other file is as it was. *)
Record Books (cache : string) (w w' : World) : Prop := {
  bk_fs : forall p, ~ in_downloads p -> ~ In p book_files -> fs w' !! p = fs w !! p;
  bk_cache : forall k, k <> cache -> cache_files w' !! k = cache_files w !! k;
  bk_dlog : download_log w `prefix_of` download_log w';
  bk_flog : failed_log w `prefix_of` failed_log w';
  bk_queue : Incremental.load_retry_queue w `prefix_of` Incremental.load_retry_queue w'
}.

(** The target of a download of [NSEDownloader] and the part files of its
    workers. *)
Definition target_or_part (filename p : string) : Prop :=
  p = filename \/
  exists i, i < Downloader.num_threads /\ p = Downloader.chunk_filename filename i.

End Frame.

(** ** The retry queue *)

Module Queue.

(** [item] is the entry of the retry queue that [print_announcement]
    builds for the record [entry]. *)
Definition describes (entry : gmap string string) (item : RetryItem) : Prop :=
  ri_url item = dict_get entry "link" "No Link" /\
  ri_filename item = Incremental.safe_filename_of entry /\
  ri_company item = dict_get entry "title" "" /\
  ri_date item = dict_get entry "published" "".

End Queue.

(** * Properties *)

Example sanitize_EPL :
  Sanitizer.create_safe_filename t0 "EPL Limited" "08-Aug-2025 21:14:22" "x.pdf"
  = "EPL_Limited_08Aug2025_211422.pdf".
Proof. vm_compute. reflexivity. Qed.

Example sanitize_fallback :
  Sanitizer.create_safe_filename t0 "" "-" "x.pdf" = "NSE_Announcement_20250809_202719.pdf".
Proof. vm_compute. reflexivity. Qed.

Example sub_xml_decl_feed :
  Py.startswith (Parser.sub_xml_decl Scenario.feed_xml) "<rss><channel>" = true /\
  Parser.sub_xml_decl "a<?xml?>b<?xml x>c<?xml y ?>d<?xml" = "ab<?xml x>cd<?xml".
Proof. vm_compute. split; reflexivity. Qed.

Example parse_feed_items :
  Parser.parse_rss_manually (Scenario.feed_only t0) Scenario.feed_xml
  = ([Scenario.epl_item], None).
Proof. vm_compute. reflexivity. Qed.

Example parse_garbage :
  Parser.parse_rss_manually (Scenario.feed_only t0) "<rss><item></rss>"
  = ([], Some MsgXmlParseError).
Proof. vm_compute. reflexivity. Qed.

Example py_take_examples :
  py_take 2 [1; 2; 3] = [1; 2] /\ py_take (-1) [1; 2; 3] = [1; 2] /\
  py_take (-5) [1; 2; 3] = [] /\ py_take 7 [1; 2; 3] = [1; 2; 3].
Proof. repeat split; reflexivity. Qed.

Example path_join_examples :
  Py.path_join "nse_downloads" "a.pdf" = "nse_downloads/a.pdf" /\
  Py.path_join "nse_downloads" "/tmp/a.pdf" = "/tmp/a.pdf" /\
  Py.basename "nse_downloads/a.pdf" = "a.pdf".
Proof. vm_compute. repeat split; reflexivity. Qed.

Example dirname_examples :
  Py.dirname "nse_downloads/a.pdf" = "nse_downloads" /\ Py.dirname "a.pdf" = "" /\
  Py.dirname "/a.pdf" = "/" /\ Py.dirname "a//b.pdf" = "a".
Proof. vm_compute. repeat split; reflexivity. Qed.

Example strip_examples :
  Py.strip "  a b  " = "a b" /\ Py.strip "   " = "" /\
  Py.sub_edge_underscores "__a__b__" = "a__b" /\
  Py.sub_runs (Py.is_char Py.underscore) 2 "_" "a___b_c__" = "a_b_c_".
Proof. vm_compute. repeat split; reflexivity. Qed.

(** A whole cycle of [CompleteNSEMonitor] on the sample feed, every
    transfer succeeding: the record is marked, the document is stored under
    the sanitized name by the first method, and the cache is saved. *)
Example complete_cycle_downloads :
  let r := Complete.check_announcements (Scenario.generous t1) Scenario.fresh_monitor
             Scenario.empty_world in
  Complete.seen_items (fst r) = {[Scenario.epl_id]} /\
  fs (snd r) !! "nse_downloads/EPL_Limited_08Aug2025_211422.pdf" = Some "%PDF-1.4 body" /\
  download_log (snd r)
  = [{| dl_time := t1; dl_filename := "EPL_Limited_08Aug2025_211422.pdf";
        dl_size := 13; dl_method := Some "requests" |}] /\
  trace (snd r)
  = [EvProcess Complete.fetch_cmd;
     EvHttpGet "https://nsearchives.nseindia.com/corporate/EPL.pdf"] /\
  is_Some (cache_files (snd r) !! Complete.cache_file).
Proof. vm_compute. repeat split; try reflexivity. eexists. reflexivity. Qed.

Example downloader_falls_back_to_curl :
  let r := Downloader.smart_download (Scenario.curl_works t1)
             "https://nsearchives.nseindia.com/corporate/EPL.pdf" "EPL.pdf" None
             Scenario.empty_world in
  fst r = Returned true /\
  fs (snd r) !! "EPL.pdf" = Some "%PDF-1.4 body" /\
  Downloader.tried (snd r) = ["requests"; "curl"].
Proof. vm_compute. repeat split; reflexivity. Qed.

Example sanitize_no_date :
  Sanitizer.create_safe_filename t0 "A/B  c" "" "x.xml" = "AB_c_09Aug2025_202719.xml".
Proof. vm_compute. reflexivity. Qed.

(** ** Facts about the string operations *)

Module PyFacts.

Lemma app_nil_l (s : string) : "" +:+ s = s.
Proof. reflexivity. Qed.

Lemma app_cons (c : ascii) (a b : string) : String c a +:+ b = String c (a +:+ b).
Proof. reflexivity. Qed.

Lemma app_nil_r (s : string) : s +:+ "" = s.
Proof. induction s as [|c s IH]; [reflexivity|]. rewrite app_cons, IH. reflexivity. Qed.

Lemma app_assoc (a b c : string) : (a +:+ b) +:+ c = a +:+ (b +:+ c).
Proof. induction a as [|x a IH]; [reflexivity|]. rewrite !app_cons, IH. reflexivity. Qed.

Lemma len_app (a b : string) : Py.len (a +:+ b) = Py.len a + Py.len b.
Proof.
  induction a as [|x a IH]; [reflexivity|].
  rewrite app_cons. unfold Py.len in *. simpl. rewrite IH. reflexivity.
Qed.

Lemma len_take (n : nat) (s : string) : Py.len (Py.take n s) <= n.
Proof.
  revert s. induction n as [|n IH]; intros [|c s]; unfold Py.len in *; simpl; try lia.
  specialize (IH s). lia.
Qed.

Lemma forallb_app (p : ascii -> bool) (a b : string) :
  Py.forallb p (a +:+ b) = Py.forallb p a && Py.forallb p b.
Proof.
  induction a as [|x a IH]; [reflexivity|].
  rewrite app_cons. simpl. rewrite IH. apply andb_assoc.
Qed.

Lemma forallb_impl (p q : ascii -> bool) (s : string) :
  (forall c, p c = true -> q c = true) ->
  Py.forallb p s = true -> Py.forallb q s = true.
Proof.
  intros Hpq. induction s as [|c s IH]; simpl; [reflexivity|].
  intros [Hc Hs]%andb_true_iff. rewrite (Hpq _ Hc), (IH Hs). reflexivity.
Qed.

Lemma forallb_filter (p : ascii -> bool) (s : string) :
  Py.forallb p (Py.filter p s) = true.
Proof.
  induction s as [|c s IH]; simpl; [reflexivity|].
  destruct (p c) eqn:Hc; simpl; [rewrite Hc|]; exact IH.
Qed.

Lemma forallb_filter_keeps (p q : ascii -> bool) (s : string) :
  Py.forallb q s = true -> Py.forallb q (Py.filter p s) = true.
Proof.
  induction s as [|c s IH]; simpl; [reflexivity|].
  intros [Hc Hs]%andb_true_iff. destruct (p c); simpl; [rewrite Hc|]; auto.
Qed.

Lemma forallb_take (p : ascii -> bool) (n : nat) (s : string) :
  Py.forallb p s = true -> Py.forallb p (Py.take n s) = true.
Proof.
  revert s. induction n as [|n IH]; intros [|c s]; simpl; try reflexivity.
  intros [Hc Hs]%andb_true_iff. rewrite Hc. simpl. auto.
Qed.

Lemma forallb_lstrip (p q : ascii -> bool) (s : string) :
  Py.forallb q s = true -> Py.forallb q (Py.lstrip_by p s) = true.
Proof.
  induction s as [|c s IH]; simpl; [reflexivity|].
  intros H. destruct (p c); [|exact H].
  apply andb_true_iff in H as [_ Hs]. auto.
Qed.

Lemma forallb_rstrip (p q : ascii -> bool) (s : string) :
  Py.forallb q s = true -> Py.forallb q (Py.rstrip_by p s) = true.
Proof.
  induction s as [|c s IH]; simpl; [reflexivity|].
  intros [Hc Hs]%andb_true_iff. specialize (IH Hs).
  destruct (Py.rstrip_by p s) as [|d r].
  - destruct (p c); simpl; [reflexivity|]. rewrite Hc. reflexivity.
  - simpl in *. rewrite Hc. exact IH.
Qed.

Lemma forallb_flush (q : ascii -> bool) (min : nat) (rep run : string) :
  Py.forallb q rep = true -> Py.forallb q run = true ->
  Py.forallb q (Py.flush_run min rep run) = true.
Proof.
  intros Hrep Hrun. unfold Py.flush_run. destruct run; [reflexivity|].
  destruct (min <=? _); assumption.
Qed.

(** Every character of the input is acceptable: so is every character of
    the output. *)
Lemma forallb_sub_runs_from (p q : ascii -> bool) (min : nat) (rep run s : string) :
  Py.forallb q rep = true -> Py.forallb q run = true -> Py.forallb q s = true ->
  Py.forallb q (Py.sub_runs_from p min rep run s) = true.
Proof.
  intros Hrep. revert run. induction s as [|c s IH]; intros run Hrun; simpl.
  - intros _. apply forallb_flush; assumption.
  - intros [Hc Hs]%andb_true_iff. destruct (p c).
    + apply IH; [|exact Hs]. rewrite forallb_app, Hrun. simpl. rewrite Hc. reflexivity.
    + rewrite forallb_app, forallb_flush by assumption. simpl. rewrite Hc. simpl.
      apply IH; [reflexivity | exact Hs].
Qed.

Lemma flush_run_one (rep run : string) :
  Py.flush_run 1 rep run = match run with EmptyString => "" | _ => rep end.
Proof. destruct run; reflexivity. Qed.

(** With [min = 1] every character of the class is replaced: the output
    has the replacement and the characters outside the class. *)
Lemma forallb_sub_runs_one (p q : ascii -> bool) (rep run s : string) :
  Py.forallb q rep = true ->
  Py.forallb (fun c => p c || q c) s = true ->
  Py.forallb q (Py.sub_runs_from p 1 rep run s) = true.
Proof.
  intros Hrep. revert run. induction s as [|c s IH]; intros run; simpl.
  - intros _. rewrite flush_run_one. destruct run; [reflexivity | exact Hrep].
  - intros [Hc Hs]%andb_true_iff. destruct (p c) eqn:Hp.
    + apply IH. exact Hs.
    + simpl in Hc. rewrite forallb_app, flush_run_one. simpl. rewrite Hc, (IH _ Hs).
      destruct run; simpl; [reflexivity|]. rewrite Hrep. reflexivity.
Qed.

Lemma forallb_replace (q : ascii -> bool) (old : ascii) (new s : string) :
  Py.forallb q new = true -> Py.forallb q s = true ->
  Py.forallb q (Py.replace old new s) = true.
Proof.
  intros Hnew. induction s as [|c s IH]; simpl; [reflexivity|].
  intros [Hc Hs]%andb_true_iff. destruct (Py.is_char old c).
  - rewrite forallb_app, Hnew. simpl. auto.
  - simpl. rewrite Hc. simpl. auto.
Qed.

Lemma last_char_forallb (q : ascii -> bool) (s : string) (c : ascii) :
  Py.forallb q s = true -> Py.last_char s = Some c -> q c = true.
Proof.
  induction s as [|d s IH]; simpl; [discriminate|].
  intros [Hd Hs]%andb_true_iff. destruct s as [|e s].
  - intros [= <-]. exact Hd.
  - apply IH. exact Hs.
Qed.

Lemma forallb_sub_edge (q : ascii -> bool) (s : string) :
  Py.forallb q s = true -> Py.forallb q (Py.sub_edge_underscores s) = true.
Proof.
  intros Hs. unfold Py.sub_edge_underscores.
  pose proof (forallb_lstrip (Py.is_char Py.underscore) q s Hs) as H1.
  unfold Py.ends_with_newline.
  destruct (Py.last_char _) as [c|] eqn:Hl.
  - destruct (Py.is_char Py.newline c) eqn:Hc.
    + rewrite forallb_app. rewrite forallb_rstrip by (apply forallb_take; exact H1).
      simpl. apply Ascii.eqb_eq in Hc. subst c.
      rewrite (last_char_forallb q _ _ H1 Hl). reflexivity.
    + apply forallb_rstrip. exact H1.
  - apply forallb_rstrip. exact H1.
Qed.

(** *** Suffixes *)

Lemma endswith_unfold (s t : string) :
  Py.endswith s t =
  (String.eqb s t || match s with EmptyString => false | String _ r => Py.endswith r t end).
Proof. destruct s; reflexivity. Qed.

Lemma endswith_refl (s : string) : Py.endswith s s = true.
Proof. rewrite endswith_unfold, String.eqb_refl. reflexivity. Qed.

Lemma endswith_app (a e : string) : Py.endswith (a +:+ e) e = true.
Proof.
  induction a as [|c a IH]; [apply endswith_refl|].
  rewrite app_cons, endswith_unfold, IH. apply orb_true_r.
Qed.

Lemma endswith_spec (s t : string) :
  Py.endswith s t = true <-> exists a, s = a +:+ t.
Proof.
  split.
  - induction s as [|c s IH]; rewrite endswith_unfold.
    + rewrite orb_false_r. intros ->%String.eqb_eq. exists "". reflexivity.
    + intros [->%String.eqb_eq | H]%orb_true_iff.
      * exists "". reflexivity.
      * destruct (IH H) as [a ->]. exists (String c a). reflexivity.
  - intros [a ->]. apply endswith_app.
Qed.

Lemma startswith_nil (s : string) : Py.startswith s "" = true.
Proof. destruct s; reflexivity. Qed.

Lemma startswith_cons (d c : ascii) (s t : string) :
  Py.startswith (String d s) (String c t) = Ascii.eqb d c && Py.startswith s t.
Proof. reflexivity. Qed.

Lemma startswith_spec (s t : string) :
  Py.startswith s t = true <-> exists b, s = t +:+ b.
Proof.
  revert s. induction t as [|c t IH]; intros s.
  - rewrite startswith_nil. split; [intros _; exists s; reflexivity | reflexivity].
  - destruct s as [|d s].
    + split; [discriminate | intros [b Hb]; discriminate].
    + rewrite startswith_cons, andb_true_iff, IH. split.
      * intros [->%Ascii.eqb_eq [b ->]]. exists b. reflexivity.
      * intros [b Hb]. rewrite app_cons in Hb. injection Hb as -> ->.
        split; [apply Ascii.eqb_refl | exists b; reflexivity].
Qed.

Lemma contains_unfold (s t : string) :
  Py.contains s t =
  (Py.startswith s t || match s with EmptyString => false | String _ r => Py.contains r t end).
Proof. destruct s; reflexivity. Qed.

Lemma contains_spec (s t : string) :
  Py.contains s t = true <-> exists a b, s = a +:+ t +:+ b.
Proof.
  induction s as [|c s IH]; rewrite contains_unfold.
  - rewrite orb_false_r, startswith_spec. split.
    + intros [b Hb]. exists "", b. exact Hb.
    + intros [[|x a] [b Hb]]; [exists b; exact Hb|discriminate].
  - rewrite orb_true_iff, startswith_spec, IH. split.
    + intros [[b Hb] | (a & b & ->)].
      * exists "", b. exact Hb.
      * exists (String c a), b. reflexivity.
    + intros ([|x a] & b & Hb).
      * left. exists b. exact Hb.
      * right. rewrite app_cons in Hb. injection Hb as _ ->. exists a, b. reflexivity.
Qed.

(** A suffix with no character of the class goes through [re.sub]
    unchanged. *)
Lemma sub_runs_from_clean (p : ascii -> bool) (min : nat) (rep e : string) :
  Py.forallb (fun c => negb (p c)) e = true ->
  Py.sub_runs_from p min rep "" e = e.
Proof.
  induction e as [|c e IH]; simpl; [reflexivity|].
  intros [Hc He]%andb_true_iff. apply negb_true_iff in Hc. rewrite Hc, (IH He).
  reflexivity.
Qed.

Lemma sub_runs_from_app_clean (p : ascii -> bool) (min : nat) (rep run s e : string) :
  Py.forallb (fun c => negb (p c)) e = true ->
  Py.sub_runs_from p min rep run (s +:+ e) = Py.sub_runs_from p min rep run s +:+ e.
Proof.
  intros He. revert run. induction s as [|c s IH]; intros run.
  - rewrite app_nil_l. destruct e as [|c e]; simpl.
    + rewrite app_nil_r. reflexivity.
    + simpl in He. apply andb_true_iff in He as [Hc He]. apply negb_true_iff in Hc.
      rewrite Hc, sub_runs_from_clean by exact He. reflexivity.
  - rewrite app_cons. simpl. destruct (p c).
    + apply IH.
    + rewrite IH, app_assoc, app_cons. reflexivity.
Qed.

Lemma lstrip_app (p : ascii -> bool) (s : string) (c : ascii) (e : string) :
  p c = false ->
  Py.lstrip_by p (s +:+ String c e) = Py.lstrip_by p s +:+ String c e.
Proof.
  intros Hc. induction s as [|d s IH].
  - rewrite app_nil_l. simpl. rewrite Hc. reflexivity.
  - rewrite app_cons. simpl. destruct (p d); [exact IH | reflexivity].
Qed.

Lemma rstrip_fixed_app (p : ascii -> bool) (s e : string) :
  e <> "" -> Py.rstrip_by p e = e -> Py.rstrip_by p (s +:+ e) = s +:+ e.
Proof.
  intros Hne He. induction s as [|d s IH]; [exact He|].
  rewrite app_cons. simpl. rewrite IH.
  destruct (s +:+ e) eqn:Hse; [|reflexivity].
  destruct s; [rewrite app_nil_l in Hse; contradiction | discriminate].
Qed.

Lemma last_char_app (s : string) (c : ascii) (e : string) :
  Py.last_char (s +:+ String c e) = Py.last_char (String c e).
Proof.
  induction s as [|d s IH]; [reflexivity|].
  rewrite app_cons. change (Py.last_char (String d (s +:+ String c e)))
    with (match s +:+ String c e with "" => Some d | _ => Py.last_char (s +:+ String c e) end).
  destruct (s +:+ String c e) eqn:H; [|exact IH].
  destruct s; discriminate.
Qed.

End PyFacts.

(** ** The file-name sanitizer *)

Module SanitizerFacts.
Import PyFacts.

Lemma name_char_not_sep (c : ascii) :
  Sanitizer.name_char c = true -> negb (Sanitizer.is_path_sep c) = true.
Proof.
  intros H. destruct (Sanitizer.is_path_sep c) eqn:E; [|reflexivity].
  unfold Sanitizer.is_path_sep, Py.is_char in E.
  apply orb_true_iff in E as [E|E]; apply Ascii.eqb_eq in E; subst c; discriminate H.
Qed.

Lemma keep_date_name_char (c : ascii) :
  Sanitizer.keep_date c = true -> Sanitizer.name_char c = true.
Proof.
  unfold Sanitizer.keep_date, Sanitizer.name_char. intros ->. reflexivity.
Qed.

Lemma digit_keep_date (c : ascii) : Py.is_digit c = true -> Sanitizer.keep_date c = true.
Proof.
  unfold Sanitizer.keep_date, Py.is_alnum. intros ->. rewrite !orb_true_r. reflexivity.
Qed.

Lemma uint_digits (u : Decimal.uint) : Py.forallb Py.is_digit (NilEmpty.string_of_uint u) = true.
Proof. induction u; simpl; try reflexivity; exact IHu. Qed.

Lemma dec_digits (n : nat) : Py.forallb Py.is_digit (Clock.dec n) = true.
Proof.
  unfold Clock.dec, NilZero.string_of_uint.
  destruct (Nat.to_uint n) eqn:E; try reflexivity; rewrite <- E; apply uint_digits.
Qed.

Lemma dec_keep_date (n : nat) : Py.forallb Sanitizer.keep_date (Clock.dec n) = true.
Proof. apply (forallb_impl Py.is_digit); [apply digit_keep_date | apply dec_digits]. Qed.

Lemma pad2_keep_date (n : nat) : Py.forallb Sanitizer.keep_date (Clock.pad2 n) = true.
Proof.
  unfold Clock.pad2. destruct (n <? 10); [rewrite forallb_app|]; rewrite dec_keep_date; reflexivity.
Qed.

Lemma pad4_keep_date (n : nat) : Py.forallb Sanitizer.keep_date (Clock.pad4 n) = true.
Proof.
  unfold Clock.pad4.
  destruct (n <? 10); [rewrite forallb_app, dec_keep_date; reflexivity|].
  destruct (n <? 100); [rewrite forallb_app, dec_keep_date; reflexivity|].
  destruct (n <? 1000); [rewrite forallb_app, dec_keep_date; reflexivity|].
  apply dec_keep_date.
Qed.

Lemma month_abbr_keep_date (m : month) :
  Py.forallb Sanitizer.keep_date (Clock.month_abbr m) = true.
Proof. destruct m; reflexivity. Qed.

Lemma strftime_dbY_HMS_keep_date (t : datetime) :
  Py.forallb Sanitizer.keep_date (Clock.strftime_dbY_HMS t) = true.
Proof.
  unfold Clock.strftime_dbY_HMS.
  rewrite !forallb_app, !pad2_keep_date, pad4_keep_date, month_abbr_keep_date. reflexivity.
Qed.

Lemma strftime_Ymd_HMS_keep_date (t : datetime) :
  Py.forallb Sanitizer.keep_date (Clock.strftime_Ymd_HMS t) = true.
Proof.
  unfold Clock.strftime_Ymd_HMS.
  rewrite !forallb_app, !pad2_keep_date, pad4_keep_date. reflexivity.
Qed.

Lemma file_ext_cases (u : string) :
  Sanitizer.file_ext_of u = ".pdf" \/ Sanitizer.file_ext_of u = ".xml".
Proof.
  unfold Sanitizer.file_ext_of.
  destruct (Py.endswith u ".pdf"); [left; reflexivity|].
  destruct (Py.endswith u ".xml"); [right | left]; reflexivity.
Qed.

Lemma company_clean_keep_date (company : string) :
  Py.forallb Sanitizer.keep_date (Sanitizer.company_clean company) = true.
Proof.
  unfold Sanitizer.company_clean, Py.sub_runs, Py.strip.
  apply forallb_sub_runs_one; [reflexivity|].
  apply forallb_rstrip, forallb_lstrip.
  apply (forallb_impl Sanitizer.keep_company); [|apply forallb_filter].
  intros c. unfold Sanitizer.keep_company, Sanitizer.keep_date.
  intros [->| ->]%orb_true_iff; rewrite ?orb_true_r; reflexivity.
Qed.

Lemma date_clean_keep_date (now : datetime) (pub_date : string) :
  Py.forallb Sanitizer.keep_date (Sanitizer.date_clean now pub_date) = true.
Proof.
  unfold Sanitizer.date_clean. destruct (Py.len pub_date =? 0).
  - apply strftime_dbY_HMS_keep_date.
  - apply forallb_filter.
Qed.

Lemma stem_name_chars (now : datetime) (company pub_date : string) :
  Py.forallb Sanitizer.name_char (Sanitizer.stem now company pub_date) = true.
Proof.
  unfold Sanitizer.stem, Py.sub_runs. apply forallb_lstrip.
  apply forallb_sub_runs_from; try reflexivity.
  rewrite !forallb_app.
  rewrite (forallb_impl _ _ _ keep_date_name_char (company_clean_keep_date company)).
  rewrite (forallb_impl _ _ _ keep_date_name_char (date_clean_keep_date now pub_date)).
  reflexivity.
Qed.

(** The cleaned name is the stem followed by the extension: the extension
    has no underscore, so neither [re.sub] touches it. *)
Lemma combined_stem (now : datetime) (company pub_date file_url : string) :
  Sanitizer.combined now company pub_date file_url
  = Sanitizer.stem now company pub_date +:+ Sanitizer.file_ext_of file_url.
Proof.
  unfold Sanitizer.combined, Sanitizer.stem, Py.sub_runs.
  set (cc := Sanitizer.company_clean company).
  set (dc := Sanitizer.date_clean now pub_date).
  set (ext := Sanitizer.file_ext_of file_url).
  assert (Hext : exists e, ext = String "." e /\
                  Py.forallb (fun c => negb (Py.is_char Py.underscore c)) ext = true /\
                  Py.rstrip_by (Py.is_char Py.underscore) ext = ext /\
                  Py.last_char ext <> Some Py.newline).
  { destruct (file_ext_cases file_url) as [E|E]; fold ext in E; rewrite E;
      eexists; repeat split; discriminate. }
  destruct Hext as (e & He & Hclean & Hfix & Hlast).
  replace (cc +:+ "_" +:+ dc +:+ ext) with ((cc +:+ "_" +:+ dc) +:+ ext)
    by (rewrite !app_assoc; reflexivity).
  rewrite sub_runs_from_app_clean by exact Hclean.
  set (body := Py.sub_runs_from _ _ _ _ _).
  unfold Py.sub_edge_underscores.
  rewrite He, lstrip_app by reflexivity. rewrite <- He.
  set (st := Py.lstrip_by _ body).
  assert (Hnl : Py.ends_with_newline (st +:+ ext) = false).
  { unfold Py.ends_with_newline. rewrite He, last_char_app, <- He.
    destruct (Py.last_char ext) as [c|] eqn:El; [|reflexivity].
    destruct (Py.is_char Py.newline c) eqn:Ec; [|reflexivity].
    apply Ascii.eqb_eq in Ec. subst c. contradiction. }
  rewrite Hnl. apply rstrip_fixed_app; [rewrite He; discriminate | exact Hfix].
Qed.

Lemma file_ext_name_chars (u : string) :
  Py.forallb Sanitizer.name_char (Sanitizer.file_ext_of u) = true.
Proof. destruct (file_ext_cases u) as [-> | ->]; reflexivity. Qed.

Lemma file_ext_len (u : string) : Py.len (Sanitizer.file_ext_of u) = 4.
Proof. destruct (file_ext_cases u) as [-> | ->]; reflexivity. Qed.

Lemma output_name_chars (now : datetime) (company pub_date file_url : string) :
  Py.forallb Sanitizer.name_char
    (Sanitizer.create_safe_filename now company pub_date file_url) = true.
Proof.
  unfold Sanitizer.create_safe_filename.
  set (ext := Sanitizer.file_ext_of file_url).
  assert (Hext : Py.forallb Sanitizer.name_char ext = true) by apply file_ext_name_chars.
  set (name := if Sanitizer.needs_fallback _ _ then _ else _).
  assert (Hname : Py.forallb Sanitizer.name_char name = true).
  { subst name. destruct (Sanitizer.needs_fallback _ _).
    - rewrite !forallb_app, Hext.
      rewrite (forallb_impl _ _ _ keep_date_name_char (strftime_Ymd_HMS_keep_date now)).
      reflexivity.
    - rewrite combined_stem, forallb_app, stem_name_chars. exact Hext. }
  destruct (200 <? Py.len name); [|exact Hname].
  rewrite forallb_app, forallb_take by exact Hname. exact Hext.
Qed.

Lemma output_endswith_ext (now : datetime) (company pub_date file_url : string) :
  Py.endswith (Sanitizer.create_safe_filename now company pub_date file_url)
    (Sanitizer.file_ext_of file_url) = true.
Proof.
  unfold Sanitizer.create_safe_filename.
  set (ext := Sanitizer.file_ext_of file_url).
  set (name := if Sanitizer.needs_fallback _ _ then _ else _).
  destruct (200 <? Py.len name); [apply endswith_app|].
  subst name. destruct (Sanitizer.needs_fallback _ _).
  - rewrite <- app_assoc. apply endswith_app.
  - rewrite combined_stem. apply endswith_app.
Qed.

Lemma output_len (now : datetime) (company pub_date file_url : string) :
  Py.len (Sanitizer.create_safe_filename now company pub_date file_url) <= 200.
Proof.
  unfold Sanitizer.create_safe_filename.
  set (name := if Sanitizer.needs_fallback _ _ then _ else _).
  destruct (200 <? Py.len name) eqn:E.
  - rewrite len_app, file_ext_len. pose proof (len_take 190 name). lia.
  - apply Nat.ltb_ge in E. exact E.
Qed.

(** With a publication date the cleaned name does not read the clock. *)
Lemma combined_clock_free (now1 now2 : datetime) (company pub_date file_url : string) :
  pub_date <> "" ->
  Sanitizer.combined now1 company pub_date file_url
  = Sanitizer.combined now2 company pub_date file_url.
Proof.
  intros Hd. unfold Sanitizer.combined, Sanitizer.date_clean.
  destruct pub_date; [contradiction | reflexivity].
Qed.

End SanitizerFacts.

(** C7 (as stated, refuted): with a non-empty publication date the output
    can still depend on the time of the call.  A title and a date made of
    punctuation only leave nothing but the extension, and the name falls
    back to [NSE_Announcement_<timestamp>]. *)
Lemma create_safe_filename_reads_clock :
  "--" <> "" /\
  Sanitizer.create_safe_filename t0 "***" "--" "x.pdf" = "NSE_Announcement_20250809_202719.pdf" /\
  Sanitizer.create_safe_filename t1 "***" "--" "x.pdf" = "NSE_Announcement_20250809_203219.pdf" /\
  Sanitizer.create_safe_filename t0 "***" "--" "x.pdf"
  <> Sanitizer.create_safe_filename t1 "***" "--" "x.pdf".
Proof. vm_compute. repeat split; discriminate. Qed.

(** C7 (amended): [create_safe_filename] yields
    [EPL_Limited_08Aug2025_211422.pdf] for the fixed inputs at every instant;
    for a non-empty publication date the output does not depend on the
    instant of the call whenever the cleaned name passes the validity check
    (the timestamp fallback is not taken); and for every input the output
    has no path separator, ends in the extension chosen from the suffix of
    the URL ([.pdf] by default) and has at most 200 characters. *)
Theorem create_safe_filename_properties :
  (forall now,
     Sanitizer.create_safe_filename now "EPL Limited" "08-Aug-2025 21:14:22" "x.pdf"
     = "EPL_Limited_08Aug2025_211422.pdf") /\
  (forall now1 now2 company pub_date file_url,
     pub_date <> "" ->
     Sanitizer.needs_fallback (Sanitizer.file_ext_of file_url)
       (Sanitizer.combined now1 company pub_date file_url) = false ->
     Sanitizer.create_safe_filename now1 company pub_date file_url
     = Sanitizer.create_safe_filename now2 company pub_date file_url) /\
  (forall now company pub_date file_url,
     let out := Sanitizer.create_safe_filename now company pub_date file_url in
     Py.forallb (fun c => negb (Sanitizer.is_path_sep c)) out = true /\
     Py.endswith out (Sanitizer.file_ext_of file_url) = true /\
     (Sanitizer.file_ext_of file_url =
        if Py.endswith file_url ".pdf" then ".pdf"
        else if Py.endswith file_url ".xml" then ".xml" else ".pdf") /\
     Py.len out <= 200).
Proof.
  split; [|split].
  - intros now. reflexivity.
  - intros now1 now2 company pub_date file_url Hd Hok.
    unfold Sanitizer.create_safe_filename.
    rewrite <- (SanitizerFacts.combined_clock_free now1 now2) by exact Hd.
    rewrite Hok. reflexivity.
  - intros now company pub_date file_url out. subst out. repeat split.
    + apply (PyFacts.forallb_impl Sanitizer.name_char).
      * apply SanitizerFacts.name_char_not_sep.
      * apply SanitizerFacts.output_name_chars.
    + apply SanitizerFacts.output_endswith_ext.
    + apply SanitizerFacts.output_len.
Qed.

Lemma create_safe_filename_properties_witness :
  Sanitizer.create_safe_filename t0 "Yatra Online Limited" "08-Aug-2025 21:07:56" "test.pdf"
  = Sanitizer.create_safe_filename t1 "Yatra Online Limited" "08-Aug-2025 21:07:56" "test.pdf".
Proof.
  apply (proj1 (proj2 create_safe_filename_properties)).
  - discriminate.
  - vm_compute. reflexivity.
Defined.

(** ** Fetching and parsing the feed *)

Module FeedFacts.

Lemma accept_fetch_some (o : ProcOutcome) (content : string) :
  Complete.accept_fetch o = Some content ->
  proc_status o = Exited 0 /\ content = Py.strip (proc_stdout o) /\
  Py.contains content "<rss" = true /\ Py.contains content "</rss>" = true.
Proof.
  unfold Complete.accept_fetch.
  destruct (proc_status o) as [rc| | |]; try discriminate.
  destruct (rc =? 0)%Z eqn:Hrc; simpl; [|discriminate].
  destruct (negb _); simpl; [|discriminate].
  destruct (Py.contains _ "<rss") eqn:H1; simpl; [|discriminate].
  destruct (Py.contains _ "</rss>") eqn:H2; [|discriminate].
  intros [= <-]. apply Z.eqb_eq in Hrc. subst rc. auto.
Qed.

Lemma accept_fetch_unmarked (o : ProcOutcome) :
  Py.contains (Py.strip (proc_stdout o)) "<rss" = false \/
  Py.contains (Py.strip (proc_stdout o)) "</rss>" = false ->
  Complete.accept_fetch o = None.
Proof.
  intros H. destruct (Complete.accept_fetch o) as [c|] eqn:E; [|reflexivity].
  apply accept_fetch_some in E as (_ & -> & H1 & H2).
  destruct H as [H|H]; congruence.
Qed.

Lemma simple_fetch_some (env : Env) (w : World) (content : string) :
  fst (Simple.fetch_rss_with_curl env w) = Some content ->
  Complete.accept_fetch
    (run_process env (W.tick (W.emit (EvProcess Simple.version_cmd) w)) Complete.fetch_cmd)
  = Some content.
Proof.
  unfold Simple.fetch_rss_with_curl.
  destruct (proc_status _) as [rc| | |]; try discriminate.
  destruct (negb _); [discriminate|]. intros H. exact H.
Qed.

Lemma in_whitelist_In (tag : string) :
  Parser.in_whitelist tag = true -> In tag Parser.whitelist.
Proof.
  unfold Parser.in_whitelist. intros (x & Hx & ->%String.eqb_eq)%existsb_exists. exact Hx.
Qed.

Lemma item_data_keys (item : Element) (k : string) :
  is_Some (Parser.item_data_of item !! k) -> In k Parser.whitelist.
Proof.
  unfold Parser.item_data_of.
  assert (H : forall cs (acc : gmap string string),
             (forall k, is_Some (acc !! k) -> In k Parser.whitelist) ->
             forall k, is_Some (fold_left
               (fun item_data child =>
                  if Parser.in_whitelist (Parser.tag_of child)
                  then <[Parser.tag_of child := Parser.text_value child]> item_data
                  else item_data) cs acc !! k) -> In k Parser.whitelist).
  { induction cs as [|c cs IH]; intros acc Hacc k'; simpl; [apply Hacc|].
    apply IH. intros k''.
    destruct (Parser.in_whitelist (Parser.tag_of c)) eqn:Hw; [|apply Hacc].
    rewrite lookup_insert_is_Some. intros [<- | [_ Hk]].
    - apply in_whitelist_In. exact Hw.
    - apply Hacc. exact Hk. }
  apply H. intros k'. rewrite lookup_empty. intros [? [=]].
Qed.

Lemma has_title_true (item_data : gmap string string) :
  Parser.has_title item_data = true ->
  exists t, item_data !! "title" = Some t /\ t <> "".
Proof.
  unfold Parser.has_title. destruct (item_data !! "title") as [t|]; [|discriminate].
  intros H. exists t. split; [reflexivity|]. intros ->. discriminate H.
Qed.

End FeedFacts.

(** C9 (amended): the two fetchers that run [curl],
    [fetch_rss_with_curl] of [CompleteNSEMonitor] and of
    [SimpleNSECurlMonitor], accept marked content only: the content they
    return contains [<rss] and [</rss>], and when the output of [curl],
    stripped, lacks one of the two, or is empty, the fetch returns
    [None]. *)
Theorem fetch_accepts_marked_content_only (env : Env) (w : World) :
  (forall content,
     fst (Complete.fetch_rss_with_curl env w) = Some content \/
     fst (Simple.fetch_rss_with_curl env w) = Some content ->
     Py.contains content "<rss" = true /\ Py.contains content "</rss>" = true) /\
  (let out := proc_stdout (run_process env (W.tick w) Complete.fetch_cmd) in
   Py.contains (Py.strip out) "<rss" = false \/
   Py.contains (Py.strip out) "</rss>" = false \/
   Py.strip out = "" ->
   fst (Complete.fetch_rss_with_curl env w) = None) /\
  (let out := proc_stdout (run_process env (S (W.tick w)) Complete.fetch_cmd) in
   Py.contains (Py.strip out) "<rss" = false \/
   Py.contains (Py.strip out) "</rss>" = false \/
   Py.strip out = "" ->
   fst (Simple.fetch_rss_with_curl env w) = None).
Proof.
  assert (Hun : forall o,
    Py.contains (Py.strip (proc_stdout o)) "<rss" = false \/
    Py.contains (Py.strip (proc_stdout o)) "</rss>" = false \/
    Py.strip (proc_stdout o) = "" -> Complete.accept_fetch o = None).
  { intros o [H|[H|H]]; apply FeedFacts.accept_fetch_unmarked; auto.
    left. rewrite H. reflexivity. }
  split; [|split].
  - intros content [H|H].
    + apply FeedFacts.accept_fetch_some in H. tauto.
    + apply FeedFacts.simple_fetch_some, FeedFacts.accept_fetch_some in H. tauto.
  - intros out H. apply Hun. exact H.
  - intros out H. unfold Simple.fetch_rss_with_curl.
    destruct (proc_status _) as [rc| | |]; try reflexivity.
    destruct (negb _); [reflexivity|]. simpl. apply Hun.
    replace (W.tick (W.emit (EvProcess Simple.version_cmd) w)) with (S (W.tick w)).
    + exact H.
    + unfold W.tick, W.emit. simpl. rewrite length_app. simpl. lia.
Qed.

Lemma fetch_accepts_marked_content_only_witness :
  Py.contains (Py.strip Scenario.feed_xml) "<rss" = true /\
  Py.contains (Py.strip Scenario.feed_xml) "</rss>" = true.
Proof.
  apply (proj1 (fetch_accepts_marked_content_only
                  (Scenario.feed_only t0) Scenario.empty_world)).
  left. vm_compute. reflexivity.
Defined.

(** C8: every record returned by [parse_rss_manually] has a non-empty title
    and no key outside [title], [link], [description], [pubDate]; when the
    XML parser rejects the payload the result is the empty list together
    with a reported error, and an error is never reported together with
    records. *)
Theorem parse_rss_manually_sound (env : Env) (xml_content : string) :
  (forall item,
     In item (fst (Parser.parse_rss_manually env xml_content)) ->
     (exists t, item !! "title" = Some t /\ t <> "") /\
     (forall k, is_Some (item !! k) -> In k ["title"; "link"; "description"; "pubDate"])) /\
  (et_fromstring env (Parser.sub_xml_decl xml_content) = None ->
   Parser.parse_rss_manually env xml_content = ([], Some MsgXmlParseError)) /\
  (snd (Parser.parse_rss_manually env xml_content) <> None ->
   fst (Parser.parse_rss_manually env xml_content) = []).
Proof.
  unfold Parser.parse_rss_manually.
  destruct (et_fromstring env (Parser.sub_xml_decl xml_content)) as [root|]; simpl.
  - split; [|split]; [|discriminate|intros H; contradiction].
    intros item [(e & <- & _)%in_map_iff Ht]%filter_In. split.
    + apply FeedFacts.has_title_true. exact Ht.
    + apply FeedFacts.item_data_keys.
  - split; [|split]; [intros item []|reflexivity|reflexivity].
Qed.

Lemma parse_rss_manually_sound_witness :
  (exists t, Scenario.epl_item !! "title" = Some t /\ t <> "") /\
  (forall k, is_Some (Scenario.epl_item !! k) ->
             In k ["title"; "link"; "description"; "pubDate"]).
Proof.
  apply (proj1 (parse_rss_manually_sound (Scenario.feed_only t0) Scenario.feed_xml)).
  vm_compute. left. reflexivity.
Defined.

(** ** Record identifiers *)




(** ** The retry queue *)

Module RetryFacts.

Lemma no_download_pdf : Incremental.getattr "download_pdf" Incremental.attributes = None.
Proof. reflexivity. Qed.

Lemma call_download_pdf_raises (env : Env) (url filename : string) (w : World) :
  Incremental.call_method "download_pdf" env url filename w = None.
Proof. unfold Incremental.call_method. rewrite no_download_pdf. reflexivity. Qed.

End RetryFacts.

(** C5 (the code departs from the claim): [retry_failed_downloads] calls
    [self.download_pdf], a name that [IncrementalNSEMonitor] does not
    define.  With a non-empty queue the first iteration raises, the handler
    reports the error, and the pass ends: nothing is retried and the
    persisted queue stays as it was, also for entries whose download would
    succeed. *)
Theorem retry_failed_downloads_keeps_queue (env : Env) (w : World) (queue : list RetryItem) :
  retry_file w = Some queue -> queue <> [] ->
  Incremental.retry_failed_downloads env w = W.print MsgRetryError w /\
  retry_file (Incremental.retry_failed_downloads env w) = Some queue /\
  trace (Incremental.retry_failed_downloads env w) = trace w /\
  fs (Incremental.retry_failed_downloads env w) = fs w.
Proof.
  intros Hq Hne.
  assert (H : Incremental.retry_failed_downloads env w = W.print MsgRetryError w).
  { unfold Incremental.retry_failed_downloads. rewrite Hq.
    destruct queue as [|item rest]; [contradiction|].
    cbn [Incremental.retry_loop]. rewrite RetryFacts.call_download_pdf_raises. reflexivity. }
  rewrite H. simpl. auto.
Qed.

Lemma retry_failed_downloads_keeps_queue_witness :
  let w := W.set_retry [Scenario.epl_retry] Scenario.empty_world in
  Incremental.retry_failed_downloads (Scenario.generous t1) w = W.print MsgRetryError w /\
  retry_file (Incremental.retry_failed_downloads (Scenario.generous t1) w)
  = Some [Scenario.epl_retry] /\
  trace (Incremental.retry_failed_downloads (Scenario.generous t1) w) = trace w /\
  fs (Incremental.retry_failed_downloads (Scenario.generous t1) w) = fs w.
Proof.
  intros w.
  apply (retry_failed_downloads_keeps_queue (Scenario.generous t1) w [Scenario.epl_retry]).
  - reflexivity.
  - discriminate.
Defined.

(** The same entry goes through when the orchestrator itself is called:
    the download that the retry pass never reaches would have succeeded. *)
Lemma retry_entry_would_download :
  fst (Incremental.download_pdf_with_smart_fallback (Scenario.generous t1)
         (ri_url Scenario.epl_retry) (ri_filename Scenario.epl_retry)
         (W.set_retry [Scenario.epl_retry] Scenario.empty_world)) = true.
Proof. vm_compute. reflexivity. Qed.

(** ** The download orchestrators *)

Module WorldFacts.

Lemma exists_true (path : string) (w : World) :
  W.exists_ path w = true <-> is_Some (fs w !! path).
Proof. unfold W.exists_. apply bool_decide_eq_true. Qed.

Lemma exists_false (path : string) (w : World) :
  W.exists_ path w = false <-> fs w !! path = None.
Proof.
  unfold W.exists_. rewrite bool_decide_eq_false, <- eq_None_not_Some. reflexivity.
Qed.

Lemma exists_remove (path : string) (w : World) : W.exists_ path (W.remove path w) = false.
Proof. apply exists_false. simpl. apply lookup_delete_eq. Qed.

Lemma exists_remove_if_exists (path : string) (w : World) :
  W.exists_ path (W.remove_if_exists path w) = false.
Proof.
  unfold W.remove_if_exists. destruct (W.exists_ path w) eqn:E; [apply exists_remove | exact E].
Qed.

Lemma tick_emit (e : Event) (w : World) : W.tick (W.emit e w) = S (W.tick w).
Proof. unfold W.tick, W.emit. simpl. rewrite length_app. simpl. lia. Qed.

End WorldFacts.

Module ExistingFile.

Lemma complete_short_circuit (env : Env) (w : World) (file_url filename : string) :
  W.exists_ (Py.path_join "nse_downloads" filename) w = true ->
  Complete.smart_download_file env file_url filename w = (Complete.supported file_url, w).
Proof.
  intros He. unfold Complete.smart_download_file.
  destruct (Complete.supported file_url); simpl; [|reflexivity].
  rewrite He. reflexivity.
Qed.

Lemma simple_short_circuit (env : Env) (w : World) (pdf_url filename : string) :
  W.exists_ (Py.path_join "nse_downloads" filename) w = true ->
  Simple.download_pdf_with_curl env pdf_url filename w = (Py.endswith pdf_url ".pdf", w).
Proof.
  intros He. unfold Simple.download_pdf_with_curl.
  destruct (Py.endswith pdf_url ".pdf"); simpl; [|reflexivity].
  rewrite He. reflexivity.
Qed.

End ExistingFile.

(** C1 (as stated, refuted): a non-empty file is at the target path, and
    the download returns [False], because the URL ends neither in [.pdf]
    nor in [.xml] ([.pdf] for [download_pdf_with_curl]); the check of the
    URL comes before the look at the file. *)
Lemma existing_file_with_other_url_fails :
  let target := "EPL_Limited_08Aug2025_211422.pdf" in
  fs Scenario.stocked_world !! Py.path_join "nse_downloads" target = Some "%PDF-1.4 EPL" /\
  fst (Complete.smart_download_file (Scenario.generous t1)
         "https://nsearchives.nseindia.com/corporate/EPL.zip" target Scenario.stocked_world)
  = false /\
  fst (Simple.download_pdf_with_curl (Scenario.generous t1)
         "https://nsearchives.nseindia.com/corporate/EPL.xml" target Scenario.stocked_world)
  = false.
Proof. vm_compute. repeat split; reflexivity. Qed.

(** C1 (amended): when a non-empty file is at the target path,
    [smart_download_file], for a URL ending in [.pdf] or [.xml], and
    [download_pdf_with_curl], for a URL ending in [.pdf], return [True] and
    leave the world as it is: no request, no process, no write, no log
    line.  For any URL at all the world stays as it is, so that the file is
    never overwritten by a later call for the same name. *)
Theorem existing_file_is_kept (env : Env) (w : World) (url filename content : string) :
  fs w !! Py.path_join "nse_downloads" filename = Some content -> content <> "" ->
  (Complete.supported url = true ->
   Complete.smart_download_file env url filename w = (true, w)) /\
  (Py.endswith url ".pdf" = true ->
   Simple.download_pdf_with_curl env url filename w = (true, w)) /\
  snd (Complete.smart_download_file env url filename w) = w /\
  snd (Simple.download_pdf_with_curl env url filename w) = w.
Proof.
  intros Hf _.
  assert (He : W.exists_ (Py.path_join "nse_downloads" filename) w = true).
  { apply WorldFacts.exists_true. rewrite Hf. eauto. }
  rewrite ExistingFile.complete_short_circuit, ExistingFile.simple_short_circuit by exact He.
  repeat split; intros ->; reflexivity.
Qed.

Lemma existing_file_is_kept_witness :
  let url := "https://nsearchives.nseindia.com/corporate/EPL.pdf" in
  let target := "EPL_Limited_08Aug2025_211422.pdf" in
  let w := Scenario.stocked_world in
  (Complete.supported url = true ->
   Complete.smart_download_file (Scenario.generous t1) url target w = (true, w)) /\
  (Py.endswith url ".pdf" = true ->
   Simple.download_pdf_with_curl (Scenario.generous t1) url target w = (true, w)) /\
  snd (Complete.smart_download_file (Scenario.generous t1) url target w) = w /\
  snd (Simple.download_pdf_with_curl (Scenario.generous t1) url target w) = w.
Proof.
  intros url target w.
  apply (existing_file_is_kept (Scenario.generous t1) w url target "%PDF-1.4 EPL").
  - vm_compute. reflexivity.
  - discriminate.
Defined.

Module CompleteFacts.

(** When the tool exits with a code other than 0, what it wrote stays. *)
Lemma failed_tool_keeps_file (method : string) (cmd : list string) (env : Env)
    (filepath filename : string) (w : World) (rc : Z) (partial : string) :
  proc_status (run_process env (W.tick w) cmd) = Exited rc ->
  proc_output (run_process env (W.tick w) cmd) = Some partial ->
  rc <> 0%Z ->
  fst (Complete.download_with_tool method cmd env filepath filename w) = false /\
  fs (snd (Complete.download_with_tool method cmd env filepath filename w)) !! filepath
  = Some partial.
Proof.
  intros Hs Ho Hrc. unfold Complete.download_with_tool. rewrite Hs, Ho.
  apply Z.eqb_neq in Hrc. rewrite Hrc. simpl. split; [reflexivity|].
  apply lookup_insert_eq.
Qed.



End CompleteFacts.

(** C2 (the code departs from the claim): in [CompleteNSEMonitor] the
    transfer with [requests] has failed and [curl] exits with code 18
    having written the beginning of the document.  [_download_with_curl]
    returns [False] and leaves the partial file, [_download_with_wget] is
    tried with the file in place, the orchestrator reports failure with
    the file still there, and the next call for the same name takes it for
    a finished download. *)
Theorem failed_curl_keeps_partial_file :
  let env := Scenario.truncating t1 in
  let url := "https://nsearchives.nseindia.com/corporate/EPL.pdf" in
  let filename := "EPL_Limited_08Aug2025_211422.pdf" in
  let filepath := Py.path_join "nse_downloads" filename in
  let after_requests :=
    snd (Complete._download_with_requests env url filepath filename Scenario.empty_world) in
  let after_curl := Complete._download_with_curl env url filepath filename after_requests in
  let final := Complete.smart_download_file env url filename Scenario.empty_world in
  fst after_curl = false /\
  fs (snd after_curl) !! filepath = Some "%PDF-1.4 trunc" /\
  fst final = false /\
  fs (snd final) !! filepath = Some "%PDF-1.4 trunc" /\
  trace (snd final)
  = [EvHttpGet url; EvProcess (Complete.curl_cmd url filepath);
     EvProcess (Complete.wget_cmd url filepath)] /\
  Complete.smart_download_file env url filename (snd final) = (true, snd final).
Proof. vm_compute. repeat split; reflexivity. Qed.

Module DownloaderFacts.












Lemma loop_cons (env : Env) (url filename method : string) (rest : list string) (w : World) :
  Downloader.smart_download_loop env url filename (method :: rest) w
  = match Downloader.attempt env url filename method w with
    | (Returned true, w1) => (Returned true, w1)
    | (Returned false, _) =>
        Downloader.smart_download_loop env url filename rest
          (Downloader.after_failure env url filename w method)
    | (Raised, w1) => (Raised, w1)
    end.
Proof.
  unfold Downloader.after_failure, Downloader.attempt. simpl.
  destruct (Downloader.run_method _ _ _ _ _) as [[[|]|] w1]; reflexivity.
Qed.


(** The loop returns [False]: every method was tried, in order, and
    failed. *)
Lemma loop_failure (env : Env) (url filename : string) (methods : list string) :
  forall (w w' : World),
    Downloader.smart_download_loop env url filename methods w = (Returned false, w') ->
    (forall j mj, methods !! j = Some mj ->
       fst (Downloader.attempt env url filename mj
              (Downloader.after_failures env url filename (take j methods) w))
       = Returned false) /\
    w' = Downloader.after_failures env url filename methods w.
Proof.
  induction methods as [|m rest IH]; intros w w' H.
  - injection H as <-. split; [intros j mj [=] | reflexivity].
  - rewrite loop_cons in H.
    destruct (Downloader.attempt env url filename m w) as [[[|]|] w1] eqn:E;
      try discriminate.
    destruct (IH _ _ H) as [Hall ->]. split; [|reflexivity].
    intros [|j] mj Hj.
    + injection Hj as <-. simpl. rewrite E. reflexivity.
    + apply (Hall j mj Hj).
Qed.


(** After a method that failed, the next one starts without the target
    file; and so does whoever calls after a failed [smart_download]. *)
Lemma after_failure_cleans (env : Env) (url filename method : string) (w : World) :
  W.exists_ filename (Downloader.after_failure env url filename w method) = false.
Proof. apply WorldFacts.exists_remove_if_exists. Qed.

Lemma failed_download_cleans (env : Env) (url filename : string) (methods : list string)
    (w w' : World) :
  methods <> [] ->
  Downloader.smart_download_loop env url filename methods w = (Returned false, w') ->
  W.exists_ filename w' = false.
Proof.
  intros Hne H. apply loop_failure in H as [_ ->].
  destruct (exists_last Hne) as (pre & m & ->).
  unfold Downloader.after_failures. rewrite fold_left_app. simpl.
  apply after_failure_cleans.
Qed.

End DownloaderFacts.




(** ** The poll cycle *)

Module CompleteLoop.

Lemma complete_cache_leave (path : string) (left : option string) (w : World) :
  cache_files (W.leave path left w) = cache_files w.
Proof. destruct left; reflexivity. Qed.

Lemma complete_cache_remove_if_exists (path : string) (w : World) :
  cache_files (W.remove_if_exists path w) = cache_files w.
Proof. unfold W.remove_if_exists. destruct (W.exists_ path w); reflexivity. Qed.

Lemma complete_cache_requests (env : Env) (file_url filepath filename : string) (w : World) :
  cache_files (snd (Complete._download_with_requests env file_url filepath filename w))
  = cache_files w.
Proof.
  unfold Complete._download_with_requests.
  destruct (http_get env (W.tick w) file_url); simpl;
    rewrite ?complete_cache_remove_if_exists, ?complete_cache_leave; reflexivity.
Qed.

Lemma complete_cache_tool (method : string) (cmd : list string) (env : Env)
    (filepath filename : string) (w : World) :
  cache_files (snd (Complete.download_with_tool method cmd env filepath filename w))
  = cache_files w.
Proof.
  unfold Complete.download_with_tool.
  repeat match goal with
         | |- context [match proc_status ?o with _ => _ end] => destruct (proc_status o)
         | |- context [if ?b then _ else _] => destruct b
         end; simpl; rewrite ?complete_cache_remove_if_exists, ?complete_cache_leave; reflexivity.
Qed.

Lemma complete_cache_download (env : Env) (file_url filename : string) (w : World) :
  cache_files (snd (Complete.smart_download_file env file_url filename w)) = cache_files w.
Proof.
  unfold Complete.smart_download_file.
  destruct (negb _); [reflexivity|]. cbv zeta.
  set (filepath := Py.path_join "nse_downloads" filename).
  destruct (W.exists_ filepath w); [reflexivity|].
  pose proof (complete_cache_requests env file_url filepath filename w) as H1.
  destruct (Complete._download_with_requests _ _ _ _ _) as [b1 w1]. cbn [snd] in H1.
  destruct b1; [exact H1|].
  pose proof (complete_cache_tool "curl" (Complete.curl_cmd file_url filepath) env filepath filename w1)
    as H2.
  unfold Complete._download_with_curl.
  destruct (Complete.download_with_tool "curl" _ _ _ _ _) as [b2 w2]. cbn [snd] in H2.
  destruct b2; [cbn [snd]; congruence|].
  pose proof (complete_cache_tool "wget" (Complete.wget_cmd file_url filepath) env filepath filename w2)
    as H3.
  unfold Complete._download_with_wget.
  destruct (Complete.download_with_tool "wget" _ _ _ _ _) as [b3 w3]. cbn [snd] in H3.
  destruct b3; cbn [snd]; simpl; congruence.
Qed.

Lemma complete_cache_process (env : Env) (m : Complete.Monitor) (item : gmap string string)
    (is_new : bool) (w : World) :
  cache_files (Complete.process_announcement env m item is_new w) = cache_files w.
Proof.
  unfold Complete.process_announcement.
  repeat match goal with |- context [if ?b then _ else _] => destruct b end;
    try reflexivity; apply complete_cache_download.
Qed.

Lemma complete_check_item_seen (env : Env) (l : Complete.Loop) (item : gmap string string) :
  Complete.item_id_of item ∈ Complete.seen_items (Complete.lp_monitor l) ->
  Complete.check_item env l item = l.
Proof.
  intros H. unfold Complete.check_item. rewrite bool_decide_eq_true_2 by exact H. reflexivity.
Qed.

Lemma complete_check_item_new (env : Env) (l : Complete.Loop) (item : gmap string string) :
  Complete.item_id_of item ∉ Complete.seen_items (Complete.lp_monitor l) ->
  Complete.check_item env l item
  = let m := Complete.set_seen ({[Complete.item_id_of item]} ∪ Complete.seen_items (Complete.lp_monitor l))
               (Complete.lp_monitor l) in
    {| Complete.lp_monitor := m;
       Complete.lp_new_count := Complete.lp_new_count l + 1;
       Complete.lp_world := Complete.process_announcement env m item true (Complete.lp_world l) |}.
Proof.
  intros H. unfold Complete.check_item. rewrite bool_decide_eq_false_2 by exact H. reflexivity.
Qed.

Lemma complete_check_item_grows (env : Env) (l : Complete.Loop) (item : gmap string string) :
  Complete.seen_items (Complete.lp_monitor l) ⊆ Complete.seen_items (Complete.lp_monitor (Complete.check_item env l item)) /\
  Complete.item_id_of item ∈ Complete.seen_items (Complete.lp_monitor (Complete.check_item env l item)) /\
  Complete.lp_new_count l <= Complete.lp_new_count (Complete.check_item env l item) /\
  cache_files (Complete.lp_world (Complete.check_item env l item)) = cache_files (Complete.lp_world l).
Proof.
  destruct (decide (Complete.item_id_of item ∈ Complete.seen_items (Complete.lp_monitor l))) as [H|H].
  - rewrite complete_check_item_seen by exact H. auto.
  - rewrite complete_check_item_new by exact H. simpl. rewrite complete_cache_process.
    split; [|split; [|split]]; [set_solver | set_solver | lia | reflexivity].
Qed.

Lemma complete_check_loop_grows (env : Env) (items : list (gmap string string)) (l : Complete.Loop) :
  Complete.seen_items (Complete.lp_monitor l) ⊆ Complete.seen_items (Complete.lp_monitor (Complete.check_loop env l items)) /\
  (forall item, In item items ->
     Complete.item_id_of item ∈ Complete.seen_items (Complete.lp_monitor (Complete.check_loop env l items))) /\
  Complete.lp_new_count l <= Complete.lp_new_count (Complete.check_loop env l items) /\
  cache_files (Complete.lp_world (Complete.check_loop env l items)) = cache_files (Complete.lp_world l).
Proof.
  unfold Complete.check_loop. revert l. induction items as [|item rest IH]; intros l.
  - simpl. split; [|split; [|split]]; [reflexivity | intros item [] | lia | reflexivity].
  - cbn [fold_left].
    destruct (IH (Complete.check_item env l item)) as (Hsub & Hin & Hcnt & Hcache).
    destruct (complete_check_item_grows env l item) as (Hsub1 & Hin1 & Hcnt1 & Hcache1).
    split; [|split; [|split]].
    + etrans; [exact Hsub1 | exact Hsub].
    + intros it [<- | Hit]; [|apply Hin; exact Hit].
      eapply elem_of_weaken; [exact Hin1 | exact Hsub].
    + lia.
    + rewrite Hcache. exact Hcache1.
Qed.

Lemma complete_check_loop_all_seen (env : Env) (items : list (gmap string string)) (l : Complete.Loop) :
  (forall item, In item items -> Complete.item_id_of item ∈ Complete.seen_items (Complete.lp_monitor l)) ->
  Complete.check_loop env l items = l.
Proof.
  unfold Complete.check_loop. induction items as [|item rest IH]; intros H; [reflexivity|].
  cbn [fold_left]. rewrite complete_check_item_seen by (apply H; left; reflexivity).
  apply IH. intros it Hit. apply H. right. exact Hit.
Qed.

Lemma complete_check_loop_counts_new (env : Env) (items : list (gmap string string)) (l : Complete.Loop) :
  (exists item, In item items /\ Complete.item_id_of item ∉ Complete.seen_items (Complete.lp_monitor l)) ->
  Complete.lp_new_count l < Complete.lp_new_count (Complete.check_loop env l items).
Proof.
  revert l. induction items as [|item rest IH]; intros l (it & Hin & Hnew); [destruct Hin|].
  unfold Complete.check_loop. cbn [fold_left]. fold (Complete.check_loop env (Complete.check_item env l item) rest).
  destruct (decide (Complete.item_id_of item ∈ Complete.seen_items (Complete.lp_monitor l))) as [H|H].
  - rewrite complete_check_item_seen by exact H. apply IH. exists it. split; [|exact Hnew].
    destruct Hin as [<- | Hin]; [contradiction | exact Hin].
  - destruct (complete_check_loop_grows env rest (Complete.check_item env l item)) as (_ & _ & Hcnt & _).
    rewrite complete_check_item_new in Hcnt |- * by exact H. simpl in Hcnt |- *. lia.
Qed.

End CompleteLoop.

Module SimpleLoop.

Lemma simple_cache_leave (path : string) (left : option string) (w : World) :
  cache_files (W.leave path left w) = cache_files w.
Proof. destruct left; reflexivity. Qed.

Lemma simple_cache_remove_if_exists (path : string) (w : World) :
  cache_files (W.remove_if_exists path w) = cache_files w.
Proof. unfold W.remove_if_exists. destruct (W.exists_ path w); reflexivity. Qed.

Lemma simple_cache_download (env : Env) (pdf_url filename : string) (w : World) :
  cache_files (snd (Simple.download_pdf_with_curl env pdf_url filename w)) = cache_files w.
Proof.
  unfold Simple.download_pdf_with_curl.
  destruct (negb _); [reflexivity|]. cbv zeta.
  destruct (W.exists_ _ w); [reflexivity|].
  repeat match goal with
         | |- context [match proc_status ?o with _ => _ end] => destruct (proc_status o)
         | |- context [if ?b then _ else _] => destruct b
         end; simpl; rewrite ?simple_cache_remove_if_exists, ?simple_cache_leave; reflexivity.
Qed.

Lemma simple_cache_process (env : Env) (m : Simple.Monitor) (item : gmap string string)
    (is_new : bool) (w : World) :
  cache_files (Simple.process_announcement env m item is_new w) = cache_files w.
Proof.
  unfold Simple.process_announcement.
  repeat match goal with |- context [if ?b then _ else _] => destruct b end;
    try reflexivity; apply simple_cache_download.
Qed.

Lemma simple_check_item_seen (env : Env) (l : Simple.Loop) (item : gmap string string) :
  Simple.item_id_of item ∈ Simple.seen_items (Simple.lp_monitor l) ->
  Simple.check_item env l item = l.
Proof.
  intros H. unfold Simple.check_item. rewrite bool_decide_eq_true_2 by exact H. reflexivity.
Qed.

Lemma simple_check_item_new (env : Env) (l : Simple.Loop) (item : gmap string string) :
  Simple.item_id_of item ∉ Simple.seen_items (Simple.lp_monitor l) ->
  Simple.check_item env l item
  = let m := Simple.set_seen ({[Simple.item_id_of item]} ∪ Simple.seen_items (Simple.lp_monitor l))
               (Simple.lp_monitor l) in
    {| Simple.lp_monitor := m;
       Simple.lp_new_count := Simple.lp_new_count l + 1;
       Simple.lp_world := Simple.process_announcement env m item true (Simple.lp_world l) |}.
Proof.
  intros H. unfold Simple.check_item. rewrite bool_decide_eq_false_2 by exact H. reflexivity.
Qed.

Lemma simple_check_item_grows (env : Env) (l : Simple.Loop) (item : gmap string string) :
  Simple.seen_items (Simple.lp_monitor l) ⊆ Simple.seen_items (Simple.lp_monitor (Simple.check_item env l item)) /\
  Simple.item_id_of item ∈ Simple.seen_items (Simple.lp_monitor (Simple.check_item env l item)) /\
  Simple.lp_new_count l <= Simple.lp_new_count (Simple.check_item env l item) /\
  cache_files (Simple.lp_world (Simple.check_item env l item)) = cache_files (Simple.lp_world l).
Proof.
  destruct (decide (Simple.item_id_of item ∈ Simple.seen_items (Simple.lp_monitor l))) as [H|H].
  - rewrite simple_check_item_seen by exact H. auto.
  - rewrite simple_check_item_new by exact H. simpl. rewrite simple_cache_process.
    split; [|split; [|split]]; [set_solver | set_solver | lia | reflexivity].
Qed.

Lemma simple_check_loop_grows (env : Env) (items : list (gmap string string)) (l : Simple.Loop) :
  Simple.seen_items (Simple.lp_monitor l) ⊆ Simple.seen_items (Simple.lp_monitor (Simple.check_loop env l items)) /\
  (forall item, In item items ->
     Simple.item_id_of item ∈ Simple.seen_items (Simple.lp_monitor (Simple.check_loop env l items))) /\
  Simple.lp_new_count l <= Simple.lp_new_count (Simple.check_loop env l items) /\
  cache_files (Simple.lp_world (Simple.check_loop env l items)) = cache_files (Simple.lp_world l).
Proof.
  unfold Simple.check_loop. revert l. induction items as [|item rest IH]; intros l.
  - simpl. split; [|split; [|split]]; [reflexivity | intros item [] | lia | reflexivity].
  - cbn [fold_left].
    destruct (IH (Simple.check_item env l item)) as (Hsub & Hin & Hcnt & Hcache).
    destruct (simple_check_item_grows env l item) as (Hsub1 & Hin1 & Hcnt1 & Hcache1).
    split; [|split; [|split]].
    + etrans; [exact Hsub1 | exact Hsub].
    + intros it [<- | Hit]; [|apply Hin; exact Hit].
      eapply elem_of_weaken; [exact Hin1 | exact Hsub].
    + lia.
    + rewrite Hcache. exact Hcache1.
Qed.

Lemma simple_check_loop_all_seen (env : Env) (items : list (gmap string string)) (l : Simple.Loop) :
  (forall item, In item items -> Simple.item_id_of item ∈ Simple.seen_items (Simple.lp_monitor l)) ->
  Simple.check_loop env l items = l.
Proof.
  unfold Simple.check_loop. induction items as [|item rest IH]; intros H; [reflexivity|].
  cbn [fold_left]. rewrite simple_check_item_seen by (apply H; left; reflexivity).
  apply IH. intros it Hit. apply H. right. exact Hit.
Qed.

Lemma simple_check_loop_counts_new (env : Env) (items : list (gmap string string)) (l : Simple.Loop) :
  (exists item, In item items /\ Simple.item_id_of item ∉ Simple.seen_items (Simple.lp_monitor l)) ->
  Simple.lp_new_count l < Simple.lp_new_count (Simple.check_loop env l items).
Proof.
  revert l. induction items as [|item rest IH]; intros l (it & Hin & Hnew); [destruct Hin|].
  unfold Simple.check_loop. cbn [fold_left]. fold (Simple.check_loop env (Simple.check_item env l item) rest).
  destruct (decide (Simple.item_id_of item ∈ Simple.seen_items (Simple.lp_monitor l))) as [H|H].
  - rewrite simple_check_item_seen by exact H. apply IH. exists it. split; [|exact Hnew].
    destruct Hin as [<- | Hin]; [contradiction | exact Hin].
  - destruct (simple_check_loop_grows env rest (Simple.check_item env l item)) as (_ & _ & Hcnt & _).
    rewrite simple_check_item_new in Hcnt |- * by exact H. simpl in Hcnt |- *. lia.
Qed.

End SimpleLoop.

Module IncrementalLoop.

Lemma incremental_check_entry_seen (env : Env) (l : Incremental.Loop) (entry : gmap string string) :
  Incremental.generate_item_id entry ∈ Incremental.seen_items (Incremental.lp_monitor l) ->
  Incremental.check_entry env l entry = l.
Proof.
  intros H. unfold Incremental.check_entry. rewrite bool_decide_eq_true_2 by exact H.
  reflexivity.
Qed.

Lemma incremental_check_entry_new (env : Env) (l : Incremental.Loop) (entry : gmap string string) :
  Incremental.generate_item_id entry ∉ Incremental.seen_items (Incremental.lp_monitor l) ->
  Incremental.check_entry env l entry
  = let m := Incremental.set_seen
               ({[Incremental.generate_item_id entry]}
                ∪ Incremental.seen_items (Incremental.lp_monitor l))
               (Incremental.lp_monitor l) in
    {| Incremental.lp_monitor := m;
       Incremental.lp_new_count := Incremental.lp_new_count l + 1;
       Incremental.lp_world :=
         Incremental.print_announcement env entry true (Incremental.download_pdfs m)
           (Incremental.lp_world l) |}.
Proof.
  intros H. unfold Incremental.check_entry. rewrite bool_decide_eq_false_2 by exact H.
  reflexivity.
Qed.

Lemma incremental_check_entry_grows (env : Env) (l : Incremental.Loop) (entry : gmap string string) :
  Incremental.seen_items (Incremental.lp_monitor l)
  ⊆ Incremental.seen_items (Incremental.lp_monitor (Incremental.check_entry env l entry)) /\
  Incremental.generate_item_id entry
  ∈ Incremental.seen_items (Incremental.lp_monitor (Incremental.check_entry env l entry)).
Proof.
  destruct (decide (Incremental.generate_item_id entry
                    ∈ Incremental.seen_items (Incremental.lp_monitor l))) as [H|H].
  - rewrite incremental_check_entry_seen by exact H. auto.
  - rewrite incremental_check_entry_new by exact H. simpl. split.
    + apply union_subseteq_r.
    + apply elem_of_union_l, elem_of_singleton. reflexivity.
Qed.

Lemma incremental_entries_grow (env : Env) (entries : list (gmap string string)) (l : Incremental.Loop) :
  Incremental.seen_items (Incremental.lp_monitor l)
  ⊆ Incremental.seen_items
      (Incremental.lp_monitor (fold_left (Incremental.check_entry env) entries l)) /\
  (forall entry, In entry entries ->
     Incremental.generate_item_id entry
     ∈ Incremental.seen_items
         (Incremental.lp_monitor (fold_left (Incremental.check_entry env) entries l))).
Proof.
  revert l. induction entries as [|entry rest IH]; intros l.
  - simpl. split; [reflexivity | intros entry []].
  - cbn [fold_left].
    destruct (IH (Incremental.check_entry env l entry)) as (Hsub & Hin).
    destruct (incremental_check_entry_grows env l entry) as (Hsub1 & Hin1).
    split.
    + etrans; [exact Hsub1 | exact Hsub].
    + intros e [<- | He]; [|apply Hin; exact He].
      eapply elem_of_weaken; [exact Hin1 | exact Hsub].
Qed.


Lemma incremental_method1_marks (env : Env) (m : Incremental.Monitor) (w : World)
    (entries : list (gmap string string)) (entry : gmap string string) :
  feed_get env (W.tick w) rss_url = FeedEntries entries ->
  In entry (py_take (Incremental.max_items_to_process m) entries) ->
  Incremental.generate_item_id entry
  ∈ Incremental.seen_items (fst (Incremental.method1_process_only_latest_items env m w)).
Proof.
  intros Hf Hin. unfold Incremental.method1_process_only_latest_items. rewrite Hf.
  destruct entries as [|e es].
  - unfold py_take in Hin. destruct (0 <=? _)%Z; rewrite take_nil in Hin; destruct Hin.
  - cbn [fst]. apply (incremental_entries_grow env _ {| Incremental.lp_monitor := m |}). exact Hin.
Qed.



End IncrementalLoop.

(** C9 (as stated, refuted): not every fetch strategy tests the markers.
    The server delivers a feed that is cut off, without [</rss>].
    [fetch_rss_with_curl] turns it down; the fetch of
    [IncrementalNSEMonitor.method1_process_only_latest_items], which hands
    the body of the response to [feedparser], takes the entries that
    [feedparser] finds in it, and the record is processed. *)
Lemma incremental_fetch_accepts_unmarked_content :
  let env := Scenario.truncated_served t1 in
  let m := {| Incremental.seen_items := ∅; Incremental.max_items_to_process := 20;
              Incremental.download_pdfs := false; Incremental.last_check_time := None |} in
  Py.contains Scenario.truncated_xml "</rss>" = false /\
  fst (Complete.fetch_rss_with_curl env Scenario.empty_world) = None /\
  (Incremental.generate_item_id Scenario.epl_entry ∉ Incremental.seen_items m) /\
  Incremental.generate_item_id Scenario.epl_entry
  ∈ Incremental.seen_items
      (fst (Incremental.method1_process_only_latest_items env m Scenario.empty_world)).
Proof.
  intros env m. split; [vm_compute; reflexivity|]. split; [vm_compute; reflexivity|].
  split; [apply not_elem_of_empty|].
  apply (IncrementalLoop.incremental_method1_marks env m Scenario.empty_world
           [Scenario.epl_entry] Scenario.epl_entry).
  - reflexivity.
  - left. reflexivity.
Qed.

Module CompleteCycle.


Lemma complete_check_marks (env : Env) (m : Complete.Monitor) (w : World)
    (content : string) (items : list (gmap string string)) (report : option Msg)
    (item : gmap string string) :
  fst (Complete.fetch_rss_with_curl env w) = Some content ->
  Parser.parse_rss_manually env content = (items, report) ->
  In item (py_take (Complete.max_items m) items) ->
  Complete.item_id_of item
  ∈ Complete.seen_items (fst (Complete.check_announcements env m w)).
Proof.
  intros Hf Hp Hin. unfold Complete.check_announcements.
  destruct (Complete.fetch_rss_with_curl env w) as [rc w1]. cbn [fst] in Hf. subst rc.
  rewrite Hp. destruct items as [|i is_].
  - unfold py_take in Hin. destruct (0 <=? _)%Z; rewrite take_nil in Hin; destruct Hin.
  - match goal with
    | |- context [Complete.check_loop env ?l0 ?its] =>
        destruct (CompleteLoop.complete_check_loop_grows env its l0) as (_ & Hmark & _);
        destruct (0 <? Complete.lp_new_count (Complete.check_loop env l0 its));
        apply Hmark; exact Hin
    end.
Qed.


End CompleteCycle.

Module CompleteSave.

(** A cycle whose feed was fetched and parsed: the cache is written when a
    record of the cycle is new, and only then. *)
Lemma complete_cycle_cache (env : Env) (m : Complete.Monitor) (w : World)
    (content : string) (items : list (gmap string string)) (report : option Msg) :
  fst (Complete.fetch_rss_with_curl env w) = Some content ->
  Parser.parse_rss_manually env content = (items, report) ->
  items <> [] ->
  let latest := py_take (Complete.max_items m) items in
  let m' := fst (Complete.check_announcements env m w) in
  let w' := snd (Complete.check_announcements env m w) in
  ((exists item, In item latest /\ Complete.item_id_of item ∉ Complete.seen_items m) ->
   cache_files w' !! Complete.cache_file
   = Some {| cf_seen_items := Complete.seen_items m'; cf_last_check_time := None;
             cf_last_updated := now env (W.tick w') |}) /\
  ((forall item, In item latest -> Complete.item_id_of item ∈ Complete.seen_items m) ->
   m' = m /\ cache_files w' = cache_files w).
Proof.
  intros Hf Hp Hne. cbv zeta. unfold Complete.check_announcements.
  assert (Hw1 : cache_files (snd (Complete.fetch_rss_with_curl env w)) = cache_files w).
  { unfold Complete.fetch_rss_with_curl.
    repeat match goal with
           | |- context [match proc_status ?o with _ => _ end] => destruct (proc_status o)
           | |- context [if ?b then _ else _] => destruct b
           end; reflexivity. }
  destruct (Complete.fetch_rss_with_curl env w) as [rc w1]. cbn [fst snd] in Hf, Hw1. subst rc.
  rewrite Hp. destruct items as [|i is_]; [contradiction|].
  set (w2 := match report with Some msg => W.print msg w1 | None => w1 end).
  assert (Hw2 : cache_files w2 = cache_files w).
  { subst w2. destruct report; exact Hw1. }
  set (l0 := {| Complete.lp_monitor := m; Complete.lp_new_count := 0; Complete.lp_world := w2 |}).
  set (latest := py_take (Complete.max_items m) (i :: is_)).
  split.
  - intros Hnew.
    pose proof (CompleteLoop.complete_check_loop_counts_new env latest l0 Hnew) as Hcnt.
    apply Nat.ltb_lt in Hcnt. simpl in Hcnt. rewrite Hcnt. cbn [fst snd].
    unfold Complete.save_cache. simpl. apply lookup_insert_eq.
  - intros Hseen.
    rewrite (CompleteLoop.complete_check_loop_all_seen env latest l0 Hseen). simpl. auto.
Qed.

End CompleteSave.

Module SimpleSave.

(** A cycle whose feed was fetched and parsed: the cache is written when a
    record of the cycle is new, and only then. *)
Lemma simple_cycle_cache (env : Env) (max_items : Z) (m : Simple.Monitor) (w : World)
    (content : string) (items : list (gmap string string)) (report : option Msg) :
  fst (Simple.fetch_rss_with_curl env w) = Some content ->
  Parser.parse_rss_manually env content = (items, report) ->
  items <> [] ->
  let latest := py_take max_items items in
  let m' := fst (Simple.check_announcements env max_items m w) in
  let w' := snd (Simple.check_announcements env max_items m w) in
  ((exists item, In item latest /\ Simple.item_id_of item ∉ Simple.seen_items m) ->
   cache_files w' !! Simple.cache_file
   = Some {| cf_seen_items := Simple.seen_items m'; cf_last_check_time := None;
             cf_last_updated := now env (W.tick w') |}) /\
  ((forall item, In item latest -> Simple.item_id_of item ∈ Simple.seen_items m) ->
   m' = m /\ cache_files w' = cache_files w).
Proof.
  intros Hf Hp Hne. cbv zeta. unfold Simple.check_announcements.
  assert (Hw1 : cache_files (snd (Simple.fetch_rss_with_curl env w)) = cache_files w).
  { unfold Simple.fetch_rss_with_curl.
    repeat match goal with
           | |- context [match proc_status ?o with _ => _ end] => destruct (proc_status o)
           | |- context [if ?b then _ else _] => destruct b
           end; reflexivity. }
  destruct (Simple.fetch_rss_with_curl env w) as [rc w1]. cbn [fst snd] in Hf, Hw1. subst rc.
  rewrite Hp. destruct items as [|i is_]; [contradiction|].
  set (w2 := match report with Some msg => W.print msg w1 | None => w1 end).
  assert (Hw2 : cache_files w2 = cache_files w).
  { subst w2. destruct report; exact Hw1. }
  set (l0 := {| Simple.lp_monitor := m; Simple.lp_new_count := 0; Simple.lp_world := w2 |}).
  set (latest := py_take max_items (i :: is_)).
  split.
  - intros Hnew.
    pose proof (SimpleLoop.simple_check_loop_counts_new env latest l0 Hnew) as Hcnt.
    apply Nat.ltb_lt in Hcnt. simpl in Hcnt. rewrite Hcnt. cbn [fst snd].
    unfold Simple.save_cache. simpl. apply lookup_insert_eq.
  - intros Hseen.
    rewrite (SimpleLoop.simple_check_loop_all_seen env latest l0 Hseen). simpl. auto.
Qed.

End SimpleSave.

(** C3 (as stated, refuted): the feed is fetched and parsed, its record is
    already in the set of seen items, and [check_announcements] leaves the
    cache file as written at [t0]: with no new record [save_cache] is not
    called, and the time stamp of the file is not refreshed. *)
Lemma quiet_cycle_skips_save :
  let env := Scenario.feed_only t1 in
  let m := Scenario.complete_monitor in
  let w := Scenario.cached_world in
  let content := Py.strip Scenario.feed_xml in
  fst (Complete.fetch_rss_with_curl env w) = Some content /\
  Parser.parse_rss_manually env content = ([Scenario.epl_item], None) /\
  cf_last_updated <$> (cache_files (snd (Complete.check_announcements env m w))
                       !! Complete.cache_file) = Some t0 /\
  now env (W.tick (snd (Complete.check_announcements env m w))) = t1 /\
  t0 <> t1.
Proof. vm_compute. repeat split; try reflexivity. discriminate. Qed.

(** C3 (amended): in a cycle of [check_announcements] ([CompleteNSEMonitor],
    [SimpleNSECurlMonitor]) whose feed was fetched and parsed with at least
    one record, the cache is persisted after the records have been
    processed when at least one of the records of the cycle is new: the
    file then holds the set of seen items and the time of the end of the
    cycle; when none is new the monitor and the cache file stay as they
    were.  [smart_incremental_check] ([IncrementalNSEMonitor]) persists the
    cache at the end of every cycle. *)
Theorem cache_saved_after_news (env : Env) (w : World) :
  (forall (m : Complete.Monitor) content items report,
     fst (Complete.fetch_rss_with_curl env w) = Some content ->
     Parser.parse_rss_manually env content = (items, report) ->
     items <> [] ->
     let latest := py_take (Complete.max_items m) items in
     let m' := fst (Complete.check_announcements env m w) in
     let w' := snd (Complete.check_announcements env m w) in
     ((exists item, In item latest /\ Complete.item_id_of item ∉ Complete.seen_items m) ->
      cache_files w' !! Complete.cache_file
      = Some {| cf_seen_items := Complete.seen_items m'; cf_last_check_time := None;
                cf_last_updated := now env (W.tick w') |}) /\
     ((forall item, In item latest -> Complete.item_id_of item ∈ Complete.seen_items m) ->
      m' = m /\ cache_files w' = cache_files w)) /\
  (forall (max_items : Z) (m : Simple.Monitor) content items report,
     fst (Simple.fetch_rss_with_curl env w) = Some content ->
     Parser.parse_rss_manually env content = (items, report) ->
     items <> [] ->
     let latest := py_take max_items items in
     let m' := fst (Simple.check_announcements env max_items m w) in
     let w' := snd (Simple.check_announcements env max_items m w) in
     ((exists item, In item latest /\ Simple.item_id_of item ∉ Simple.seen_items m) ->
      cache_files w' !! Simple.cache_file
      = Some {| cf_seen_items := Simple.seen_items m'; cf_last_check_time := None;
                cf_last_updated := now env (W.tick w') |}) /\
     ((forall item, In item latest -> Simple.item_id_of item ∈ Simple.seen_items m) ->
      m' = m /\ cache_files w' = cache_files w)) /\
  (forall (m : Incremental.Monitor),
     let m' := fst (Incremental.smart_incremental_check env m w) in
     let w' := snd (Incremental.smart_incremental_check env m w) in
     cache_files w' !! Incremental.cache_file
     = Some {| cf_seen_items := Incremental.seen_items m';
               cf_last_check_time := Some (now env (W.tick w'));
               cf_last_updated := now env (W.tick w') |}).
Proof.
  split; [|split].
  - intros m content items report. apply CompleteSave.complete_cycle_cache.
  - intros max_items m content items report. apply SimpleSave.simple_cycle_cache.
  - intros m. cbv zeta. unfold Incremental.smart_incremental_check.
    destruct (Incremental.method1_process_only_latest_items env m w) as [m1 w1].
    cbn [fst snd]. unfold Incremental.save_cache. simpl. apply lookup_insert_eq.
Qed.

Lemma cache_saved_after_news_witness :
  let env := Scenario.feed_only t1 in
  let m := Scenario.fresh_monitor in
  let w := Scenario.empty_world in
  cache_files (snd (Complete.check_announcements env m w)) !! Complete.cache_file
  = Some {| cf_seen_items := Complete.seen_items (fst (Complete.check_announcements env m w));
            cf_last_check_time := None;
            cf_last_updated := now env (W.tick (snd (Complete.check_announcements env m w))) |}.
Proof.
  intros env m w.
  apply (proj1 (proj1 (cache_saved_after_news env w) m
                  (Py.strip Scenario.feed_xml) [Scenario.epl_item] None
                  ltac:(vm_compute; reflexivity) ltac:(vm_compute; reflexivity)
                  ltac:(discriminate))).
  exists Scenario.epl_item. split.
  - vm_compute. left. reflexivity.
  - apply not_elem_of_empty.
Defined.




(** * Further properties of the monitors and of the downloader *)

(** ** The cache files *)

(** X1: a cache written by [save_cache] and read back by [load_cache]
    gives the set of seen items that was saved (and, for
    [IncrementalNSEMonitor], the time of the save as last check time),
    whatever the monitor held before; without a cache file [load_cache]
    leaves the monitor as it is; and the three monitors use three files, so
    that saving one does not change what the others load. *)
Theorem cache_round_trip (env : Env) (w : World) :
  (forall m m0 : Complete.Monitor,
     Complete.seen_items (Complete.load_cache m0 (Complete.save_cache env m w))
     = Complete.seen_items m) /\
  (forall m m0 : Simple.Monitor,
     Simple.seen_items (Simple.load_cache m0 (Simple.save_cache env m w))
     = Simple.seen_items m) /\
  (forall m m0 : Incremental.Monitor,
     Incremental.seen_items (Incremental.load_cache m0 (Incremental.save_cache env m w))
     = Incremental.seen_items m /\
     Incremental.last_check_time (Incremental.load_cache m0 (Incremental.save_cache env m w))
     = Some (now env (W.tick w))) /\
  (forall (m0 : Complete.Monitor) (s0 : Simple.Monitor) (i0 : Incremental.Monitor),
     (cache_files w !! Complete.cache_file = None -> Complete.load_cache m0 w = m0) /\
     (cache_files w !! Simple.cache_file = None -> Simple.load_cache s0 w = s0) /\
     (cache_files w !! Incremental.cache_file = None -> Incremental.load_cache i0 w = i0)) /\
  (forall (m : Complete.Monitor) (s : Simple.Monitor) (i : Incremental.Monitor)
          (m0 : Complete.Monitor) (s0 : Simple.Monitor) (i0 : Incremental.Monitor),
     Simple.load_cache s0 (Complete.save_cache env m w) = Simple.load_cache s0 w /\
     Incremental.load_cache i0 (Complete.save_cache env m w) = Incremental.load_cache i0 w /\
     Complete.load_cache m0 (Simple.save_cache env s w) = Complete.load_cache m0 w /\
     Incremental.load_cache i0 (Simple.save_cache env s w) = Incremental.load_cache i0 w /\
     Complete.load_cache m0 (Incremental.save_cache env i w) = Complete.load_cache m0 w /\
     Simple.load_cache s0 (Incremental.save_cache env i w) = Simple.load_cache s0 w).
Proof.
  split; [|split; [|split; [|split]]].
  - intros m m0. unfold Complete.load_cache, Complete.save_cache. simpl.
    rewrite lookup_insert_eq. reflexivity.
  - intros m m0. unfold Simple.load_cache, Simple.save_cache. simpl.
    rewrite lookup_insert_eq. reflexivity.
  - intros m m0. unfold Incremental.load_cache, Incremental.save_cache. simpl.
    rewrite lookup_insert_eq. split; reflexivity.
  - intros m0 s0 i0.
    unfold Complete.load_cache, Simple.load_cache, Incremental.load_cache.
    split; [|split]; intros ->; reflexivity.
  - intros m s i m0 s0 i0.
    unfold Complete.load_cache, Simple.load_cache, Incremental.load_cache,
      Complete.save_cache, Simple.save_cache, Incremental.save_cache. simpl.
    rewrite !lookup_insert_ne by discriminate. auto 10.
Qed.

Lemma cache_round_trip_witness :
  Complete.load_cache Scenario.complete_monitor Scenario.empty_world
  = Scenario.complete_monitor.
Proof.
  apply (proj1 (proj1 (proj2 (proj2 (proj2 (cache_round_trip (Scenario.dead t0)
           Scenario.empty_world))))
           Scenario.complete_monitor
           {| Simple.seen_items := ∅; Simple.download_pdfs := true |}
           (Incremental.__init__ 20 false Scenario.empty_world))).
  reflexivity.
Defined.

Module CompleteMore.

Lemma complete_item_fields (env : Env) (l : Complete.Loop) (item : gmap string string) :
  Complete.max_items (Complete.lp_monitor (Complete.check_item env l item))
  = Complete.max_items (Complete.lp_monitor l) /\
  Complete.download_pdfs (Complete.lp_monitor (Complete.check_item env l item))
  = Complete.download_pdfs (Complete.lp_monitor l).
Proof.
  unfold Complete.check_item. destruct (bool_decide _); split; reflexivity.
Qed.

Lemma complete_loop_fields (env : Env) (items : list (gmap string string)) (l : Complete.Loop) :
  Complete.max_items (Complete.lp_monitor (Complete.check_loop env l items))
  = Complete.max_items (Complete.lp_monitor l) /\
  Complete.download_pdfs (Complete.lp_monitor (Complete.check_loop env l items))
  = Complete.download_pdfs (Complete.lp_monitor l).
Proof.
  unfold Complete.check_loop. revert l. induction items as [|item rest IH]; intros l.
  - split; reflexivity.
  - cbn [fold_left]. destruct (IH (Complete.check_item env l item)) as [H1 H2].
    destruct (complete_item_fields env l item) as [H3 H4].
    split; congruence.
Qed.

Lemma complete_loop_seen (env : Env) (items : list (gmap string string)) (l : Complete.Loop) :
  Complete.seen_items (Complete.lp_monitor (Complete.check_loop env l items))
  = Complete.seen_items (Complete.lp_monitor l) ∪ list_to_set (map Complete.item_id_of items).
Proof.
  unfold Complete.check_loop. revert l. induction items as [|item rest IH]; intros l.
  - simpl. rewrite right_id_L by apply _. reflexivity.
  - cbn [fold_left map list_to_set]. rewrite IH.
    destruct (decide (Complete.item_id_of item ∈ Complete.seen_items (Complete.lp_monitor l))) as [H|H].
    + rewrite CompleteLoop.complete_check_item_seen by exact H.
      apply set_eq. intros x. rewrite !elem_of_union, elem_of_singleton.
      split; [tauto|]. intros [Hx|[->|Hx]]; auto.
    + rewrite CompleteLoop.complete_check_item_new by exact H. simpl.
      apply set_eq. intros x. rewrite !elem_of_union, elem_of_singleton. tauto.
Qed.

Lemma complete_loop_count_fixed (env : Env) (items : list (gmap string string)) (l : Complete.Loop) :
  Complete.lp_new_count (Complete.check_loop env l items) = Complete.lp_new_count l ->
  Complete.check_loop env l items = l.
Proof.
  revert l. induction items as [|item rest IH]; intros l Hc; [reflexivity|].
  unfold Complete.check_loop in *. cbn [fold_left] in *.
  destruct (decide (Complete.item_id_of item ∈ Complete.seen_items (Complete.lp_monitor l))) as [H|H].
  - rewrite CompleteLoop.complete_check_item_seen in Hc |- * by exact H. apply IH. exact Hc.
  - exfalso.
    destruct (CompleteLoop.complete_check_loop_grows env rest (Complete.check_item env l item))
      as (_ & _ & Hcnt & _).
    unfold Complete.check_loop in Hcnt.
    rewrite CompleteLoop.complete_check_item_new in Hc, Hcnt by exact H. simpl in Hc, Hcnt. lia.
Qed.

End CompleteMore.

Module SimpleMore.

Lemma simple_item_fields (env : Env) (l : Simple.Loop) (item : gmap string string) :
  Simple.download_pdfs (Simple.lp_monitor (Simple.check_item env l item))
  = Simple.download_pdfs (Simple.lp_monitor l).
Proof.
  unfold Simple.check_item. destruct (bool_decide _); reflexivity.
Qed.

Lemma simple_loop_fields (env : Env) (items : list (gmap string string)) (l : Simple.Loop) :
  Simple.download_pdfs (Simple.lp_monitor (Simple.check_loop env l items))
  = Simple.download_pdfs (Simple.lp_monitor l).
Proof.
  unfold Simple.check_loop. revert l. induction items as [|item rest IH]; intros l.
  - reflexivity.
  - cbn [fold_left]. rewrite IH. apply simple_item_fields.
Qed.

Lemma simple_loop_seen (env : Env) (items : list (gmap string string)) (l : Simple.Loop) :
  Simple.seen_items (Simple.lp_monitor (Simple.check_loop env l items))
  = Simple.seen_items (Simple.lp_monitor l) ∪ list_to_set (map Simple.item_id_of items).
Proof.
  unfold Simple.check_loop. revert l. induction items as [|item rest IH]; intros l.
  - simpl. rewrite right_id_L by apply _. reflexivity.
  - cbn [fold_left map list_to_set]. rewrite IH.
    destruct (decide (Simple.item_id_of item ∈ Simple.seen_items (Simple.lp_monitor l))) as [H|H].
    + rewrite SimpleLoop.simple_check_item_seen by exact H.
      apply set_eq. intros x. rewrite !elem_of_union, elem_of_singleton.
      split; [tauto|]. intros [Hx|[->|Hx]]; auto.
    + rewrite SimpleLoop.simple_check_item_new by exact H. simpl.
      apply set_eq. intros x. rewrite !elem_of_union, elem_of_singleton. tauto.
Qed.

Lemma simple_loop_count_fixed (env : Env) (items : list (gmap string string)) (l : Simple.Loop) :
  Simple.lp_new_count (Simple.check_loop env l items) = Simple.lp_new_count l ->
  Simple.check_loop env l items = l.
Proof.
  revert l. induction items as [|item rest IH]; intros l Hc; [reflexivity|].
  unfold Simple.check_loop in *. cbn [fold_left] in *.
  destruct (decide (Simple.item_id_of item ∈ Simple.seen_items (Simple.lp_monitor l))) as [H|H].
  - rewrite SimpleLoop.simple_check_item_seen in Hc |- * by exact H. apply IH. exact Hc.
  - exfalso.
    destruct (SimpleLoop.simple_check_loop_grows env rest (Simple.check_item env l item))
      as (_ & _ & Hcnt & _).
    unfold Simple.check_loop in Hcnt.
    rewrite SimpleLoop.simple_check_item_new in Hc, Hcnt by exact H. simpl in Hc, Hcnt. lia.
Qed.

End SimpleMore.

Module CompleteRestart.

Lemma complete_init_cache (a : Z) (b : bool) (w1 w : World) :
  cache_files w1 = cache_files w ->
  Complete.__init__ a b w1 = Complete.__init__ a b w.
Proof. intros H. unfold Complete.__init__, Complete.load_cache. rewrite H. reflexivity. Qed.

Lemma complete_init_saved (env : Env) (m : Complete.Monitor) (w : World) :
  Complete.__init__ (Complete.max_items m) (Complete.download_pdfs m) (Complete.save_cache env m w) = m.
Proof.
  unfold Complete.__init__, Complete.load_cache, Complete.save_cache. simpl.
  rewrite lookup_insert_eq. destruct m; reflexivity.
Qed.

Lemma complete_fetch_cache (env : Env) (w : World) :
  cache_files (snd (Complete.fetch_rss_with_curl env w)) = cache_files w.
Proof.
  unfold Complete.fetch_rss_with_curl.
  repeat match goal with
         | |- context [match proc_status ?o with _ => _ end] => destruct (proc_status o)
         | |- context [if ?b then _ else _] => destruct b
         end; reflexivity.
Qed.

Lemma complete_restart (env : Env) (m : Complete.Monitor) (w : World) :
  Complete.__init__ (Complete.max_items m) (Complete.download_pdfs m) w = m ->
  Complete.__init__ (Complete.max_items (fst (Complete.check_announcements env m w)))
      (Complete.download_pdfs (fst (Complete.check_announcements env m w))) (snd (Complete.check_announcements env m w))
  = fst (Complete.check_announcements env m w).
Proof.
  intros Hsync. unfold Complete.check_announcements.
  pose proof (complete_fetch_cache env w) as Hw1.
  destruct (Complete.fetch_rss_with_curl env w) as [[content|] w1]; cbn [snd] in Hw1.
  2:{ cbn [fst snd]. rewrite (complete_init_cache _ _ w1 w Hw1). exact Hsync. }
  destruct (Parser.parse_rss_manually env content) as [items report].
  set (w2 := match report with Some msg => W.print msg w1 | None => w1 end).
  assert (Hw2 : cache_files w2 = cache_files w).
  { subst w2. destruct report; exact Hw1. }
  destruct items as [|i is_].
  { cbn [fst snd]. rewrite (complete_init_cache _ _ w2 w Hw2). exact Hsync. }
  set (l0 := {| Complete.lp_monitor := m; Complete.lp_new_count := 0; Complete.lp_world := w2 |}).
  set (latest := py_take _ (i :: is_)).
  destruct (0 <? Complete.lp_new_count (Complete.check_loop env l0 latest)) eqn:Hc; cbn [fst snd].
  - apply complete_init_saved.
  - apply Nat.ltb_ge in Hc.
    assert (Hfix : Complete.check_loop env l0 latest = l0).
    { apply CompleteMore.complete_loop_count_fixed. simpl. lia. }
    rewrite Hfix. simpl. rewrite (complete_init_cache _ _ w2 w Hw2). exact Hsync.
Qed.

Lemma complete_seen_after (env : Env) (m : Complete.Monitor) (w : World)
    (content : string) (items : list (gmap string string)) (report : option Msg) :
  fst (Complete.fetch_rss_with_curl env w) = Some content ->
  Parser.parse_rss_manually env content = (items, report) ->
  Complete.seen_items (fst (Complete.check_announcements env m w))
  = Complete.seen_items m ∪ list_to_set (map Complete.item_id_of (py_take (Complete.max_items m) items)).
Proof.
  intros Hf Hp. unfold Complete.check_announcements.
  destruct (Complete.fetch_rss_with_curl env w) as [rc w1]. cbn [fst] in Hf. subst rc.
  rewrite Hp. destruct items as [|i is_].
  - cbn [fst]. replace (py_take (Complete.max_items m) (@nil (gmap string string))) with (@nil (gmap string string)).
    + simpl. rewrite right_id_L by apply _. reflexivity.
    + unfold py_take. destruct (0 <=? _)%Z; rewrite take_nil; reflexivity.
  - match goal with
    | |- context [Complete.check_loop env ?l0 ?its] =>
        pose proof (CompleteMore.complete_loop_seen env its l0) as Hs;
        destruct (0 <? Complete.lp_new_count (Complete.check_loop env l0 its)); exact Hs
    end.
Qed.

Lemma complete_seen_unfetched (env : Env) (m : Complete.Monitor) (w : World) :
  fst (Complete.fetch_rss_with_curl env w) = None ->
  Complete.check_announcements env m w = (m, snd (Complete.fetch_rss_with_curl env w)).
Proof.
  intros Hf. unfold Complete.check_announcements.
  destruct (Complete.fetch_rss_with_curl env w) as [rc w1]. cbn [fst] in Hf. subst rc.
  reflexivity.
Qed.

End CompleteRestart.

Module SimpleRestart.

Lemma simple_init_cache (b : bool) (w1 w : World) :
  cache_files w1 = cache_files w ->
  Simple.__init__ b w1 = Simple.__init__ b w.
Proof. intros H. unfold Simple.__init__, Simple.load_cache. rewrite H. reflexivity. Qed.

Lemma simple_init_saved (env : Env) (m : Simple.Monitor) (w : World) :
  Simple.__init__ (Simple.download_pdfs m) (Simple.save_cache env m w) = m.
Proof.
  unfold Simple.__init__, Simple.load_cache, Simple.save_cache. simpl.
  rewrite lookup_insert_eq. destruct m; reflexivity.
Qed.

Lemma simple_fetch_cache (env : Env) (w : World) :
  cache_files (snd (Simple.fetch_rss_with_curl env w)) = cache_files w.
Proof.
  unfold Simple.fetch_rss_with_curl.
  repeat match goal with
         | |- context [match proc_status ?o with _ => _ end] => destruct (proc_status o)
         | |- context [if ?b then _ else _] => destruct b
         end; reflexivity.
Qed.

Lemma simple_restart (env : Env) (max_items : Z) (m : Simple.Monitor) (w : World) :
  Simple.__init__ (Simple.download_pdfs m) w = m ->
  Simple.__init__ (Simple.download_pdfs (fst (Simple.check_announcements env max_items m w))) (snd (Simple.check_announcements env max_items m w))
  = fst (Simple.check_announcements env max_items m w).
Proof.
  intros Hsync. unfold Simple.check_announcements.
  pose proof (simple_fetch_cache env w) as Hw1.
  destruct (Simple.fetch_rss_with_curl env w) as [[content|] w1]; cbn [snd] in Hw1.
  2:{ cbn [fst snd]. rewrite (simple_init_cache _ w1 w Hw1). exact Hsync. }
  destruct (Parser.parse_rss_manually env content) as [items report].
  set (w2 := match report with Some msg => W.print msg w1 | None => w1 end).
  assert (Hw2 : cache_files w2 = cache_files w).
  { subst w2. destruct report; exact Hw1. }
  destruct items as [|i is_].
  { cbn [fst snd]. rewrite (simple_init_cache _ w2 w Hw2). exact Hsync. }
  set (l0 := {| Simple.lp_monitor := m; Simple.lp_new_count := 0; Simple.lp_world := w2 |}).
  set (latest := py_take _ (i :: is_)).
  destruct (0 <? Simple.lp_new_count (Simple.check_loop env l0 latest)) eqn:Hc; cbn [fst snd].
  - apply simple_init_saved.
  - apply Nat.ltb_ge in Hc.
    assert (Hfix : Simple.check_loop env l0 latest = l0).
    { apply SimpleMore.simple_loop_count_fixed. simpl. lia. }
    rewrite Hfix. simpl. rewrite (simple_init_cache _ w2 w Hw2). exact Hsync.
Qed.

Lemma simple_seen_after (env : Env) (max_items : Z) (m : Simple.Monitor) (w : World)
    (content : string) (items : list (gmap string string)) (report : option Msg) :
  fst (Simple.fetch_rss_with_curl env w) = Some content ->
  Parser.parse_rss_manually env content = (items, report) ->
  Simple.seen_items (fst (Simple.check_announcements env max_items m w))
  = Simple.seen_items m ∪ list_to_set (map Simple.item_id_of (py_take max_items items)).
Proof.
  intros Hf Hp. unfold Simple.check_announcements.
  destruct (Simple.fetch_rss_with_curl env w) as [rc w1]. cbn [fst] in Hf. subst rc.
  rewrite Hp. destruct items as [|i is_].
  - cbn [fst]. replace (py_take max_items (@nil (gmap string string))) with (@nil (gmap string string)).
    + simpl. rewrite right_id_L by apply _. reflexivity.
    + unfold py_take. destruct (0 <=? _)%Z; rewrite take_nil; reflexivity.
  - match goal with
    | |- context [Simple.check_loop env ?l0 ?its] =>
        pose proof (SimpleMore.simple_loop_seen env its l0) as Hs;
        destruct (0 <? Simple.lp_new_count (Simple.check_loop env l0 its)); exact Hs
    end.
Qed.

Lemma simple_seen_unfetched (env : Env) (max_items : Z) (m : Simple.Monitor) (w : World) :
  fst (Simple.fetch_rss_with_curl env w) = None ->
  Simple.check_announcements env max_items m w = (m, snd (Simple.fetch_rss_with_curl env w)).
Proof.
  intros Hf. unfold Simple.check_announcements.
  destruct (Simple.fetch_rss_with_curl env w) as [rc w1]. cbn [fst] in Hf. subst rc.
  reflexivity.
Qed.

End SimpleRestart.

Module IncrementalMore.

Lemma incremental_entries_seen (env : Env) (entries : list (gmap string string))
    (l : Incremental.Loop) :
  Incremental.seen_items
    (Incremental.lp_monitor (fold_left (Incremental.check_entry env) entries l))
  = Incremental.seen_items (Incremental.lp_monitor l)
    ∪ list_to_set (map Incremental.generate_item_id entries).
Proof.
  revert l. induction entries as [|entry rest IH]; intros l.
  - simpl. rewrite right_id_L by apply _. reflexivity.
  - cbn [fold_left map list_to_set]. rewrite IH.
    destruct (decide (Incremental.generate_item_id entry
                      ∈ Incremental.seen_items (Incremental.lp_monitor l))) as [H|H].
    + rewrite IncrementalLoop.incremental_check_entry_seen by exact H.
      apply set_eq. intros x. rewrite !elem_of_union, elem_of_singleton.
      split; [tauto|]. intros [Hx|[->|Hx]]; auto.
    + rewrite IncrementalLoop.incremental_check_entry_new by exact H. simpl.
      apply set_eq. intros x. rewrite !elem_of_union, elem_of_singleton. tauto.
Qed.

Lemma incremental_method1_seen (env : Env) (m : Incremental.Monitor) (w : World)
    (entries : list (gmap string string)) :
  feed_get env (W.tick w) rss_url = FeedEntries entries ->
  Incremental.seen_items (fst (Incremental.method1_process_only_latest_items env m w))
  = Incremental.seen_items m
    ∪ list_to_set (map Incremental.generate_item_id
                     (py_take (Incremental.max_items_to_process m) entries)).
Proof.
  intros Hf. unfold Incremental.method1_process_only_latest_items. rewrite Hf.
  destruct entries as [|e es].
  - cbn [fst].
    replace (py_take (Incremental.max_items_to_process m) (@nil (gmap string string)))
      with (@nil (gmap string string)).
    + simpl. rewrite right_id_L by apply _. reflexivity.
    + unfold py_take. destruct (0 <=? _)%Z; rewrite take_nil; reflexivity.
  - cbn [fst]. apply (incremental_entries_seen env _ {| Incremental.lp_monitor := m |}).
Qed.

Lemma incremental_check_fst (env : Env) (m : Incremental.Monitor) (w : World) :
  fst (Incremental.smart_incremental_check env m w)
  = fst (Incremental.method1_process_only_latest_items env m w).
Proof.
  unfold Incremental.smart_incremental_check.
  destruct (Incremental.method1_process_only_latest_items env m w); reflexivity.
Qed.

End IncrementalMore.

(** X2: a monitor that holds what its cache file holds (as it does right
    after [__init__]) still does so at the end of a cycle: what
    [check_announcements] leaves in memory ([CompleteNSEMonitor],
    [SimpleNSECurlMonitor]) is what a monitor created afterwards would
    load, although the cache is written only in the cycles that found a
    new record.  After [smart_incremental_check] ([IncrementalNSEMonitor])
    a new monitor loads the set of seen items of the running one in every
    case. *)
Theorem restart_recovers_seen_items (env : Env) (w : World) :
  (forall m : Complete.Monitor,
     Complete.__init__ (Complete.max_items m) (Complete.download_pdfs m) w = m ->
     let r := Complete.check_announcements env m w in
     Complete.__init__ (Complete.max_items (fst r)) (Complete.download_pdfs (fst r)) (snd r)
     = fst r) /\
  (forall (max_items : Z) (m : Simple.Monitor),
     Simple.__init__ (Simple.download_pdfs m) w = m ->
     let r := Simple.check_announcements env max_items m w in
     Simple.__init__ (Simple.download_pdfs (fst r)) (snd r) = fst r) /\
  (forall (m : Incremental.Monitor) (n : Z) (d : bool),
     let r := Incremental.smart_incremental_check env m w in
     Incremental.seen_items (Incremental.__init__ n d (snd r))
     = Incremental.seen_items (fst r)).
Proof.
  split; [|split].
  - intros m H. apply CompleteRestart.complete_restart. exact H.
  - intros max_items m H. apply SimpleRestart.simple_restart. exact H.
  - intros m n d. cbv zeta. unfold Incremental.smart_incremental_check.
    destruct (Incremental.method1_process_only_latest_items env m w) as [m1 w1].
    cbn [fst snd]. unfold Incremental.__init__, Incremental.load_cache,
      Incremental.save_cache. simpl. rewrite lookup_insert_eq. reflexivity.
Qed.

Lemma restart_recovers_seen_items_witness :
  let r := Complete.check_announcements (Scenario.generous t1) Scenario.fresh_monitor
             Scenario.empty_world in
  Complete.__init__ (Complete.max_items (fst r)) (Complete.download_pdfs (fst r)) (snd r)
  = fst r.
Proof.
  apply (proj1 (restart_recovers_seen_items (Scenario.generous t1) Scenario.empty_world)
           Scenario.fresh_monitor).
  reflexivity.
Defined.

(** X3: the set of seen items after a cycle.  When the feed was fetched
    and parsed, it is the old set together with the identifiers of the
    first [max_items] records of the feed, no more and no less
    ([check_announcements] of [CompleteNSEMonitor] and
    [SimpleNSECurlMonitor], [method1_process_only_latest_items] of
    [IncrementalNSEMonitor]); when the fetch failed, the monitor is as it
    was. *)
Theorem seen_items_after_cycle (env : Env) (w : World) :
  (forall (m : Complete.Monitor) content items report,
     fst (Complete.fetch_rss_with_curl env w) = Some content ->
     Parser.parse_rss_manually env content = (items, report) ->
     Complete.seen_items (fst (Complete.check_announcements env m w))
     = Complete.seen_items m
       ∪ list_to_set (map Complete.item_id_of (py_take (Complete.max_items m) items))) /\
  (forall (max_items : Z) (m : Simple.Monitor) content items report,
     fst (Simple.fetch_rss_with_curl env w) = Some content ->
     Parser.parse_rss_manually env content = (items, report) ->
     Simple.seen_items (fst (Simple.check_announcements env max_items m w))
     = Simple.seen_items m
       ∪ list_to_set (map Simple.item_id_of (py_take max_items items))) /\
  (forall (m : Incremental.Monitor) entries,
     feed_get env (W.tick w) rss_url = FeedEntries entries ->
     Incremental.seen_items (fst (Incremental.smart_incremental_check env m w))
     = Incremental.seen_items m
       ∪ list_to_set (map Incremental.generate_item_id
                        (py_take (Incremental.max_items_to_process m) entries))) /\
  (forall (m : Complete.Monitor),
     fst (Complete.fetch_rss_with_curl env w) = None ->
     fst (Complete.check_announcements env m w) = m) /\
  (forall (max_items : Z) (m : Simple.Monitor),
     fst (Simple.fetch_rss_with_curl env w) = None ->
     fst (Simple.check_announcements env max_items m w) = m) /\
  (forall (m : Incremental.Monitor),
     feed_get env (W.tick w) rss_url = FeedError ->
     fst (Incremental.smart_incremental_check env m w) = m).
Proof.
  split; [|split; [|split; [|split; [|split]]]].
  - intros m content items report. apply CompleteRestart.complete_seen_after.
  - intros max_items m content items report. apply SimpleRestart.simple_seen_after.
  - intros m entries Hf. rewrite IncrementalMore.incremental_check_fst.
    apply IncrementalMore.incremental_method1_seen. exact Hf.
  - intros m Hf. rewrite CompleteRestart.complete_seen_unfetched by exact Hf. reflexivity.
  - intros max_items m Hf. rewrite SimpleRestart.simple_seen_unfetched by exact Hf.
    reflexivity.
  - intros m Hf. rewrite IncrementalMore.incremental_check_fst.
    unfold Incremental.method1_process_only_latest_items. rewrite Hf. reflexivity.
Qed.

Lemma seen_items_after_cycle_witness :
  Complete.seen_items
    (fst (Complete.check_announcements (Scenario.feed_only t1) Scenario.fresh_monitor
            Scenario.empty_world))
  = Complete.seen_items Scenario.fresh_monitor
    ∪ list_to_set (map Complete.item_id_of
                     (py_take (Complete.max_items Scenario.fresh_monitor)
                        [Scenario.epl_item])).
Proof.
  apply (proj1 (seen_items_after_cycle (Scenario.feed_only t1) Scenario.empty_world)
           Scenario.fresh_monitor (Py.strip Scenario.feed_xml) [Scenario.epl_item] None).
  - vm_compute. reflexivity.
  - vm_compute. reflexivity.
Defined.

(** ** What a download may change *)

Module FrameFacts.

Lemma eff_refl (path : string) (w : World) : Frame.Effect path 0 w w.
Proof.
  split; try reflexivity.
  exists []. rewrite app_nil_r. split; [reflexivity | simpl; lia].
Qed.

Lemma eff_weaken (path : string) (n k : nat) (w w' : World) :
  Frame.Effect path n w w' -> n <= k -> Frame.Effect path k w w'.
Proof.
  intros [H1 H2 H3 (evs & H5 & H6) H7 H8] Hle. split; try assumption.
  exists evs. split; [exact H5 | lia].
Qed.

Lemma eff_trans (path : string) (n k : nat) (w w1 w2 : World) :
  Frame.Effect path n w w1 -> Frame.Effect path k w1 w2 ->
  Frame.Effect path (n + k) w w2.
Proof.
  intros [A1 A2 A3 (e1 & A5 & A6) A7 A8] [B1 B2 B3 (e2 & B5 & B6) B7 B8].
  split.
  - intros p Hp. rewrite B1, A1 by exact Hp. reflexivity.
  - congruence.
  - congruence.
  - exists (e1 ++ e2). rewrite B5, A5, <- app_assoc, length_app. split; [reflexivity|lia].
  - etrans; eassumption.
  - etrans; eassumption.
Qed.

Lemma eff_emit (path : string) (n : nat) (e : Event) (w w0 : World) :
  Frame.Effect path n w w0 -> Frame.Effect path (S n) w (W.emit e w0).
Proof.
  intros H. replace (S n) with (n + 1) by lia. apply (eff_trans _ _ _ _ w0); [exact H|].
  split; try reflexivity. exists [e]. split; [reflexivity | simpl; lia].
Qed.

Lemma eff_write (path content : string) (n : nat) (w w0 : World) :
  Frame.Effect path n w w0 -> Frame.Effect path n w (W.write path content w0).
Proof.
  intros H. replace n with (n + 0) by lia. apply (eff_trans _ _ _ _ w0); [exact H|].
  split; try reflexivity.
  - intros p Hp. simpl. apply lookup_insert_ne. congruence.
  - exists []. rewrite app_nil_r. split; [reflexivity | simpl; lia].
Qed.

Lemma eff_remove (path : string) (n : nat) (w w0 : World) :
  Frame.Effect path n w w0 -> Frame.Effect path n w (W.remove path w0).
Proof.
  intros H. replace n with (n + 0) by lia. apply (eff_trans _ _ _ _ w0); [exact H|].
  split; try reflexivity.
  - intros p Hp. simpl. apply lookup_delete_ne. congruence.
  - exists []. rewrite app_nil_r. split; [reflexivity | simpl; lia].
Qed.

Lemma eff_leave (path : string) (left : option string) (n : nat) (w w0 : World) :
  Frame.Effect path n w w0 -> Frame.Effect path n w (W.leave path left w0).
Proof. intros H. destruct left; [apply eff_write|]; exact H. Qed.

Lemma eff_remove_if_exists (path : string) (n : nat) (w w0 : World) :
  Frame.Effect path n w w0 -> Frame.Effect path n w (W.remove_if_exists path w0).
Proof.
  intros H. unfold W.remove_if_exists. destruct (W.exists_ path w0); [apply eff_remove|];
    exact H.
Qed.

Lemma eff_log_download (path : string) (l : DownloadLine) (n : nat) (w w0 : World) :
  Frame.Effect path n w w0 -> Frame.Effect path n w (W.log_download l w0).
Proof.
  intros H. replace n with (n + 0) by lia. apply (eff_trans _ _ _ _ w0); [exact H|].
  split; try reflexivity.
  - exists []. rewrite app_nil_r. split; [reflexivity | simpl; lia].
  - simpl. apply prefix_app_r. reflexivity.
Qed.

Lemma eff_log_failed (path : string) (l : FailedLine) (n : nat) (w w0 : World) :
  Frame.Effect path n w w0 -> Frame.Effect path n w (W.log_failed l w0).
Proof.
  intros H. replace n with (n + 0) by lia. apply (eff_trans _ _ _ _ w0); [exact H|].
  split; try reflexivity.
  - exists []. rewrite app_nil_r. split; [reflexivity | simpl; lia].
  - simpl. apply prefix_app_r. reflexivity.
Qed.

End FrameFacts.

Ltac eff_step :=
  first
    [ apply FrameFacts.eff_emit
    | apply FrameFacts.eff_write
    | apply FrameFacts.eff_remove
    | apply FrameFacts.eff_leave
    | apply FrameFacts.eff_remove_if_exists
    | apply FrameFacts.eff_log_download
    | apply FrameFacts.eff_log_failed ].

Ltac eff_solve :=
  cbn [snd fst];
  eapply FrameFacts.eff_weaken; [repeat eff_step; apply FrameFacts.eff_refl | lia].

Module DownloadFrame.

Lemma complete_requests_effect (env : Env) (file_url filepath filename : string) (w : World) :
  Frame.Effect filepath 1 w
    (snd (Complete._download_with_requests env file_url filepath filename w)).
Proof.
  unfold Complete._download_with_requests.
  destruct (http_get env (W.tick w) file_url); eff_solve.
Qed.

Lemma complete_tool_effect (method : string) (cmd : list string) (env : Env)
    (filepath filename : string) (w : World) :
  Frame.Effect filepath 1 w
    (snd (Complete.download_with_tool method cmd env filepath filename w)).
Proof.
  unfold Complete.download_with_tool.
  destruct (proc_status _);
    repeat match goal with |- context [if ?b then _ else _] => destruct b end; eff_solve.
Qed.

Lemma complete_download_effect (env : Env) (file_url filename : string) (w : World) :
  Frame.Effect (Py.path_join "nse_downloads" filename) 3 w
    (snd (Complete.smart_download_file env file_url filename w)).
Proof.
  unfold Complete.smart_download_file.
  destruct (negb _); [eff_solve|]. cbv zeta.
  set (filepath := Py.path_join "nse_downloads" filename).
  destruct (W.exists_ filepath w); [eff_solve|].
  pose proof (complete_requests_effect env file_url filepath filename w) as H1.
  destruct (Complete._download_with_requests _ _ _ _ _) as [b1 w1]. cbn [snd] in H1.
  destruct b1; [cbn [snd]; eapply FrameFacts.eff_weaken; [exact H1|lia]|].
  pose proof (complete_tool_effect "curl" (Complete.curl_cmd file_url filepath) env
                filepath filename w1) as H2.
  unfold Complete._download_with_curl.
  destruct (Complete.download_with_tool "curl" _ _ _ _ _) as [b2 w2]. cbn [snd] in H2.
  pose proof (FrameFacts.eff_trans _ _ _ _ _ _ H1 H2) as H12.
  destruct b2; [cbn [snd]; eapply FrameFacts.eff_weaken; [exact H12|lia]|].
  pose proof (complete_tool_effect "wget" (Complete.wget_cmd file_url filepath) env
                filepath filename w2) as H3.
  unfold Complete._download_with_wget.
  destruct (Complete.download_with_tool "wget" _ _ _ _ _) as [b3 w3]. cbn [snd] in H3.
  pose proof (FrameFacts.eff_trans _ _ _ _ _ _ H12 H3) as H123.
  destruct b3; cbn [snd]; [exact H123|].
  apply FrameFacts.eff_log_failed. exact H123.
Qed.

Lemma simple_download_effect (env : Env) (pdf_url filename : string) (w : World) :
  Frame.Effect (Py.path_join "nse_downloads" filename) 1 w
    (snd (Simple.download_pdf_with_curl env pdf_url filename w)).
Proof.
  unfold Simple.download_pdf_with_curl.
  destruct (negb _); [eff_solve|]. cbv zeta.
  destruct (W.exists_ _ w); [eff_solve|].
  destruct (proc_status _);
    repeat match goal with |- context [if ?b then _ else _] => destruct b end; eff_solve.
Qed.

Lemma incremental_requests_effect (env : Env) (pdf_url filepath : string) (attempts : nat)
    (w : World) :
  Frame.Effect filepath attempts w
    (snd (Incremental.requests_attempts env pdf_url filepath attempts w)).
Proof.
  revert w. induction attempts as [|n IH]; intros w; [apply FrameFacts.eff_refl|].
  cbn [Incremental.requests_attempts].
  destruct (http_get env (W.tick w) pdf_url) as [body|p|p|p]; try eff_solve.
  - replace (S n) with (1 + n) by lia.
    eapply FrameFacts.eff_trans; [|apply IH]. eff_solve.
  - replace (S n) with (1 + n) by lia.
    eapply FrameFacts.eff_trans; [|apply IH]. eff_solve.
Qed.

Lemma incremental_tool_effect (method : string) (cmd : list string) (env : Env)
    (filepath : string) (w : World) :
  Frame.Effect filepath 1 w
    (snd (Incremental.download_method_tool method cmd env filepath w)).
Proof.
  unfold Incremental.download_method_tool.
  destruct (proc_status _);
    repeat match goal with |- context [if ?b then _ else _] => destruct b end; eff_solve.
Qed.

Lemma incremental_download_effect (env : Env) (pdf_url filename : string) (w : World) :
  Frame.Effect (Py.path_join "nse_downloads" filename) 5 w
    (snd (Incremental.download_pdf_with_smart_fallback env pdf_url filename w)).
Proof.
  unfold Incremental.download_pdf_with_smart_fallback.
  destruct (_ || _); [eff_solve|]. cbv zeta.
  set (filepath := Py.path_join "nse_downloads" filename).
  destruct (W.exists_ filepath w); [eff_solve|].
  pose proof (incremental_requests_effect env pdf_url filepath 3 w) as H1.
  unfold Incremental._download_method_requests.
  destruct (Incremental.requests_attempts _ _ _ _ _) as [b1 w1]. cbn [snd] in H1.
  destruct b1; [cbn [snd]; eapply FrameFacts.eff_weaken; [exact H1|lia]|].
  pose proof (incremental_tool_effect "curl" (Incremental.curl_cmd pdf_url filepath) env
                filepath w1) as H2.
  unfold Incremental._download_method_curl.
  destruct (Incremental.download_method_tool "curl" _ _ _ _) as [b2 w2]. cbn [snd] in H2.
  pose proof (FrameFacts.eff_trans _ _ _ _ _ _ H1 H2) as H12.
  destruct b2; [cbn [snd]; eapply FrameFacts.eff_weaken; [exact H12|lia]|].
  pose proof (incremental_tool_effect "wget" (Incremental.wget_cmd pdf_url filepath) env
                filepath w2) as H3.
  unfold Incremental._download_method_wget.
  destruct (Incremental.download_method_tool "wget" _ _ _ _) as [b3 w3]. cbn [snd] in H3.
  pose proof (FrameFacts.eff_trans _ _ _ _ _ _ H12 H3) as H123.
  destruct b3; cbn [snd]; exact H123.
Qed.

Lemma flog_leave (path : string) (left : option string) (w : World) :
  failed_log (W.leave path left w) = failed_log w.
Proof. destruct left; reflexivity. Qed.

Lemma flog_remove_if_exists (path : string) (w : World) :
  failed_log (W.remove_if_exists path w) = failed_log w.
Proof. unfold W.remove_if_exists. destruct (W.exists_ path w); reflexivity. Qed.

Lemma simple_download_flog (env : Env) (pdf_url filename : string) (w : World) :
  failed_log (snd (Simple.download_pdf_with_curl env pdf_url filename w)) = failed_log w.
Proof.
  unfold Simple.download_pdf_with_curl.
  destruct (negb _); [reflexivity|]. cbv zeta.
  destruct (W.exists_ _ w); [reflexivity|].
  destruct (proc_status _);
    repeat match goal with |- context [if ?b then _ else _] => destruct b end;
    cbn [snd]; simpl; rewrite ?flog_remove_if_exists, ?flog_leave; reflexivity.
Qed.

Lemma incremental_requests_flog (env : Env) (pdf_url filepath : string) (attempts : nat)
    (w : World) :
  failed_log (snd (Incremental.requests_attempts env pdf_url filepath attempts w))
  = failed_log w.
Proof.
  revert w. induction attempts as [|n IH]; intros w; [reflexivity|].
  cbn [Incremental.requests_attempts].
  destruct (http_get env (W.tick w) pdf_url) as [body|p|p|p]; cbn [snd];
    rewrite ?IH, ?flog_leave; reflexivity.
Qed.

Lemma incremental_tool_flog (method : string) (cmd : list string) (env : Env)
    (filepath : string) (w : World) :
  failed_log (snd (Incremental.download_method_tool method cmd env filepath w))
  = failed_log w.
Proof.
  unfold Incremental.download_method_tool.
  destruct (proc_status _);
    repeat match goal with |- context [if ?b then _ else _] => destruct b end;
    cbn [snd]; simpl; rewrite ?flog_remove_if_exists, ?flog_leave; reflexivity.
Qed.

Lemma incremental_download_flog (env : Env) (pdf_url filename : string) (w : World) :
  failed_log (snd (Incremental.download_pdf_with_smart_fallback env pdf_url filename w))
  = failed_log w.
Proof.
  unfold Incremental.download_pdf_with_smart_fallback.
  destruct (_ || _); [reflexivity|]. cbv zeta.
  set (filepath := Py.path_join "nse_downloads" filename).
  destruct (W.exists_ filepath w); [reflexivity|].
  pose proof (incremental_requests_flog env pdf_url filepath 3 w) as H1.
  unfold Incremental._download_method_requests.
  destruct (Incremental.requests_attempts _ _ _ _ _) as [b1 w1]. cbn [snd] in H1.
  destruct b1; [exact H1|].
  pose proof (incremental_tool_flog "curl" (Incremental.curl_cmd pdf_url filepath) env
                filepath w1) as H2.
  unfold Incremental._download_method_curl.
  destruct (Incremental.download_method_tool "curl" _ _ _ _) as [b2 w2]. cbn [snd] in H2.
  destruct b2; [cbn [snd]; congruence|].
  pose proof (incremental_tool_flog "wget" (Incremental.wget_cmd pdf_url filepath) env
                filepath w2) as H3.
  unfold Incremental._download_method_wget.
  destruct (Incremental.download_method_tool "wget" _ _ _ _) as [b3 w3]. cbn [snd] in H3.
  destruct b3; cbn [snd]; congruence.
Qed.

End DownloadFrame.


Module Outcome.

(** What a strategy of [CompleteNSEMonitor] leaves when it returns. *)
Lemma complete_requests_outcome (env : Env) (file_url filepath filename : string)
    (w : World) :
  let r := Complete._download_with_requests env file_url filepath filename w in
  (fst r = true ->
   W.exists_ filepath (snd r) = true /\
   exists line,
     download_log (snd r) = download_log w ++ [line] /\
     dl_filename line = filename /\ dl_size line = W.getsize filepath (snd r)) /\
  (fst r = false ->
   download_log (snd r) = download_log w /\ W.exists_ filepath (snd r) = false) /\
  failed_log (snd r) = failed_log w.
Proof.
  cbv zeta. unfold Complete._download_with_requests.
  destruct (http_get env (W.tick w) file_url) as [body|p|p|p]; cbn [fst snd].
  - split; [|split]; [|discriminate|reflexivity].
    intros _. split.
    + apply WorldFacts.exists_true. simpl. rewrite lookup_insert_eq. eauto.
    + eexists. split; [reflexivity|]. split; reflexivity.
  - split; [|split]; [discriminate| |].
    + intros _. split; [|apply WorldFacts.exists_remove_if_exists].
      unfold W.remove_if_exists. destruct (W.exists_ _ _); destruct p; reflexivity.
    + unfold W.remove_if_exists. destruct (W.exists_ _ _); destruct p; reflexivity.
  - split; [|split]; [discriminate| |].
    + intros _. split; [|apply WorldFacts.exists_remove_if_exists].
      unfold W.remove_if_exists. destruct (W.exists_ _ _); destruct p; reflexivity.
    + unfold W.remove_if_exists. destruct (W.exists_ _ _); destruct p; reflexivity.
  - split; [|split]; [discriminate| |].
    + intros _. split; [|apply WorldFacts.exists_remove_if_exists].
      unfold W.remove_if_exists. destruct (W.exists_ _ _); destruct p; reflexivity.
    + unfold W.remove_if_exists. destruct (W.exists_ _ _); destruct p; reflexivity.
Qed.

Lemma complete_tool_outcome (method : string) (cmd : list string) (env : Env)
    (filepath filename : string) (w : World) :
  let r := Complete.download_with_tool method cmd env filepath filename w in
  (fst r = true ->
   W.exists_ filepath (snd r) = true /\
   exists line,
     download_log (snd r) = download_log w ++ [line] /\
     dl_filename line = filename /\ dl_size line = W.getsize filepath (snd r) /\
     0 < dl_size line) /\
  (fst r = false ->
   download_log (snd r) = download_log w /\
   (W.exists_ filepath (snd r) = true ->
    exists rc, proc_status (run_process env (W.tick w) cmd) = Exited rc /\ rc <> 0%Z)) /\
  failed_log (snd r) = failed_log w.
Proof.
  cbv zeta. unfold Complete.download_with_tool.
  set (o := run_process env (W.tick w) cmd).
  set (w1 := W.leave filepath (proc_output o) (W.emit (EvProcess cmd) w)).
  assert (Hd : download_log w1 = download_log w) by (subst w1; destruct (proc_output o); reflexivity).
  assert (Hf : failed_log w1 = failed_log w) by (subst w1; destruct (proc_output o); reflexivity).
  assert (Hr : forall v, download_log (W.remove_if_exists filepath v) = download_log v /\
                         failed_log (W.remove_if_exists filepath v) = failed_log v).
  { intros v. unfold W.remove_if_exists. destruct (W.exists_ _ _); split; reflexivity. }
  destruct (proc_status o) as [rc| | |] eqn:Hs.
  - destruct (rc =? 0)%Z eqn:Hrc; cbn [andb].
    + destruct (W.exists_ filepath w1) eqn:He.
      * destruct (0 <? W.getsize filepath w1) eqn:Hsz; cbn [fst snd].
        -- split; [|split]; [|discriminate|exact Hf].
           intros _. split; [exact He|]. eexists. simpl. rewrite Hd.
           split; [reflexivity|]. split; [reflexivity|]. split; [reflexivity|].
           apply Nat.ltb_lt. exact Hsz.
        -- split; [|split]; [discriminate| |exact Hf].
           intros _. split; [exact Hd|]. rewrite WorldFacts.exists_remove. discriminate.
      * cbn [fst snd]. split; [|split]; [discriminate| |exact Hf].
        intros _. split; [exact Hd|]. rewrite He. discriminate.
    + cbn [fst snd]. split; [|split]; [discriminate| |exact Hf].
      intros _. split; [exact Hd|]. intros _. exists rc. split; [reflexivity|].
      apply Z.eqb_neq. exact Hrc.
  - cbn [fst snd]. destruct (Hr w1) as [Hr1 Hr2].
    split; [|split]; [discriminate| |congruence].
    intros _. split; [congruence|]. rewrite WorldFacts.exists_remove_if_exists. discriminate.
  - cbn [fst snd]. destruct (Hr w1) as [Hr1 Hr2].
    split; [|split]; [discriminate| |congruence].
    intros _. split; [congruence|]. rewrite WorldFacts.exists_remove_if_exists. discriminate.
  - cbn [fst snd]. destruct (Hr w1) as [Hr1 Hr2].
    split; [|split]; [discriminate| |congruence].
    intros _. split; [congruence|]. rewrite WorldFacts.exists_remove_if_exists. discriminate.
Qed.

End Outcome.

(** X5: the books of [CompleteNSEMonitor.smart_download_file], for a URL
    ending in [.pdf] or [.xml] and a target that does not exist yet.  When
    it returns [True] the target exists, exactly one entry was written at
    the end of the download log, with the file name and the size of the
    file, and the log of failures is as it was; when it returns [False]
    the download log is as it was and exactly one entry, with the URL and
    the file name, was written at the end of the log of failures.  An
    entry is what one write puts into the file; this monitor ends it with
    the two characters backslash and [n], not with a line break, so that
    the entries of a log follow one another on one line. *)
Theorem download_is_logged_once (env : Env) (url filename : string) (w : World) :
  Complete.supported url = true ->
  W.exists_ (Py.path_join "nse_downloads" filename) w = false ->
  let target := Py.path_join "nse_downloads" filename in
  let r := Complete.smart_download_file env url filename w in
  (fst r = true ->
   W.exists_ target (snd r) = true /\
   failed_log (snd r) = failed_log w /\
   exists line,
     download_log (snd r) = download_log w ++ [line] /\
     dl_filename line = filename /\ dl_size line = W.getsize target (snd r)) /\
  (fst r = false ->
   download_log (snd r) = download_log w /\
   failed_log (snd r)
   = failed_log w ++ [{| fl_time := now env (W.tick (snd r)); fl_url := url;
                         fl_filename := filename |}]).
Proof.
  intros Hsup Hex. cbv zeta. unfold Complete.smart_download_file.
  rewrite Hsup. cbn [negb]. cbv zeta. rewrite Hex.
  set (filepath := Py.path_join "nse_downloads" filename).
  pose proof (Outcome.complete_requests_outcome env url filepath filename w) as O1.
  cbv zeta in O1.
  destruct (Complete._download_with_requests env url filepath filename w) as [b1 w1].
  cbn [fst snd] in O1. destruct O1 as (S1 & F1 & L1).
  destruct b1.
  { cbn [fst snd]. split; [|discriminate]. intros _.
    destruct (S1 eq_refl) as (He & line & Hl & Hn & Hs).
    split; [exact He|]. split; [exact L1|]. exists line. auto. }
  destruct (F1 eq_refl) as [D1 _].
  pose proof (Outcome.complete_tool_outcome "curl" (Complete.curl_cmd url filepath) env
                filepath filename w1) as O2.
  cbv zeta in O2. unfold Complete._download_with_curl.
  destruct (Complete.download_with_tool "curl" _ env filepath filename w1) as [b2 w2].
  cbn [fst snd] in O2. destruct O2 as (S2 & F2 & L2).
  destruct b2.
  { cbn [fst snd]. split; [|discriminate]. intros _.
    destruct (S2 eq_refl) as (He & line & Hl & Hn & Hs & _).
    split; [exact He|]. split; [congruence|]. exists line. rewrite Hl, D1. auto. }
  destruct (F2 eq_refl) as [D2 _].
  pose proof (Outcome.complete_tool_outcome "wget" (Complete.wget_cmd url filepath) env
                filepath filename w2) as O3.
  cbv zeta in O3. unfold Complete._download_with_wget.
  destruct (Complete.download_with_tool "wget" _ env filepath filename w2) as [b3 w3].
  cbn [fst snd] in O3. destruct O3 as (S3 & F3 & L3).
  destruct b3.
  { cbn [fst snd]. split; [|discriminate]. intros _.
    destruct (S3 eq_refl) as (He & line & Hl & Hn & Hs & _).
    split; [exact He|]. split; [congruence|]. exists line. rewrite Hl, D2, D1. auto. }
  destruct (F3 eq_refl) as [D3 _].
  cbn [fst snd]. split; [discriminate|]. intros _. simpl.
  split; [congruence|]. rewrite L3, L2, L1. reflexivity.
Qed.

Lemma download_is_logged_once_witness :
  let env := Scenario.curl_works t1 in
  let url := "https://nsearchives.nseindia.com/corporate/EPL.pdf" in
  let filename := "EPL_Limited_08Aug2025_211422.pdf" in
  let target := Py.path_join "nse_downloads" filename in
  let r := Complete.smart_download_file env url filename Scenario.empty_world in
  (fst r = true ->
   W.exists_ target (snd r) = true /\
   failed_log (snd r) = failed_log Scenario.empty_world /\
   exists line,
     download_log (snd r) = download_log Scenario.empty_world ++ [line] /\
     dl_filename line = filename /\ dl_size line = W.getsize target (snd r)) /\
  (fst r = false ->
   download_log (snd r) = download_log Scenario.empty_world /\
   failed_log (snd r)
   = failed_log Scenario.empty_world
     ++ [{| fl_time := now env (W.tick (snd r)); fl_url := url; fl_filename := filename |}]).
Proof.
  apply (download_is_logged_once (Scenario.curl_works t1)
           "https://nsearchives.nseindia.com/corporate/EPL.pdf"
           "EPL_Limited_08Aug2025_211422.pdf" Scenario.empty_world).
  - reflexivity.
  - vm_compute. reflexivity.
Defined.

(** X6: what a failed download can leave behind in
    [CompleteNSEMonitor].  [_download_with_requests] never returns [False]
    with a file at the target.  When [smart_download_file] returns
    [False] for a target that did not exist and a file is at the target
    afterwards, [wget] has exited with a code other than 0: after an exit
    with code 0 (an empty file) or an exception of the last method the
    target is gone. *)
Theorem failed_download_leftover (env : Env) (url filename : string) (w : World) :
  (forall filepath,
     fst (Complete._download_with_requests env url filepath filename w) = false ->
     W.exists_ filepath
       (snd (Complete._download_with_requests env url filepath filename w)) = false) /\
  (W.exists_ (Py.path_join "nse_downloads" filename) w = false ->
   let target := Py.path_join "nse_downloads" filename in
   let r := Complete.smart_download_file env url filename w in
   fst r = false -> W.exists_ target (snd r) = true ->
   exists t rc,
     proc_status (run_process env t (Complete.wget_cmd url target)) = Exited rc /\
     rc <> 0%Z).
Proof.
  split.
  - intros filepath H.
    pose proof (Outcome.complete_requests_outcome env url filepath filename w) as O1.
    cbv zeta in O1. destruct O1 as (_ & F1 & _). apply F1. exact H.
  - intros Hex. cbv zeta. unfold Complete.smart_download_file.
    destruct (negb _); [cbn [fst snd]; intros _ He; congruence|]. cbv zeta. rewrite Hex.
    set (filepath := Py.path_join "nse_downloads" filename).
    destruct (Complete._download_with_requests env url filepath filename w) as [b1 w1].
    destruct b1; [discriminate|].
    unfold Complete._download_with_curl.
    destruct (Complete.download_with_tool "curl" _ env filepath filename w1) as [b2 w2].
    destruct b2; [discriminate|].
    pose proof (Outcome.complete_tool_outcome "wget" (Complete.wget_cmd url filepath) env
                  filepath filename w2) as O3.
    cbv zeta in O3. unfold Complete._download_with_wget.
    destruct (Complete.download_with_tool "wget" _ env filepath filename w2) as [b3 w3].
    cbn [fst snd] in O3. destruct O3 as (_ & F3 & _).
    destruct b3; [discriminate|]. cbn [fst snd]. intros _ He.
    destruct (F3 eq_refl) as [_ Hrc]. destruct (Hrc He) as (rc & Hs & Hne).
    exists (W.tick w2), rc. auto.
Qed.

Lemma failed_download_leftover_witness :
  let env := Scenario.truncating t1 in
  let url := "https://nsearchives.nseindia.com/corporate/EPL.pdf" in
  let filename := "EPL_Limited_08Aug2025_211422.pdf" in
  exists t rc,
    proc_status (run_process env t
                   (Complete.wget_cmd url (Py.path_join "nse_downloads" filename)))
    = Exited rc /\ rc <> 0%Z.
Proof.
  apply (proj2 (failed_download_leftover (Scenario.truncating t1)
                  "https://nsearchives.nseindia.com/corporate/EPL.pdf"
                  "EPL_Limited_08Aug2025_211422.pdf" Scenario.empty_world)).
  - vm_compute. reflexivity.
  - vm_compute. reflexivity.
  - vm_compute. reflexivity.
Defined.

(** ** More on the file names *)

Module NameFacts.
Import PyFacts.

Lemma take_app_le (n : nat) (a b : string) :
  n <= Py.len a -> Py.take n (a +:+ b) = Py.take n a.
Proof.
  revert a. induction n as [|n IH]; intros a Hn.
  - destruct a, b; reflexivity.
  - destruct a as [|c a]; [simpl in Hn; lia|].
    rewrite app_cons. simpl. rewrite IH; [reflexivity|]. unfold Py.len in *. simpl in Hn. lia.
Qed.

Lemma take_first (n : nat) (s : string) :
  0 < n -> Py.first_char (Py.take n s) = Py.first_char s.
Proof. intros Hn. destruct n; [lia|]. destruct s; reflexivity. Qed.

Lemma first_char_app (a b : string) :
  a <> "" -> Py.first_char (a +:+ b) = Py.first_char a.
Proof. destruct a; [contradiction | reflexivity]. Qed.

Lemma lstrip_first (p : ascii -> bool) (s : string) (c : ascii) :
  Py.first_char (Py.lstrip_by p s) = Some c -> p c = false.
Proof.
  induction s as [|d s IH]; simpl; [discriminate|].
  destruct (p d) eqn:Hd; [exact IH|]. simpl. intros [= <-]. exact Hd.
Qed.

Lemma first_char_forallb (q : ascii -> bool) (s : string) (c : ascii) :
  Py.forallb q s = true -> Py.first_char s = Some c -> q c = true.
Proof.
  destruct s as [|d s]; simpl; [discriminate|].
  intros [Hd _]%andb_true_iff [= <-]. exact Hd.
Qed.

Lemma len_zero (s : string) : Py.len s = 0 -> s = "".
Proof. destruct s; [reflexivity | discriminate]. Qed.

Lemma keep_date_split (c : ascii) :
  Sanitizer.keep_date c = true -> Py.is_char Py.underscore c = false -> Py.is_alnum c = true.
Proof.
  unfold Sanitizer.keep_date. intros [H|H]%orb_true_iff Hu; [exact H | congruence].
Qed.

Lemma stem_keep_date (now : datetime) (company pub_date : string) :
  Py.forallb Sanitizer.keep_date (Sanitizer.stem now company pub_date) = true.
Proof.
  unfold Sanitizer.stem, Py.sub_runs. apply forallb_lstrip.
  apply forallb_sub_runs_from; try reflexivity.
  rewrite !forallb_app, SanitizerFacts.company_clean_keep_date,
    SanitizerFacts.date_clean_keep_date. reflexivity.
Qed.

(** The validity check fails exactly when nothing is left before the
    extension. *)
Lemma needs_fallback_stem (now : datetime) (company pub_date file_url : string) :
  Sanitizer.needs_fallback (Sanitizer.file_ext_of file_url)
    (Sanitizer.combined now company pub_date file_url)
  = (Py.len (Sanitizer.stem now company pub_date) =? 0).
Proof.
  rewrite SanitizerFacts.combined_stem. unfold Sanitizer.needs_fallback.
  pose proof (SanitizerFacts.file_ext_len file_url) as Hext.
  set (st := Sanitizer.stem now company pub_date).
  set (ext := Sanitizer.file_ext_of file_url) in *.
  rewrite len_app, Hext.
  destruct st as [|c st].
  - rewrite app_nil_l, String.eqb_refl. reflexivity.
  - replace (Py.len (String c st)) with (S (Py.len st)) by reflexivity.
    replace (S (Py.len st) + 4 =? 0) with false by (symmetry; apply Nat.eqb_neq; lia).
    replace (S (Py.len st) + 4 <? 5) with false by (symmetry; apply Nat.ltb_ge; lia).
    replace (S (Py.len st) =? 0) with false by reflexivity.
    rewrite orb_false_r. cbn [orb].
    apply not_true_is_false. intros H%String.eqb_eq.
    apply (f_equal Py.len) in H. rewrite len_app, Hext in H.
    unfold Py.len in H. simpl in H. lia.
Qed.

(** The name before the truncation: a non-empty body of letters, digits
    and underscores that starts with a letter or a digit, and the
    extension. *)
Lemma untruncated_shape (now : datetime) (company pub_date file_url : string) :
  let ext := Sanitizer.file_ext_of file_url in
  let filename := Sanitizer.combined now company pub_date file_url in
  exists body c,
    (if Sanitizer.needs_fallback ext filename
     then "NSE_Announcement_" +:+ Clock.strftime_Ymd_HMS now +:+ ext
     else filename) = body +:+ ext /\
    Py.forallb Sanitizer.keep_date body = true /\
    Py.first_char body = Some c /\ Py.is_alnum c = true.
Proof.
  cbv zeta. rewrite needs_fallback_stem, SanitizerFacts.combined_stem.
  destruct (Py.len (Sanitizer.stem now company pub_date) =? 0) eqn:E.
  - exists ("NSE_Announcement_" +:+ Clock.strftime_Ymd_HMS now), "N"%char.
    split; [rewrite app_assoc; reflexivity|]. split; [|split; reflexivity].
    rewrite forallb_app, SanitizerFacts.strftime_Ymd_HMS_keep_date. reflexivity.
  - pose proof (stem_keep_date now company pub_date) as Hk.
    destruct (Sanitizer.stem now company pub_date) as [|c st] eqn:Es; [discriminate|].
    exists (String c st), c. split; [reflexivity|]. split; [exact Hk|].
    split; [reflexivity|]. apply keep_date_split.
    + simpl in Hk. apply andb_true_iff in Hk as [Hc _]. exact Hc.
    + apply (lstrip_first _ (Py.sub_runs (Py.is_char Py.underscore) 2 "_"
                (Sanitizer.company_clean company +:+ "_"
                 +:+ Sanitizer.date_clean now pub_date))).
      fold (Sanitizer.stem now company pub_date). rewrite Es. reflexivity.
Qed.

Lemma output_shape (now : datetime) (company pub_date file_url : string) :
  exists body c,
    Sanitizer.create_safe_filename now company pub_date file_url
    = body +:+ Sanitizer.file_ext_of file_url /\
    Py.forallb Sanitizer.keep_date body = true /\
    Py.first_char body = Some c /\ Py.is_alnum c = true.
Proof.
  unfold Sanitizer.create_safe_filename.
  destruct (untruncated_shape now company pub_date file_url) as (body & c & Hn & Hk & Hf & Hc).
  cbv zeta in Hn. rewrite Hn.
  destruct (200 <? Py.len (body +:+ Sanitizer.file_ext_of file_url)) eqn:E.
  - apply Nat.ltb_lt in E. rewrite len_app, SanitizerFacts.file_ext_len in E.
    rewrite take_app_le by lia.
    exists (Py.take 190 body), c. split; [reflexivity|].
    split; [apply forallb_take; exact Hk|].
    split; [rewrite take_first by lia; exact Hf | exact Hc].
  - exists body, c. auto.
Qed.

(** *** Characters that survive the cleaning *)

Lemma existsb_app (q : ascii -> bool) (a b : string) :
  Py.existsb q (a +:+ b) = Py.existsb q a || Py.existsb q b.
Proof.
  induction a as [|c a IH]; [reflexivity|].
  rewrite app_cons. simpl. rewrite IH. apply orb_assoc.
Qed.

Lemma existsb_nonempty (q : ascii -> bool) (s : string) :
  Py.existsb q s = true -> (Py.len s =? 0) = false.
Proof. destruct s; [discriminate | reflexivity]. Qed.

Lemma existsb_filter (p q : ascii -> bool) (s : string) :
  (forall c, q c = true -> p c = true) ->
  Py.existsb q s = true -> Py.existsb q (Py.filter p s) = true.
Proof.
  intros Hqp. induction s as [|c s IH]; simpl; [discriminate|].
  destruct (q c) eqn:Hq; simpl.
  - intros _. rewrite (Hqp c Hq). simpl. rewrite Hq. reflexivity.
  - intros H. destruct (p c); simpl; rewrite ?Hq; auto.
Qed.

Lemma existsb_lstrip (p q : ascii -> bool) (s : string) :
  (forall c, q c = true -> p c = false) ->
  Py.existsb q s = true -> Py.existsb q (Py.lstrip_by p s) = true.
Proof.
  intros Hqp. induction s as [|c s IH]; simpl; [discriminate|].
  destruct (p c) eqn:Hp.
  - destruct (q c) eqn:Hq; [rewrite (Hqp c Hq) in Hp; discriminate|]. exact IH.
  - intros H. exact H.
Qed.

Lemma existsb_rstrip (p q : ascii -> bool) (s : string) :
  (forall c, q c = true -> p c = false) ->
  Py.existsb q s = true -> Py.existsb q (Py.rstrip_by p s) = true.
Proof.
  intros Hqp. induction s as [|c s IH]; simpl; [discriminate|].
  destruct (q c) eqn:Hq; simpl.
  - intros _. destruct (Py.rstrip_by p s).
    + rewrite (Hqp c Hq). simpl. rewrite Hq. reflexivity.
    + simpl. rewrite Hq. reflexivity.
  - intros H. specialize (IH H). destruct (Py.rstrip_by p s); [discriminate|].
    simpl in *. rewrite Hq. exact IH.
Qed.

Lemma existsb_sub_runs_from (p q : ascii -> bool) (min : nat) (rep run s : string) :
  (forall c, q c = true -> p c = false) ->
  Py.existsb q s = true -> Py.existsb q (Py.sub_runs_from p min rep run s) = true.
Proof.
  intros Hqp. revert run. induction s as [|c s IH]; intros run; simpl; [discriminate|].
  destruct (q c) eqn:Hq; simpl.
  - intros _. rewrite (Hqp c Hq), existsb_app. simpl. rewrite Hq. apply orb_true_r.
  - intros H. destruct (p c); [apply IH; exact H|].
    rewrite existsb_app. simpl. rewrite Hq, IH by exact H. apply orb_true_r.
Qed.

Lemma alnum_not_space (c : ascii) : Py.is_alnum c = true -> Py.isspace c = false.
Proof.
  unfold Py.is_alnum, Py.isspace, Py.is_lower, Py.is_upper, Py.is_digit, Py.in_range.
  generalize (Py.code c). intros n H.
  apply not_true_is_false. intros H'.
  rewrite !orb_true_iff, !andb_true_iff, !Nat.leb_le in H.
  rewrite !orb_true_iff, !andb_true_iff, !Nat.leb_le, !Nat.eqb_eq in H'.
  lia.
Qed.

Lemma alnum_not_underscore (c : ascii) :
  Py.is_alnum c = true -> Py.is_char Py.underscore c = false.
Proof.
  intros H. destruct (Py.is_char Py.underscore c) eqn:E; [|reflexivity].
  apply Ascii.eqb_eq in E. subst c. discriminate H.
Qed.

(** A letter or a digit in the title is still there in the stem. *)
Lemma stem_of_alnum_title (now : datetime) (company pub_date : string) :
  Py.existsb Py.is_alnum company = true ->
  (Py.len (Sanitizer.stem now company pub_date) =? 0) = false.
Proof.
  intros H. apply (existsb_nonempty Py.is_alnum).
  unfold Sanitizer.stem, Py.sub_runs.
  apply existsb_lstrip; [apply alnum_not_underscore|].
  apply existsb_sub_runs_from; [apply alnum_not_underscore|].
  rewrite existsb_app.
  assert (Hc : Py.existsb Py.is_alnum (Sanitizer.company_clean company) = true).
  { unfold Sanitizer.company_clean, Py.sub_runs, Py.strip.
    apply existsb_sub_runs_from; [apply alnum_not_space|].
    apply existsb_rstrip; [apply alnum_not_space|].
    apply existsb_lstrip; [apply alnum_not_space|].
    apply existsb_filter; [|exact H].
    intros c Hc. unfold Sanitizer.keep_company. rewrite Hc. reflexivity. }
  rewrite Hc. reflexivity.
Qed.

End NameFacts.

(** X7: the shape of every name that [create_safe_filename] returns: a
    non-empty body made of letters, digits and underscores only, followed
    by the extension; the first character is a letter or a digit (never a
    dot, an underscore or a separator), and the name has at least five
    characters. *)
Theorem create_safe_filename_shape (now : datetime) (company pub_date file_url : string) :
  let out := Sanitizer.create_safe_filename now company pub_date file_url in
  (exists body,
     out = body +:+ Sanitizer.file_ext_of file_url /\
     Py.forallb (fun c => Py.is_alnum c || Py.is_char "_" c) body = true) /\
  (exists c, Py.first_char out = Some c /\ Py.is_alnum c = true) /\
  5 <= Py.len out.
Proof.
  cbv zeta.
  destruct (NameFacts.output_shape now company pub_date file_url)
    as (body & c & -> & Hk & Hf & Hc).
  assert (Hne : body <> "") by (intros ->; discriminate).
  split; [exists body; split; [reflexivity | exact Hk]|]. split.
  - exists c. rewrite NameFacts.first_char_app by exact Hne. auto.
  - rewrite PyFacts.len_app, SanitizerFacts.file_ext_len.
    destruct body; [contradiction|]. unfold Py.len. simpl. lia.
Qed.

(** X8: when the title has at least one ASCII letter or digit, the
    validity check of [create_safe_filename] passes, so that the name is
    never the [NSE_Announcement_<timestamp>] fallback; with a non-empty
    publication date the name is then the same at every instant.  In
    general the check fails exactly when nothing is left before the
    extension. *)
Theorem create_safe_filename_of_alnum_title (company pub_date file_url : string) :
  (forall now,
     Sanitizer.needs_fallback (Sanitizer.file_ext_of file_url)
       (Sanitizer.combined now company pub_date file_url)
     = (Py.len (Sanitizer.stem now company pub_date) =? 0)) /\
  (Py.existsb Py.is_alnum company = true ->
   (forall now,
      Sanitizer.needs_fallback (Sanitizer.file_ext_of file_url)
        (Sanitizer.combined now company pub_date file_url) = false) /\
   (pub_date <> "" ->
    forall now1 now2,
      Sanitizer.create_safe_filename now1 company pub_date file_url
      = Sanitizer.create_safe_filename now2 company pub_date file_url)).
Proof.
  split; [intros now; apply NameFacts.needs_fallback_stem|].
  intros H.
  assert (Hnf : forall now,
    Sanitizer.needs_fallback (Sanitizer.file_ext_of file_url)
      (Sanitizer.combined now company pub_date file_url) = false).
  { intros now. rewrite NameFacts.needs_fallback_stem.
    apply NameFacts.stem_of_alnum_title. exact H. }
  split; [exact Hnf|]. intros Hd now1 now2.
  unfold Sanitizer.create_safe_filename. rewrite !Hnf.
  rewrite (SanitizerFacts.combined_clock_free now1 now2) by exact Hd. reflexivity.
Qed.

Lemma create_safe_filename_of_alnum_title_witness :
  Sanitizer.create_safe_filename t0 "K.E.C. (Intl)" "09-Aug-2025 20:22:59" "test.xml"
  = Sanitizer.create_safe_filename t1 "K.E.C. (Intl)" "09-Aug-2025 20:22:59" "test.xml".
Proof.
  apply (proj2 (create_safe_filename_of_alnum_title "K.E.C. (Intl)"
                  "09-Aug-2025 20:22:59" "test.xml")).
  - reflexivity.
  - discriminate.
Defined.

Module PathFacts.
Import PyFacts.

Lemma filter_app (p : ascii -> bool) (a b : string) :
  Py.filter p (a +:+ b) = Py.filter p a +:+ Py.filter p b.
Proof.
  induction a as [|c a IH]; [reflexivity|].
  rewrite app_cons. simpl. destruct (p c); rewrite IH; reflexivity.
Qed.

Lemma simple_keep_name_not_sep (c : ascii) :
  Simple.keep_name c = true -> negb (Sanitizer.is_path_sep c) = true.
Proof.
  intros H. destruct (Sanitizer.is_path_sep c) eqn:E; [|reflexivity].
  unfold Sanitizer.is_path_sep, Py.is_char in E.
  apply orb_true_iff in E as [E|E]; apply Ascii.eqb_eq in E; subst c; discriminate H.
Qed.

Lemma incremental_keep_name_not_sep (c : ascii) :
  Incremental.keep_name c = true -> negb (Sanitizer.is_path_sep c) = true.
Proof.
  intros H. destruct (Sanitizer.is_path_sep c) eqn:E; [|reflexivity].
  unfold Sanitizer.is_path_sep, Py.is_char in E.
  apply orb_true_iff in E as [E|E]; apply Ascii.eqb_eq in E; subst c; discriminate H.
Qed.

(** A name without separator is joined to the directory by a slash. *)
Lemma join_plain_name (name : string) :
  Py.forallb (fun c => negb (Sanitizer.is_path_sep c)) name = true ->
  Py.path_join "nse_downloads" name = "nse_downloads/" +:+ name.
Proof.
  intros H. unfold Py.path_join.
  assert (Hs : Py.startswith name "/" = false).
  { destruct name as [|c name]; [reflexivity|].
    simpl in H. apply andb_true_iff in H as [Hc _].
    rewrite startswith_cons, startswith_nil, andb_true_r.
    apply negb_true_iff in Hc. unfold Sanitizer.is_path_sep in Hc.
    apply orb_false_iff in Hc as [Hc _]. exact Hc. }
  rewrite Hs. reflexivity.
Qed.

Lemma join_in_downloads (name : string) :
  Py.forallb (fun c => negb (Sanitizer.is_path_sep c)) name = true ->
  Frame.in_downloads (Py.path_join "nse_downloads" name).
Proof. intros H. exists name. split; [apply join_plain_name; exact H | exact H]. Qed.

Lemma complete_name_plain (now : datetime) (company pub_date file_url : string) :
  Py.forallb (fun c => negb (Sanitizer.is_path_sep c))
    (Sanitizer.create_safe_filename now company pub_date file_url) = true.
Proof.
  apply (forallb_impl Sanitizer.name_char).
  - apply SanitizerFacts.name_char_not_sep.
  - apply SanitizerFacts.output_name_chars.
Qed.

Lemma simple_name_plain (item : gmap string string) :
  Py.forallb (fun c => negb (Sanitizer.is_path_sep c)) (Simple.filename_of item) = true.
Proof.
  unfold Simple.filename_of. apply (forallb_impl Simple.keep_name).
  - apply simple_keep_name_not_sep.
  - apply forallb_filter.
Qed.

Lemma incremental_name_plain (entry : gmap string string) :
  Py.forallb (fun c => negb (Sanitizer.is_path_sep c)) (Incremental.safe_filename_of entry)
  = true.
Proof.
  unfold Incremental.safe_filename_of. apply (forallb_impl Incremental.keep_name).
  - apply incremental_keep_name_not_sep.
  - apply forallb_filter.
Qed.

(** The files that the monitors keep lie in the working directory, not
    in the download directory. *)
Lemma downloads_not_books (p : string) :
  Frame.in_downloads p -> ~ In p Frame.book_files.
Proof.
  intros (name & -> & _) H. vm_compute in H.
  repeat (destruct H as [H|H]; [discriminate H|]). exact H.
Qed.

End PathFacts.

(** X4: the files that a download writes.  For a plain file name (no path
    separator, and none of the empty name, [.] and [..]) the target
    [nse_downloads/<filename>] lies directly in the download directory
    and is none of the files that the monitors keep in the working
    directory.  The download then writes no file but its target and the
    two logs: every other file is as it was, so are the cache files and
    the retry queue, and the logs are only appended to.  The downloads of
    [SimpleNSECurlMonitor] and of [IncrementalNSEMonitor] do not write the
    log of failures.  A download starts at most three transfers in
    [CompleteNSEMonitor.smart_download_file] (one for each method), one in
    [SimpleNSECurlMonitor.download_pdf_with_curl] and five in
    [IncrementalNSEMonitor.download_pdf_with_smart_fallback] (three
    attempts with [requests], then [curl], then [wget]). *)
Theorem download_touches_only_target (env : Env) (url filename : string) (w : World) :
  Frame.plain filename ->
  let target := Py.path_join "nse_downloads" filename in
  (Frame.in_downloads target /\ ~ In target Frame.book_files) /\
  (let w' := snd (Complete.smart_download_file env url filename w) in
   (forall p, p <> target -> ~ In p Frame.book_files -> fs w' !! p = fs w !! p) /\
   cache_files w' = cache_files w /\ retry_file w' = retry_file w /\
   download_log w `prefix_of` download_log w' /\
   failed_log w `prefix_of` failed_log w' /\
   exists evs, trace w' = trace w ++ evs /\ length evs <= 3) /\
  (let w' := snd (Simple.download_pdf_with_curl env url filename w) in
   (forall p, p <> target -> ~ In p Frame.book_files -> fs w' !! p = fs w !! p) /\
   cache_files w' = cache_files w /\ retry_file w' = retry_file w /\
   download_log w `prefix_of` download_log w' /\
   failed_log w' = failed_log w /\
   exists evs, trace w' = trace w ++ evs /\ length evs <= 1) /\
  (let w' := snd (Incremental.download_pdf_with_smart_fallback env url filename w) in
   (forall p, p <> target -> ~ In p Frame.book_files -> fs w' !! p = fs w !! p) /\
   cache_files w' = cache_files w /\ retry_file w' = retry_file w /\
   download_log w `prefix_of` download_log w' /\
   failed_log w' = failed_log w /\
   exists evs, trace w' = trace w ++ evs /\ length evs <= 5).
Proof.
  intros (Hsep & _) target.
  assert (Hin : Frame.in_downloads target)
    by (apply PathFacts.join_in_downloads; exact Hsep).
  split; [split; [exact Hin | apply PathFacts.downloads_not_books; exact Hin]|].
  split; [|split]; cbv zeta.
  - destruct (DownloadFrame.complete_download_effect env url filename w)
      as [H1 H2 H3 H5 H6 H7]. auto 10.
  - destruct (DownloadFrame.simple_download_effect env url filename w)
      as [H1 H2 H3 H5 H6 _].
    pose proof (DownloadFrame.simple_download_flog env url filename w). auto 10.
  - destruct (DownloadFrame.incremental_download_effect env url filename w)
      as [H1 H2 H3 H5 H6 _].
    pose proof (DownloadFrame.incremental_download_flog env url filename w). auto 10.
Qed.

Lemma download_touches_only_target_witness :
  let target := Py.path_join "nse_downloads" "EPL.pdf" in
  Frame.in_downloads target /\ ~ In target Frame.book_files.
Proof.
  apply (download_touches_only_target (Scenario.generous t1)
           "https://nsearchives.nseindia.com/corporate/EPL.pdf" "EPL.pdf"
           Scenario.empty_world).
  split; [reflexivity|]. split; [|split]; discriminate.
Defined.

(** X9: the file names of the other two monitors
    ([SimpleNSECurlMonitor.process_announcement],
    [IncrementalNSEMonitor.print_announcement]) have no path separator and
    end in [.pdf], whatever the title and the date of the record; and for
    the three monitors the path of the download is the directory
    [nse_downloads], a slash and that name. *)
Theorem download_names_are_plain :
  (forall item : gmap string string,
     let name := Simple.filename_of item in
     Py.forallb (fun c => negb (Sanitizer.is_path_sep c)) name = true /\
     Py.endswith name ".pdf" = true /\
     Py.path_join "nse_downloads" name = "nse_downloads/" +:+ name) /\
  (forall entry : gmap string string,
     let name := Incremental.safe_filename_of entry in
     Py.forallb (fun c => negb (Sanitizer.is_path_sep c)) name = true /\
     Py.endswith name ".pdf" = true /\
     Py.path_join "nse_downloads" name = "nse_downloads/" +:+ name) /\
  (forall now company pub_date file_url,
     let name := Sanitizer.create_safe_filename now company pub_date file_url in
     Py.path_join "nse_downloads" name = "nse_downloads/" +:+ name).
Proof.
  split; [|split].
  - intros item name. split; [apply PathFacts.simple_name_plain|]. split.
    + subst name. unfold Simple.filename_of.
      rewrite <- !PyFacts.app_assoc, PathFacts.filter_app.
      change (Py.filter Simple.keep_name ".pdf") with ".pdf". apply PyFacts.endswith_app.
    + apply PathFacts.join_plain_name, PathFacts.simple_name_plain.
  - intros entry name. split; [apply PathFacts.incremental_name_plain|]. split.
    + subst name. unfold Incremental.safe_filename_of.
      rewrite <- !PyFacts.app_assoc, PathFacts.filter_app.
      change (Py.filter Incremental.keep_name ".pdf") with ".pdf". apply PyFacts.endswith_app.
    + apply PathFacts.join_plain_name, PathFacts.incremental_name_plain.
  - intros now company pub_date file_url name.
    apply PathFacts.join_plain_name, PathFacts.complete_name_plain.
Qed.

Module WithinFacts.

Lemma within_refl (w : World) : Frame.Within 0 w w.
Proof.
  split; [reflexivity|]. exists []. rewrite app_nil_r. split; [reflexivity | simpl; lia].
Qed.

Lemma within_weaken (n k : nat) (w w' : World) :
  Frame.Within n w w' -> n <= k -> Frame.Within k w w'.
Proof.
  intros [H1 (evs & H2 & H3)] Hle. split; [exact H1|]. exists evs. split; [exact H2 | lia].
Qed.

Lemma within_trans (n k : nat) (w w1 w2 : World) :
  Frame.Within n w w1 -> Frame.Within k w1 w2 -> Frame.Within (n + k) w w2.
Proof.
  intros [A1 (e1 & A2 & A3)] [B1 (e2 & B2 & B3)]. split.
  - intros p Hp. rewrite B1, A1 by exact Hp. reflexivity.
  - exists (e1 ++ e2). rewrite B2, A2, <- app_assoc, length_app. split; [reflexivity|lia].
Qed.

Lemma within_of_effect (path : string) (n : nat) (w w' : World) :
  Frame.in_downloads path -> Frame.Effect path n w w' -> Frame.Within n w w'.
Proof.
  intros Hin [H1 _ _ H5 _ _]. split; [|exact H5].
  intros p Hp. apply H1. intros ->. contradiction.
Qed.

Lemma within_emit (e : Event) (w : World) : Frame.Within 1 w (W.emit e w).
Proof. split; [reflexivity|]. exists [e]. split; [reflexivity | simpl; lia]. Qed.

Lemma within_print_opt (report : option Msg) (w : World) :
  Frame.Within 0 w (match report with Some msg => W.print msg w | None => w end).
Proof.
  destruct report; [|apply within_refl].
  split; [reflexivity|]. exists []. rewrite app_nil_r. split; [reflexivity | simpl; lia].
Qed.

Lemma within_set_cache (name : string) (c : CacheFile) (w : World) :
  Frame.Within 0 w (W.set_cache name c w).
Proof.
  split; [reflexivity|]. exists []. rewrite app_nil_r. split; [reflexivity | simpl; lia].
Qed.

Lemma within_set_retry (q : list RetryItem) (w : World) :
  Frame.Within 0 w (W.set_retry q w).
Proof.
  split; [reflexivity|]. exists []. rewrite app_nil_r. split; [reflexivity | simpl; lia].
Qed.

Lemma py_take_length {A : Type} (n : Z) (l : list A) :
  (0 <= n)%Z -> length (py_take n l) <= Z.to_nat n.
Proof.
  intros Hn. unfold py_take. destruct (0 <=? n)%Z eqn:E; [|apply Z.leb_gt in E; lia].
  rewrite length_take. lia.
Qed.

End WithinFacts.

Module CompleteWithin.

Lemma complete_process_within (env : Env) (m : Complete.Monitor) (item : gmap string string)
    (is_new : bool) (w : World) :
  Frame.Within 3 w (Complete.process_announcement env m item is_new w).
Proof.
  unfold Complete.process_announcement.
  repeat match goal with |- context [if ?b then _ else _] => destruct b end;
    try (eapply WithinFacts.within_weaken; [apply WithinFacts.within_refl | lia]).
  eapply WithinFacts.within_of_effect;
    [|apply DownloadFrame.complete_download_effect].
  apply PathFacts.join_in_downloads, PathFacts.complete_name_plain.
Qed.

Lemma complete_item_within (env : Env) (l : Complete.Loop) (item : gmap string string) :
  Frame.Within 3 (Complete.lp_world l) (Complete.lp_world (Complete.check_item env l item)).
Proof.
  unfold Complete.check_item. destruct (bool_decide _).
  - eapply WithinFacts.within_weaken; [apply WithinFacts.within_refl | lia].
  - apply complete_process_within.
Qed.

Lemma complete_loop_within (env : Env) (items : list (gmap string string)) (l : Complete.Loop) :
  Frame.Within (3 * length items) (Complete.lp_world l)
    (Complete.lp_world (Complete.check_loop env l items)).
Proof.
  unfold Complete.check_loop. revert l. induction items as [|item rest IH]; intros l.
  - eapply WithinFacts.within_weaken; [apply WithinFacts.within_refl | lia].
  - cbn [fold_left length].
    eapply WithinFacts.within_weaken.
    + eapply WithinFacts.within_trans; [apply (complete_item_within env l item) | apply IH].
    + lia.
Qed.


End CompleteWithin.

Module SimpleWithin.

Lemma simple_process_within (env : Env) (m : Simple.Monitor) (item : gmap string string)
    (is_new : bool) (w : World) :
  Frame.Within 1 w (Simple.process_announcement env m item is_new w).
Proof.
  unfold Simple.process_announcement.
  repeat match goal with |- context [if ?b then _ else _] => destruct b end;
    try (eapply WithinFacts.within_weaken; [apply WithinFacts.within_refl | lia]).
  eapply WithinFacts.within_of_effect;
    [|apply DownloadFrame.simple_download_effect].
  apply PathFacts.join_in_downloads, PathFacts.simple_name_plain.
Qed.

Lemma simple_item_within (env : Env) (l : Simple.Loop) (item : gmap string string) :
  Frame.Within 1 (Simple.lp_world l) (Simple.lp_world (Simple.check_item env l item)).
Proof.
  unfold Simple.check_item. destruct (bool_decide _).
  - eapply WithinFacts.within_weaken; [apply WithinFacts.within_refl | lia].
  - apply simple_process_within.
Qed.

Lemma simple_loop_within (env : Env) (items : list (gmap string string)) (l : Simple.Loop) :
  Frame.Within (1 * length items) (Simple.lp_world l)
    (Simple.lp_world (Simple.check_loop env l items)).
Proof.
  unfold Simple.check_loop. revert l. induction items as [|item rest IH]; intros l.
  - eapply WithinFacts.within_weaken; [apply WithinFacts.within_refl | lia].
  - cbn [fold_left length].
    eapply WithinFacts.within_weaken.
    + eapply WithinFacts.within_trans; [apply (simple_item_within env l item) | apply IH].
    + lia.
Qed.

(** Without downloads the loop leaves the world alone. *)
Lemma simple_loop_no_downloads (env : Env) (items : list (gmap string string)) (l : Simple.Loop) :
  Simple.download_pdfs (Simple.lp_monitor l) = false ->
  Simple.lp_world (Simple.check_loop env l items) = Simple.lp_world l.
Proof.
  unfold Simple.check_loop. revert l. induction items as [|item rest IH]; intros l Hd;
    [reflexivity|].
  cbn [fold_left]. rewrite IH.
  - unfold Simple.check_item. destruct (bool_decide _); [reflexivity|]. simpl.
    unfold Simple.process_announcement. simpl. rewrite Hd. reflexivity.
  - rewrite SimpleMore.simple_item_fields. exact Hd.
Qed.

End SimpleWithin.

Module IncrementalWithin.

Lemma incremental_print_within (env : Env) (entry : gmap string string)
    (is_new download_pdf : bool) (w : World) :
  Frame.Within 5 w (Incremental.print_announcement env entry is_new download_pdf w).
Proof.
  unfold Incremental.print_announcement.
  destruct (_ && _); [|eapply WithinFacts.within_weaken; [apply WithinFacts.within_refl|lia]].
  cbv zeta.
  assert (H : Frame.Within 5 w
            (snd (Incremental.download_pdf_with_smart_fallback env
                    (dict_get entry "link" "No Link") (Incremental.safe_filename_of entry) w))).
  { eapply WithinFacts.within_of_effect; [|apply DownloadFrame.incremental_download_effect].
    apply PathFacts.join_in_downloads, PathFacts.incremental_name_plain. }
  destruct (Incremental.download_pdf_with_smart_fallback _ _ _ _) as [ok w1]. cbn [snd] in H.
  destruct ok; [exact H|].
  replace 5 with (5 + 0) by lia.
  eapply WithinFacts.within_trans; [exact H | apply WithinFacts.within_set_retry].
Qed.

Lemma incremental_entry_within (env : Env) (l : Incremental.Loop)
    (entry : gmap string string) :
  Frame.Within 5 (Incremental.lp_world l)
    (Incremental.lp_world (Incremental.check_entry env l entry)).
Proof.
  unfold Incremental.check_entry. destruct (bool_decide _).
  - eapply WithinFacts.within_weaken; [apply WithinFacts.within_refl | lia].
  - apply incremental_print_within.
Qed.

Lemma incremental_entries_within (env : Env) (entries : list (gmap string string))
    (l : Incremental.Loop) :
  Frame.Within (5 * length entries) (Incremental.lp_world l)
    (Incremental.lp_world (fold_left (Incremental.check_entry env) entries l)).
Proof.
  revert l. induction entries as [|entry rest IH]; intros l.
  - eapply WithinFacts.within_weaken; [apply WithinFacts.within_refl | lia].
  - cbn [fold_left length].
    eapply WithinFacts.within_weaken.
    + eapply WithinFacts.within_trans; [apply (incremental_entry_within env l entry) | apply IH].
    + lia.
Qed.



Lemma incremental_method1_within (env : Env) (m : Incremental.Monitor) (w : World) :
  exists n,
    Frame.Within (1 + 5 * n) w
      (snd (Incremental.method1_process_only_latest_items env m w)) /\
    ((0 <= Incremental.max_items_to_process m)%Z ->
     n <= Z.to_nat (Incremental.max_items_to_process m)).
Proof.
  unfold Incremental.method1_process_only_latest_items.
  destruct (feed_get env (W.tick w) rss_url) as [|[|e es]].
  - exists 0. split; [apply WithinFacts.within_emit | lia].
  - exists 0. split; [apply WithinFacts.within_emit | lia].
  - exists (length (py_take (Incremental.max_items_to_process m) (e :: es))).
    split; [|apply WithinFacts.py_take_length]. cbn [snd].
    eapply WithinFacts.within_trans; [apply WithinFacts.within_emit|].
    apply (incremental_entries_within env _
             {| Incremental.lp_monitor := m; Incremental.lp_new_count := 0;
                Incremental.lp_world := W.emit (EvFeedGet rss_url) w |}).
Qed.

End IncrementalWithin.

Module CycleWithin.

Lemma complete_cycle_within (env : Env) (m : Complete.Monitor) (w : World) :
  exists n,
    Frame.Within (1 + 3 * n) w (snd (Complete.check_announcements env m w)) /\
    ((0 <= Complete.max_items m)%Z -> n <= Z.to_nat (Complete.max_items m)).
Proof.
  unfold Complete.check_announcements, Complete.fetch_rss_with_curl.
  set (w1 := W.emit (EvProcess Complete.fetch_cmd) w).
  assert (H1 : Frame.Within 1 w w1) by apply WithinFacts.within_emit.
  destruct (Complete.accept_fetch _) as [content|].
  2:{ exists 0. split; [exact H1 | lia]. }
  destruct (Parser.parse_rss_manually env content) as [items report].
  set (w2 := match report with Some msg => W.print msg w1 | None => w1 end).
  assert (H2 : Frame.Within 1 w w2).
  { replace 1 with (1 + 0) by lia.
    eapply WithinFacts.within_trans; [exact H1 | apply WithinFacts.within_print_opt]. }
  destruct items as [|i is_].
  { exists 0. split; [exact H2 | lia]. }
  set (latest := py_take (Complete.max_items m) (i :: is_)).
  exists (length latest). split; [|apply WithinFacts.py_take_length].
  set (l0 := {| Complete.lp_monitor := m; Complete.lp_new_count := 0;
                Complete.lp_world := w2 |}).
  pose proof (CompleteWithin.complete_loop_within env latest l0) as H3.
  pose proof (WithinFacts.within_trans _ _ _ _ _ H2 H3) as H23.
  destruct (0 <? _); cbn [snd]; [|exact H23].
  replace (1 + 3 * length latest) with (1 + 3 * length latest + 0) by lia.
  eapply WithinFacts.within_trans; [exact H23 | apply WithinFacts.within_set_cache].
Qed.

Lemma simple_cycle_within (env : Env) (max_items : Z) (m : Simple.Monitor) (w : World) :
  exists n,
    Frame.Within (2 + 1 * n) w (snd (Simple.check_announcements env max_items m w)) /\
    ((0 <= max_items)%Z -> n <= Z.to_nat max_items).
Proof.
  unfold Simple.check_announcements.
  assert (H1 : Frame.Within 2 w (snd (Simple.fetch_rss_with_curl env w))).
  { unfold Simple.fetch_rss_with_curl.
    destruct (proc_status _);
      repeat match goal with |- context [if ?b then _ else _] => destruct b end; cbn [snd];
      try (eapply WithinFacts.within_weaken; [apply WithinFacts.within_emit | lia]).
    replace 2 with (1 + 1) by lia.
    eapply WithinFacts.within_trans; apply WithinFacts.within_emit. }
  destruct (Simple.fetch_rss_with_curl env w) as [[content|] w1]; cbn [snd] in H1.
  2:{ exists 0. split; [exact H1 | lia]. }
  destruct (Parser.parse_rss_manually env content) as [items report].
  set (w2 := match report with Some msg => W.print msg w1 | None => w1 end).
  assert (H2 : Frame.Within 2 w w2).
  { replace 2 with (2 + 0) by lia.
    eapply WithinFacts.within_trans; [exact H1 | apply WithinFacts.within_print_opt]. }
  destruct items as [|i is_].
  { exists 0. split; [exact H2 | lia]. }
  set (latest := py_take max_items (i :: is_)).
  exists (length latest). split; [|apply WithinFacts.py_take_length].
  set (l0 := {| Simple.lp_monitor := m; Simple.lp_new_count := 0; Simple.lp_world := w2 |}).
  pose proof (SimpleWithin.simple_loop_within env latest l0) as H3.
  pose proof (WithinFacts.within_trans _ _ _ _ _ H2 H3) as H23.
  destruct (0 <? _); cbn [snd]; [|exact H23].
  replace (2 + 1 * length latest) with (2 + 1 * length latest + 0) by lia.
  eapply WithinFacts.within_trans; [exact H23 | apply WithinFacts.within_set_cache].
Qed.

Lemma incremental_cycle_within (env : Env) (m : Incremental.Monitor) (w : World) :
  exists n,
    Frame.Within (1 + 5 * n) w (snd (Incremental.smart_incremental_check env m w)) /\
    ((0 <= Incremental.max_items_to_process m)%Z ->
     n <= Z.to_nat (Incremental.max_items_to_process m)).
Proof.
  destruct (IncrementalWithin.incremental_method1_within env m w) as (n & H & Hn).
  exists n. split; [|exact Hn]. unfold Incremental.smart_incremental_check.
  destruct (Incremental.method1_process_only_latest_items env m w) as [m1 w1].
  cbn [snd] in *. replace (1 + 5 * n) with (1 + 5 * n + 0) by lia.
  eapply WithinFacts.within_trans; [exact H | apply WithinFacts.within_set_cache].
Qed.

Lemma within_bound (n k b : nat) (w w' : World) :
  Frame.Within n w w' -> n <= b ->
  exists evs, trace w' = trace w ++ evs /\ length evs <= b.
Proof. intros [_ (evs & H1 & H2)] Hb. exists evs. split; [exact H1 | lia]. Qed.

End CycleWithin.

Module BooksFacts.

Lemma books_refl (cache : string) (w : World) : Frame.Books cache w w.
Proof. split; reflexivity. Qed.

Lemma books_trans (cache : string) (w w1 w2 : World) :
  Frame.Books cache w w1 -> Frame.Books cache w1 w2 -> Frame.Books cache w w2.
Proof.
  intros [A1 A2 A3 A4 A5] [B1 B2 B3 B4 B5]. split.
  - intros p Hp Hb. rewrite B1, A1 by assumption. reflexivity.
  - intros k Hk. rewrite B2, A2 by exact Hk. reflexivity.
  - etrans; eassumption.
  - etrans; eassumption.
  - etrans; eassumption.
Qed.

Lemma books_emit (cache : string) (e : Event) (w : World) : Frame.Books cache w (W.emit e w).
Proof. split; reflexivity. Qed.

Lemma books_print (cache : string) (m : Msg) (w : World) : Frame.Books cache w (W.print m w).
Proof. split; reflexivity. Qed.

Lemma books_print_opt (cache : string) (report : option Msg) (w : World) :
  Frame.Books cache w (match report with Some msg => W.print msg w | None => w end).
Proof. destruct report; [apply books_print | apply books_refl]. Qed.

Lemma books_set_cache (cache : string) (c : CacheFile) (w : World) :
  Frame.Books cache w (W.set_cache cache c w).
Proof.
  split; try reflexivity. intros k Hk. simpl. apply lookup_insert_ne. congruence.
Qed.

Lemma books_extend_queue (cache : string) (added : list RetryItem) (w : World) :
  Frame.Books cache w (W.set_retry (Incremental.load_retry_queue w ++ added) w).
Proof. split; try reflexivity. simpl. apply prefix_app_r. reflexivity. Qed.

Lemma books_of_effect (cache path : string) (n : nat) (w w' : World) :
  Frame.in_downloads path -> Frame.Effect path n w w' -> Frame.Books cache w w'.
Proof.
  intros Hin [H1 H2 H3 _ H6 H7]. split.
  - intros p Hp _. apply H1. intros ->. contradiction.
  - intros k _. rewrite H2. reflexivity.
  - exact H6.
  - exact H7.
  - unfold Incremental.load_retry_queue. rewrite H3. reflexivity.
Qed.

Lemma complete_process_books (cache : string) (env : Env) (m : Complete.Monitor)
    (item : gmap string string) (is_new : bool) (w : World) :
  Frame.Books cache w (Complete.process_announcement env m item is_new w) /\
  retry_file (Complete.process_announcement env m item is_new w) = retry_file w.
Proof.
  unfold Complete.process_announcement.
  repeat match goal with |- context [if ?b then _ else _] => destruct b end;
    try (split; [apply books_refl | reflexivity]).
  split.
  - eapply books_of_effect; [|apply DownloadFrame.complete_download_effect].
    apply PathFacts.join_in_downloads, PathFacts.complete_name_plain.
  - apply (Frame.eff_retry _ _ _ _ (DownloadFrame.complete_download_effect _ _ _ _)).
Qed.

Lemma simple_process_books (cache : string) (env : Env) (m : Simple.Monitor)
    (item : gmap string string) (is_new : bool) (w : World) :
  Frame.Books cache w (Simple.process_announcement env m item is_new w) /\
  retry_file (Simple.process_announcement env m item is_new w) = retry_file w /\
  failed_log (Simple.process_announcement env m item is_new w) = failed_log w.
Proof.
  unfold Simple.process_announcement.
  repeat match goal with |- context [if ?b then _ else _] => destruct b end;
    try (split; [apply books_refl | split; reflexivity]).
  split; [|split].
  - eapply books_of_effect; [|apply DownloadFrame.simple_download_effect].
    apply PathFacts.join_in_downloads, PathFacts.simple_name_plain.
  - apply (Frame.eff_retry _ _ _ _ (DownloadFrame.simple_download_effect _ _ _ _)).
  - apply DownloadFrame.simple_download_flog.
Qed.

Lemma incremental_print_books (cache : string) (env : Env) (entry : gmap string string)
    (is_new download_pdf : bool) (w : World) :
  Frame.Books cache w (Incremental.print_announcement env entry is_new download_pdf w) /\
  failed_log (Incremental.print_announcement env entry is_new download_pdf w)
  = failed_log w.
Proof.
  unfold Incremental.print_announcement.
  destruct (_ && _); [|split; [apply books_refl | reflexivity]]. cbv zeta.
  assert (H : Frame.Books cache w
            (snd (Incremental.download_pdf_with_smart_fallback env
                    (dict_get entry "link" "No Link") (Incremental.safe_filename_of entry) w))).
  { eapply books_of_effect; [|apply DownloadFrame.incremental_download_effect].
    apply PathFacts.join_in_downloads, PathFacts.incremental_name_plain. }
  pose proof (DownloadFrame.incremental_download_flog env (dict_get entry "link" "No Link")
                (Incremental.safe_filename_of entry) w) as Hf.
  destruct (Incremental.download_pdf_with_smart_fallback _ _ _ _) as [ok w1].
  cbn [snd] in H, Hf. destruct ok; [split; assumption|].
  split; [|exact Hf].
  eapply books_trans; [exact H | apply books_extend_queue].
Qed.

End BooksFacts.

(** A relation that holds of every step of a cycle holds of the cycle. *)
Module CycleRel.

Lemma complete_loop_rel (env : Env) (R : World -> World -> Prop) :
  (forall w, R w w) -> (forall a b c, R a b -> R b c -> R a c) ->
  (forall m item w, R w (Complete.process_announcement env m item true w)) ->
  forall items l,
    R (Complete.lp_world l) (Complete.lp_world (Complete.check_loop env l items)).
Proof.
  intros Hr Ht Hp. unfold Complete.check_loop.
  induction items as [|item rest IH]; intros l; [apply Hr|].
  cbn [fold_left]. eapply Ht; [|apply IH].
  unfold Complete.check_item. destruct (bool_decide _); [apply Hr | apply Hp].
Qed.

Lemma complete_cycle_rel (env : Env) (R : World -> World -> Prop) :
  (forall w, R w w) -> (forall a b c, R a b -> R b c -> R a c) ->
  (forall e w, R w (W.emit e w)) -> (forall msg w, R w (W.print msg w)) ->
  (forall c w, R w (W.set_cache Complete.cache_file c w)) ->
  (forall m item w, R w (Complete.process_announcement env m item true w)) ->
  forall m w, R w (snd (Complete.check_announcements env m w)).
Proof.
  intros Hr Ht He Hm Hc Hp m w.
  unfold Complete.check_announcements, Complete.fetch_rss_with_curl.
  set (w1 := W.emit (EvProcess Complete.fetch_cmd) w).
  assert (H1 : R w w1) by apply He.
  destruct (Complete.accept_fetch _) as [content|]; [|exact H1].
  destruct (Parser.parse_rss_manually env content) as [items report].
  set (w2 := match report with Some msg => W.print msg w1 | None => w1 end).
  assert (H2 : R w w2).
  { eapply Ht; [exact H1|]. subst w2. destruct report; [apply Hm | apply Hr]. }
  destruct items as [|i is_]; [exact H2|].
  match goal with
  | |- context [Complete.check_loop env ?l0 ?its] =>
      pose proof (complete_loop_rel env R Hr Ht Hp its l0) as H3
  end.
  cbn [Complete.lp_world] in H3.
  destruct (0 <? _); cbn [snd].
  - eapply Ht; [exact H2|]. eapply Ht; [exact H3|]. apply Hc.
  - eapply Ht; [exact H2 | exact H3].
Qed.

Lemma complete_run_rel (R : World -> World -> Prop) :
  (forall w, R w w) -> (forall a b c, R a b -> R b c -> R a c) ->
  (forall env m w, R w (snd (Complete.check_announcements env m w))) ->
  forall envs m w, R w (snd (Complete.run_cycles envs (m, w))).
Proof.
  intros Hr Ht Hc. induction envs as [|env rest IH]; intros m w; [apply Hr|].
  unfold Complete.run_cycles in *. cbn [fold_left fst snd].
  destruct (Complete.check_announcements env m w) as [m1 w1] eqn:E.
  eapply Ht; [|apply IH]. pose proof (Hc env m w) as H. rewrite E in H. exact H.
Qed.

Lemma simple_loop_rel (env : Env) (R : World -> World -> Prop) :
  (forall w, R w w) -> (forall a b c, R a b -> R b c -> R a c) ->
  (forall m item w, R w (Simple.process_announcement env m item true w)) ->
  forall items l,
    R (Simple.lp_world l) (Simple.lp_world (Simple.check_loop env l items)).
Proof.
  intros Hr Ht Hp. unfold Simple.check_loop.
  induction items as [|item rest IH]; intros l; [apply Hr|].
  cbn [fold_left]. eapply Ht; [|apply IH].
  unfold Simple.check_item. destruct (bool_decide _); [apply Hr | apply Hp].
Qed.

Lemma simple_cycle_rel (env : Env) (R : World -> World -> Prop) :
  (forall w, R w w) -> (forall a b c, R a b -> R b c -> R a c) ->
  (forall e w, R w (W.emit e w)) -> (forall msg w, R w (W.print msg w)) ->
  (forall c w, R w (W.set_cache Simple.cache_file c w)) ->
  (forall m item w, R w (Simple.process_announcement env m item true w)) ->
  forall max_items m w, R w (snd (Simple.check_announcements env max_items m w)).
Proof.
  intros Hr Ht He Hm Hc Hp max_items m w.
  unfold Simple.check_announcements.
  assert (H1 : R w (snd (Simple.fetch_rss_with_curl env w))).
  { unfold Simple.fetch_rss_with_curl.
    destruct (proc_status _);
      repeat match goal with |- context [if ?b then _ else _] => destruct b end; cbn [snd];
      try apply He.
    eapply Ht; apply He. }
  destruct (Simple.fetch_rss_with_curl env w) as [[content|] w1]; cbn [snd] in H1;
    [|exact H1].
  destruct (Parser.parse_rss_manually env content) as [items report].
  set (w2 := match report with Some msg => W.print msg w1 | None => w1 end).
  assert (H2 : R w w2).
  { eapply Ht; [exact H1|]. subst w2. destruct report; [apply Hm | apply Hr]. }
  destruct items as [|i is_]; [exact H2|].
  match goal with
  | |- context [Simple.check_loop env ?l0 ?its] =>
      pose proof (simple_loop_rel env R Hr Ht Hp its l0) as H3
  end.
  cbn [Simple.lp_world] in H3.
  destruct (0 <? _); cbn [snd].
  - eapply Ht; [exact H2|]. eapply Ht; [exact H3|]. apply Hc.
  - eapply Ht; [exact H2 | exact H3].
Qed.

Lemma incremental_entries_rel (env : Env) (R : World -> World -> Prop) :
  (forall w, R w w) -> (forall a b c, R a b -> R b c -> R a c) ->
  (forall entry dp w, R w (Incremental.print_announcement env entry true dp w)) ->
  forall entries l,
    R (Incremental.lp_world l)
      (Incremental.lp_world (fold_left (Incremental.check_entry env) entries l)).
Proof.
  intros Hr Ht Hp.
  induction entries as [|entry rest IH]; intros l; [apply Hr|].
  cbn [fold_left]. eapply Ht; [|apply IH].
  unfold Incremental.check_entry. destruct (bool_decide _); [apply Hr | apply Hp].
Qed.

Lemma incremental_cycle_rel (env : Env) (R : World -> World -> Prop) :
  (forall w, R w w) -> (forall a b c, R a b -> R b c -> R a c) ->
  (forall e w, R w (W.emit e w)) ->
  (forall c w, R w (W.set_cache Incremental.cache_file c w)) ->
  (forall entry dp w, R w (Incremental.print_announcement env entry true dp w)) ->
  forall m w, R w (snd (Incremental.smart_incremental_check env m w)).
Proof.
  intros Hr Ht He Hc Hp m w.
  unfold Incremental.smart_incremental_check.
  assert (H1 : R w (snd (Incremental.method1_process_only_latest_items env m w))).
  { unfold Incremental.method1_process_only_latest_items.
    destruct (feed_get env (W.tick w) rss_url) as [|[|e es]]; cbn [snd]; try apply He.
    eapply Ht; [apply He|].
    match goal with
    | |- context [fold_left (Incremental.check_entry env) ?its ?l0] =>
        apply (incremental_entries_rel env R Hr Ht Hp its l0)
    end. }
  destruct (Incremental.method1_process_only_latest_items env m w) as [m1 w1].
  cbn [snd] in *. eapply Ht; [exact H1|]. apply Hc.
Qed.

End CycleRel.

(** X10: the files that a cycle writes.  Whatever the feed holds, a cycle
    changes, of the files of the working directory, only files directly in
    the download directory (paths [nse_downloads/] followed by a name
    without path separator), the cache file of the monitor, the download
    log and the log of failures, to which it only appends, and, in
    [IncrementalNSEMonitor], the retry queue, which it only extends (for a
    queue that the program wrote).  [CompleteNSEMonitor] and
    [SimpleNSECurlMonitor] leave the retry queue as it is;
    [SimpleNSECurlMonitor] and [IncrementalNSEMonitor] do not write the log
    of failures.  With a non-negative bound [max_items] the cycle starts
    at most [1 + 3 * max_items] processes and transfers in
    [CompleteNSEMonitor] (the fetch and three methods for each record),
    [2 + max_items] in [SimpleNSECurlMonitor] and
    [1 + 5 * max_items_to_process] in [IncrementalNSEMonitor]. *)
Theorem cycle_writes_downloads_and_books (env : Env) (w : World) :
  (forall m : Complete.Monitor,
     let w' := snd (Complete.check_announcements env m w) in
     Frame.Books Complete.cache_file w w' /\
     retry_file w' = retry_file w /\
     ((0 <= Complete.max_items m)%Z ->
      exists evs, trace w' = trace w ++ evs /\
                  length evs <= 1 + 3 * Z.to_nat (Complete.max_items m))) /\
  (forall (max_items : Z) (m : Simple.Monitor),
     let w' := snd (Simple.check_announcements env max_items m w) in
     Frame.Books Simple.cache_file w w' /\
     retry_file w' = retry_file w /\ failed_log w' = failed_log w /\
     ((0 <= max_items)%Z ->
      exists evs, trace w' = trace w ++ evs /\ length evs <= 2 + Z.to_nat max_items)) /\
  (forall m : Incremental.Monitor,
     let w' := snd (Incremental.smart_incremental_check env m w) in
     Frame.Books Incremental.cache_file w w' /\
     failed_log w' = failed_log w /\
     ((0 <= Incremental.max_items_to_process m)%Z ->
      exists evs, trace w' = trace w ++ evs /\
                  length evs <= 1 + 5 * Z.to_nat (Incremental.max_items_to_process m))).
Proof.
  split; [|split].
  - intros m w'. subst w'. split; [|split].
    + apply (CycleRel.complete_cycle_rel env (Frame.Books Complete.cache_file)).
      * apply BooksFacts.books_refl.
      * apply BooksFacts.books_trans.
      * apply BooksFacts.books_emit.
      * apply BooksFacts.books_print.
      * apply BooksFacts.books_set_cache.
      * intros m0 item w0. apply BooksFacts.complete_process_books.
    + apply (CycleRel.complete_cycle_rel env (fun a b => retry_file b = retry_file a));
        try reflexivity; try congruence.
      intros m0 item w0. apply (BooksFacts.complete_process_books Complete.cache_file).
    + destruct (CycleWithin.complete_cycle_within env m w) as (n & H & Hn).
      intros Hm. specialize (Hn Hm). apply (CycleWithin.within_bound _ 0 _ _ _ H). lia.
  - intros max_items m w'. subst w'. split; [|split; [|split]].
    + apply (CycleRel.simple_cycle_rel env (Frame.Books Simple.cache_file)).
      * apply BooksFacts.books_refl.
      * apply BooksFacts.books_trans.
      * apply BooksFacts.books_emit.
      * apply BooksFacts.books_print.
      * apply BooksFacts.books_set_cache.
      * intros m0 item w0. apply BooksFacts.simple_process_books.
    + apply (CycleRel.simple_cycle_rel env (fun a b => retry_file b = retry_file a));
        try reflexivity; try congruence.
      intros m0 item w0. apply (BooksFacts.simple_process_books Simple.cache_file).
    + apply (CycleRel.simple_cycle_rel env (fun a b => failed_log b = failed_log a));
        try reflexivity; try congruence.
      intros m0 item w0. apply (BooksFacts.simple_process_books Simple.cache_file).
    + destruct (CycleWithin.simple_cycle_within env max_items m w) as (n & H & Hn).
      intros Hm. specialize (Hn Hm). apply (CycleWithin.within_bound _ 0 _ _ _ H). lia.
  - intros m w'. subst w'. split; [|split].
    + apply (CycleRel.incremental_cycle_rel env (Frame.Books Incremental.cache_file)).
      * apply BooksFacts.books_refl.
      * apply BooksFacts.books_trans.
      * apply BooksFacts.books_emit.
      * apply BooksFacts.books_set_cache.
      * intros entry dp w0. apply BooksFacts.incremental_print_books.
    + apply (CycleRel.incremental_cycle_rel env (fun a b => failed_log b = failed_log a));
        try reflexivity; try congruence.
      intros entry dp w0. apply (BooksFacts.incremental_print_books Incremental.cache_file).
    + destruct (CycleWithin.incremental_cycle_within env m w) as (n & H & Hn).
      intros Hm. specialize (Hn Hm). apply (CycleWithin.within_bound _ 0 _ _ _ H). lia.
Qed.

Lemma cycle_writes_downloads_and_books_witness :
  let w' := snd (Complete.check_announcements (Scenario.generous t1) Scenario.fresh_monitor
                   Scenario.empty_world) in
  exists evs, trace w' = trace Scenario.empty_world ++ evs /\
              length evs <= 1 + 3 * Z.to_nat (Complete.max_items Scenario.fresh_monitor).
Proof.
  apply (proj2 (proj2 (proj1 (cycle_writes_downloads_and_books (Scenario.generous t1)
                                Scenario.empty_world) Scenario.fresh_monitor))).
  simpl. lia.
Defined.

Module QuietCycle.

Lemma complete_cycle_fields (env : Env) (m : Complete.Monitor) (w : World) :
  Complete.max_items (fst (Complete.check_announcements env m w)) = Complete.max_items m /\
  Complete.download_pdfs (fst (Complete.check_announcements env m w))
  = Complete.download_pdfs m.
Proof.
  unfold Complete.check_announcements.
  destruct (Complete.fetch_rss_with_curl env w) as [[content|] w1]; [|split; reflexivity].
  destruct (Parser.parse_rss_manually env content) as [items report].
  destruct items as [|i is_]; [split; reflexivity|].
  match goal with
  | |- context [Complete.check_loop env ?l0 ?its] =>
      pose proof (CompleteMore.complete_loop_fields env its l0) as H;
      destruct (0 <? Complete.lp_new_count (Complete.check_loop env l0 its)); exact H
  end.
Qed.

(** Every record of the cycle has been seen: the cycle is the fetch and
    nothing else. *)
Lemma complete_quiet (env : Env) (m : Complete.Monitor) (w : World)
    (content : string) (items : list (gmap string string)) (report : option Msg) :
  fst (Complete.fetch_rss_with_curl env w) = Some content ->
  Parser.parse_rss_manually env content = (items, report) ->
  (forall item, In item (py_take (Complete.max_items m) items) ->
     Complete.item_id_of item ∈ Complete.seen_items m) ->
  Complete.check_announcements env m w
  = (m, match report with
        | Some msg => W.print msg (W.emit (EvProcess Complete.fetch_cmd) w)
        | None => W.emit (EvProcess Complete.fetch_cmd) w
        end).
Proof.
  intros Hf Hp Hseen. unfold Complete.check_announcements, Complete.fetch_rss_with_curl in *.
  cbn [fst] in Hf. rewrite Hf, Hp. destruct items as [|i is_]; [reflexivity|].
  match goal with
  | |- context [Complete.check_loop env ?l0 ?its] =>
      rewrite (CompleteLoop.complete_check_loop_all_seen env its l0 Hseen)
  end.
  reflexivity.
Qed.

End QuietCycle.



(** X12: the same feed twice.  When two cycles of [CompleteNSEMonitor]
    get the same records, the second one finds nothing new: the monitor,
    the files, the logs and the cache file stay as the first cycle left
    them, and the only activity is the fetch of the feed; no record is
    downloaded a second time. *)
Theorem second_cycle_is_quiet (env1 env2 : Env) (m : Complete.Monitor) (w : World)
    (content1 content2 : string) (items : list (gmap string string))
    (report1 report2 : option Msg) :
  fst (Complete.fetch_rss_with_curl env1 w) = Some content1 ->
  Parser.parse_rss_manually env1 content1 = (items, report1) ->
  let first := Complete.check_announcements env1 m w in
  fst (Complete.fetch_rss_with_curl env2 (snd first)) = Some content2 ->
  Parser.parse_rss_manually env2 content2 = (items, report2) ->
  let second := Complete.check_announcements env2 (fst first) (snd first) in
  fst second = fst first /\
  fs (snd second) = fs (snd first) /\
  download_log (snd second) = download_log (snd first) /\
  failed_log (snd second) = failed_log (snd first) /\
  cache_files (snd second) = cache_files (snd first) /\
  trace (snd second) = trace (snd first) ++ [EvProcess Complete.fetch_cmd].
Proof.
  intros Hf1 Hp1 first Hf2 Hp2 second. subst second.
  assert (Hseen : forall item,
            In item (py_take (Complete.max_items (fst first)) items) ->
            Complete.item_id_of item ∈ Complete.seen_items (fst first)).
  { intros item Hin. subst first.
    destruct (QuietCycle.complete_cycle_fields env1 m w) as [Hmax _].
    rewrite Hmax in Hin.
    apply (CompleteCycle.complete_check_marks env1 m w content1 items report1 item Hf1 Hp1 Hin). }
  rewrite (QuietCycle.complete_quiet env2 (fst first) (snd first) content2 items report2
             Hf2 Hp2 Hseen).
  destruct report2; simpl; auto 10.
Qed.

Lemma second_cycle_is_quiet_witness :
  let first := Complete.check_announcements (Scenario.generous t0) Scenario.fresh_monitor
                 Scenario.empty_world in
  let second := Complete.check_announcements (Scenario.generous t1) (fst first) (snd first) in
  fst second = fst first /\
  fs (snd second) = fs (snd first) /\
  download_log (snd second) = download_log (snd first) /\
  failed_log (snd second) = failed_log (snd first) /\
  cache_files (snd second) = cache_files (snd first) /\
  trace (snd second) = trace (snd first) ++ [EvProcess Complete.fetch_cmd].
Proof.
  apply (second_cycle_is_quiet (Scenario.generous t0) (Scenario.generous t1)
           Scenario.fresh_monitor Scenario.empty_world
           (Py.strip Scenario.feed_xml) (Py.strip Scenario.feed_xml)
           [Scenario.epl_item] None None).
  - vm_compute. reflexivity.
  - vm_compute. reflexivity.
  - vm_compute. reflexivity.
  - vm_compute. reflexivity.
Defined.

(** ** [NSEDownloader]: what the methods leave *)

Module DownloaderResult.

Lemma exists_write (path content : string) (w : World) :
  W.exists_ path (W.write path content w) = true.
Proof. apply WorldFacts.exists_true. simpl. rewrite lookup_insert_eq. eauto. Qed.

Lemma requests_result (env : Env) (url filename : string) (attempts : nat) (w : World) :
  match Downloader.requests_attempts env url filename attempts w with
  | (Returned true, w') => W.exists_ filename w' = true
  | (Returned false, _) => True
  | (Raised, _) => exists t partial, http_get env t url = LocalError partial
  end.
Proof.
  revert w. induction attempts as [|n IH]; intros w; cbn [Downloader.requests_attempts].
  - exact I.
  - destruct (http_get env (W.tick w) url) as [body|p|p|p] eqn:E.
    + apply exists_write.
    + apply IH.
    + apply IH.
    + eauto.
Qed.

Lemma tool_result (cmd : list string) (env : Env) (filename : string) (w : World) :
  match Downloader.method_tool cmd env filename w with
  | (Returned true, w') => W.exists_ filename w' = true
  | (Returned false, _) => True
  | (Raised, _) => False
  end.
Proof.
  unfold Downloader.method_tool.
  destruct (proc_status _); try exact I.
  destruct (_ =? _)%Z; cbn [andb]; [|exact I].
  destruct (W.exists_ filename _) eqn:E; [reflexivity | exact I].
Qed.

Lemma exists_combine (filename : string) (indices : list nat) (acc : string) (w : World) :
  W.exists_ filename (Downloader.combine_chunks filename indices acc w) = true.
Proof.
  revert acc w. induction indices as [|i rest IH]; intros acc w;
    cbn [Downloader.combine_chunks]; [apply exists_write | apply IH].
Qed.

Lemma threaded_result (env : Env) (url filename : string) (w : World) :
  match Downloader.method4_threaded_download env url filename w with
  | (Returned true, w') => W.exists_ filename w' = true
  | (Returned false, _) => True
  | (Raised, _) => False
  end.
Proof.
  unfold Downloader.method4_threaded_download.
  destruct (http_head env (W.tick w) url) as [| |n]; [exact I| |].
  - unfold Downloader.method1_requests_with_retry.
    match goal with
    | |- context [Downloader.requests_attempts env url filename 3 ?w0] =>
        pose proof (requests_result env url filename 3 w0) as H;
        destruct (Downloader.requests_attempts env url filename 3 w0) as [[[|]|] w']
    end; [exact H | exact I | exact I].
  - destruct (Downloader.download_chunks _ _ _ _ _ _) as [[|] w']; [|exact I].
    apply exists_combine.
Qed.

Lemma browser_result (env : Env) (url filename : string) (w : World) :
  match Downloader.method5_browser_automation env url filename w with
  | (Returned true, w') => W.exists_ filename w' = true
  | (Returned false, _) => True
  | (Raised, _) => False
  end.
Proof.
  unfold Downloader.method5_browser_automation.
  destruct (browser_get env (W.tick w) url) as [| |saved]; try exact I.
  destruct (W.exists_ filename _) eqn:E; [reflexivity | exact I].
Qed.

Lemma run_method_result (env : Env) (method url filename : string) (w : World) :
  match Downloader.run_method env method url filename w with
  | (Returned true, w') => W.exists_ filename w' = true
  | (Returned false, _) => True
  | (Raised, _) =>
      method = "requests" /\ exists t partial, http_get env t url = LocalError partial
  end.
Proof.
  unfold Downloader.run_method.
  destruct (String.eqb method "requests") eqn:E1.
  { apply String.eqb_eq in E1. unfold Downloader.method1_requests_with_retry.
    pose proof (requests_result env url filename 3 w) as H.
    destruct (Downloader.requests_attempts env url filename 3 w) as [[[|]|] w']; auto. }
  destruct (String.eqb method "curl").
  { pose proof (tool_result (Downloader.curl_cmd url filename) env filename w) as H.
    unfold Downloader.method2_curl_subprocess.
    destruct (Downloader.method_tool _ _ _ _) as [[[|]|] w']; [exact H|exact I|destruct H]. }
  destruct (String.eqb method "wget").
  { pose proof (tool_result (Downloader.wget_cmd url filename) env filename w) as H.
    unfold Downloader.method3_wget_subprocess.
    destruct (Downloader.method_tool _ _ _ _) as [[[|]|] w']; [exact H|exact I|destruct H]. }
  destruct (String.eqb method "threaded").
  { pose proof (threaded_result env url filename w) as H.
    destruct (Downloader.method4_threaded_download _ _ _ _) as [[[|]|] w'];
      [exact H|exact I|destruct H]. }
  destruct (String.eqb method "browser").
  { pose proof (browser_result env url filename w) as H.
    destruct (Downloader.method5_browser_automation _ _ _ _) as [[[|]|] w'];
      [exact H|exact I|destruct H]. }
  exact I.
Qed.

Lemma loop_result (env : Env) (url filename : string) (methods : list string) (w : World) :
  match Downloader.smart_download_loop env url filename methods w with
  | (Returned true, w') => W.exists_ filename w' = true
  | (Returned false, w') => methods <> [] -> W.exists_ filename w' = false
  | (Raised, _) =>
      In "requests" methods /\ exists t partial, http_get env t url = LocalError partial
  end.
Proof.
  pose proof (DownloaderFacts.failed_download_cleans env url filename methods w) as Hf.
  revert w Hf. induction methods as [|m rest IH]; intros w Hf.
  - cbn [Downloader.smart_download_loop]. intros H. congruence.
  - cbn [Downloader.smart_download_loop] in *.
    pose proof (run_method_result env m url filename (W.print (MsgTryingMethod m) w)) as H.
    destruct (Downloader.run_method env m url filename _) as [[[|]|] w1].
    + exact H.
    + specialize (IH (W.remove_if_exists filename w1)).
      destruct (Downloader.smart_download_loop env url filename rest _) as [[[|]|] w2].
      * apply IH. intros w' _ [=].
      * intros Hne. apply (Hf w2 Hne eq_refl).
      * destruct IH as [Hin Hex]; [intros w' _ [=]|]. split; [right; exact Hin | exact Hex].
    + destruct H as [-> Hex]. split; [left; reflexivity | exact Hex].
Qed.

End DownloaderResult.

(** X13: the result of [NSEDownloader.smart_download] against the target
    file.  When it returns [True] the target exists.  When it returns
    [False] after at least one method, the target does not exist: a file
    that was there before the call is gone too.  With an empty list of
    methods it returns [False] and touches nothing.  An exception escapes
    only from the method [requests], when a transfer failed with an
    exception that is no [RequestException]. *)
Theorem smart_download_result (env : Env) (url filename : string)
    (methods : option (list string)) (w : World) :
  let r := Downloader.smart_download env url filename methods w in
  (fst r = Returned true -> W.exists_ filename (snd r) = true) /\
  (fst r = Returned false -> Downloader.effective methods <> [] ->
   W.exists_ filename (snd r) = false) /\
  (Downloader.effective methods = [] -> r = (Returned false, w)) /\
  (fst r = Raised ->
   In "requests" (Downloader.effective methods) /\
   exists t partial, http_get env t url = LocalError partial).
Proof.
  cbv zeta. unfold Downloader.smart_download.
  pose proof (DownloaderResult.loop_result env url filename (Downloader.effective methods) w)
    as H.
  split; [|split; [|split]].
  - destruct (Downloader.smart_download_loop _ _ _ _ _) as [[[|]|] w']; cbn [fst snd];
      intros E; try discriminate E. exact H.
  - destruct (Downloader.smart_download_loop _ _ _ _ _) as [[[|]|] w']; cbn [fst snd];
      intros E; try discriminate E. exact H.
  - intros ->. reflexivity.
  - destruct (Downloader.smart_download_loop _ _ _ _ _) as [[[|]|] w']; cbn [fst snd];
      intros E; try discriminate E. exact H.
Qed.

Lemma smart_download_result_witness :
  let w := W.write "EPL.pdf" "%PDF-1.4 old" Scenario.empty_world in
  W.exists_ "EPL.pdf"
    (snd (Downloader.smart_download (Scenario.dead t1)
            "https://nsearchives.nseindia.com/corporate/EPL.pdf" "EPL.pdf" None w)) = false.
Proof.
  intros w.
  apply (proj1 (proj2 (smart_download_result (Scenario.dead t1)
                         "https://nsearchives.nseindia.com/corporate/EPL.pdf" "EPL.pdf"
                         None w))).
  - vm_compute. reflexivity.
  - discriminate.
Defined.

Module RetrySchedule.

Lemma trace_leave (path : string) (left : option string) (w : World) :
  trace (W.leave path left w) = trace w.
Proof. destruct left; reflexivity. Qed.

Lemma tick_leave (path : string) (left : option string) (w : World) :
  W.tick (W.leave path left w) = W.tick w.
Proof. unfold W.tick. rewrite trace_leave. reflexivity. Qed.

(** [k] attempts fail with an exception that is caught, then the loop ends:
    with a body, with an exception that is not caught, or because no
    attempt is left. *)
Lemma attempts_schedule (env : Env) (url filename : string) (attempts : nat) (w : World) :
  let r := Downloader.requests_attempts env url filename attempts w in
  exists k,
    (forall j, j < k ->
       exists partial,
         http_get env (W.tick w + j) url = HttpTimeout partial \/
         http_get env (W.tick w + j) url = HttpError partial) /\
    match fst r with
    | Returned true =>
        k < attempts /\ trace (snd r) = trace w ++ repeat (EvHttpGet url) (S k) /\
        exists body,
          http_get env (W.tick w + k) url = HttpBody body /\
          fs (snd r) !! filename = Some body
    | Returned false =>
        k = attempts /\ trace (snd r) = trace w ++ repeat (EvHttpGet url) attempts
    | Raised =>
        k < attempts /\ trace (snd r) = trace w ++ repeat (EvHttpGet url) (S k) /\
        exists partial, http_get env (W.tick w + k) url = LocalError partial
    end.
Proof.
  cbv zeta. revert w. induction attempts as [|n IH]; intros w.
  - exists 0. split; [intros j Hj; lia|]. simpl. rewrite app_nil_r. auto.
  - cbn [Downloader.requests_attempts].
    destruct (http_get env (W.tick w) url) as [body|p|p|p] eqn:E.
    + exists 0. split; [intros j Hj; lia|]. cbn [fst snd]. rewrite Nat.add_0_r.
      split; [lia|]. split; [reflexivity|]. exists body. split; [exact E|].
      simpl. apply lookup_insert_eq.
    + specialize (IH (W.leave filename p (W.emit (EvHttpGet url) w))).
      rewrite tick_leave, WorldFacts.tick_emit, trace_leave in IH.
      destruct IH as (k & Hk & Hr). exists (S k). split.
      * intros [|j] Hj; [rewrite Nat.add_0_r; eauto|].
        replace (W.tick w + S j) with (S (W.tick w) + j) by lia. apply Hk. lia.
      * replace (W.tick w + S k) with (S (W.tick w) + k) by lia.
        destruct (Downloader.requests_attempts _ _ _ _ _) as [[[|]|] w']; cbn [fst snd] in *.
        -- destruct Hr as (Hlt & Ht & Hb). split; [lia|]. split; [|exact Hb].
           rewrite Ht. simpl. rewrite <- app_assoc. reflexivity.
        -- destruct Hr as (-> & Ht). split; [reflexivity|].
           rewrite Ht. simpl. rewrite <- app_assoc. reflexivity.
        -- destruct Hr as (Hlt & Ht & Hb). split; [lia|]. split; [|exact Hb].
           rewrite Ht. simpl. rewrite <- app_assoc. reflexivity.
    + specialize (IH (W.leave filename p (W.emit (EvHttpGet url) w))).
      rewrite tick_leave, WorldFacts.tick_emit, trace_leave in IH.
      destruct IH as (k & Hk & Hr). exists (S k). split.
      * intros [|j] Hj; [rewrite Nat.add_0_r; eauto|].
        replace (W.tick w + S j) with (S (W.tick w) + j) by lia. apply Hk. lia.
      * replace (W.tick w + S k) with (S (W.tick w) + k) by lia.
        destruct (Downloader.requests_attempts _ _ _ _ _) as [[[|]|] w']; cbn [fst snd] in *.
        -- destruct Hr as (Hlt & Ht & Hb). split; [lia|]. split; [|exact Hb].
           rewrite Ht. simpl. rewrite <- app_assoc. reflexivity.
        -- destruct Hr as (-> & Ht). split; [reflexivity|].
           rewrite Ht. simpl. rewrite <- app_assoc. reflexivity.
        -- destruct Hr as (Hlt & Ht & Hb). split; [lia|]. split; [|exact Hb].
           rewrite Ht. simpl. rewrite <- app_assoc. reflexivity.
    + exists 0. split; [intros j Hj; lia|]. cbn [fst snd]. rewrite Nat.add_0_r.
      split; [lia|]. split; [rewrite trace_leave; reflexivity|]. eauto.
Qed.

End RetrySchedule.

(** X14: the attempts of [NSEDownloader.method1_requests_with_retry].
    The method sends between one and three requests for the URL and
    nothing else.  Some number [k] of attempts fail with a timeout or
    another [RequestException]; then it returns [True] when attempt [k] (at
    most the third) delivers, the target holding the body of that attempt;
    it returns [False] exactly when the three attempts have failed that
    way; and an exception that is no [RequestException] ends the method at
    once, without a further attempt. *)
Theorem requests_retry_schedule (env : Env) (url filename : string) (w : World) :
  let r := Downloader.method1_requests_with_retry env url filename w in
  exists k,
    (forall j, j < k ->
       exists partial,
         http_get env (W.tick w + j) url = HttpTimeout partial \/
         http_get env (W.tick w + j) url = HttpError partial) /\
    match fst r with
    | Returned true =>
        k < 3 /\ trace (snd r) = trace w ++ repeat (EvHttpGet url) (S k) /\
        exists body,
          http_get env (W.tick w + k) url = HttpBody body /\
          fs (snd r) !! filename = Some body
    | Returned false =>
        k = 3 /\ trace (snd r) = trace w ++ repeat (EvHttpGet url) 3
    | Raised =>
        k < 3 /\ trace (snd r) = trace w ++ repeat (EvHttpGet url) (S k) /\
        exists partial, http_get env (W.tick w + k) url = LocalError partial
    end.
Proof. apply RetrySchedule.attempts_schedule. Qed.

(** X15: the byte ranges of [method4_threaded_download].  The four ranges
    follow one another without gap or overlap from byte 0 to the last byte
    of the file, and the first three have the length
    [file_size // num_threads].  For a file of fewer than four bytes that
    length is 0: the first three workers ask for the range from 0 to -1,
    and the last one for the whole file. *)
Theorem chunk_ranges_partition (file_size : nat) :
  fst (Downloader.chunk_range file_size 0) = 0%Z /\
  (forall i, i < 3 ->
     fst (Downloader.chunk_range file_size (S i))
     = (snd (Downloader.chunk_range file_size i) + 1)%Z /\
     (snd (Downloader.chunk_range file_size i) - fst (Downloader.chunk_range file_size i) + 1
      = Z.of_nat file_size / 4)%Z) /\
  snd (Downloader.chunk_range file_size 3) = (Z.of_nat file_size - 1)%Z /\
  (fst (Downloader.chunk_range file_size 3) <= Z.of_nat file_size)%Z /\
  (file_size < 4 ->
   (forall i, i < 3 -> Downloader.chunk_range file_size i = (0, -1)%Z) /\
   Downloader.chunk_range file_size 3 = (0, Z.of_nat file_size - 1)%Z).
Proof.
  unfold Downloader.chunk_range, Downloader.num_threads.
  change (Z.of_nat 4) with 4%Z.
  pose proof (Z.mul_div_le (Z.of_nat file_size) 4 ltac:(lia)) as Hq.
  split; [|split; [|split; [|split]]].
  - cbn [fst]. lia.
  - intros i Hi. cbn [fst snd].
    replace (S i <? 4 - 1) with (S i <? 3) by reflexivity.
    replace (i <? 4 - 1) with true by (symmetry; apply Nat.ltb_lt; lia).
    split; lia.
  - reflexivity.
  - cbn [fst]. change (Z.of_nat 3) with 3%Z. lia.
  - intros Hsmall.
    assert (Hz : (Z.of_nat file_size / 4 = 0)%Z) by (apply Z.div_small; lia).
    rewrite Hz. split.
    + intros i Hi.
      replace (i <? 4 - 1) with true by (symmetry; apply Nat.ltb_lt; lia).
      f_equal; lia.
    + cbn. f_equal.
Qed.

Lemma chunk_ranges_partition_witness :
  (forall i, i < 3 -> Downloader.chunk_range 3 i = (0, -1)%Z) /\
  Downloader.chunk_range 3 3 = (0, Z.of_nat 3 - 1)%Z.
Proof.
  apply (proj2 (proj2 (proj2 (proj2 (chunk_ranges_partition 3))))). lia.
Defined.

(** ** The threaded download *)

Module Threaded.

Lemma app_inv_head (s a b : string) : s +:+ a = s +:+ b -> a = b.
Proof.
  induction s as [|c s IH]; [exact (fun H => H)|].
  rewrite !PyFacts.app_cons. intros [=]. auto.
Qed.

Lemma chunk_filename_inj (filename : string) (i j : nat) :
  i < 4 -> j < 4 ->
  Downloader.chunk_filename filename i = Downloader.chunk_filename filename j -> i = j.
Proof.
  intros Hi Hj H. unfold Downloader.chunk_filename in H. apply app_inv_head in H.
  destruct i as [|[|[|[|i]]]]; try lia; destruct j as [|[|[|[|j]]]]; try lia;
    try reflexivity; vm_compute in H; discriminate H.
Qed.

Lemma chunk_filename_ne (filename : string) (i : nat) :
  Downloader.chunk_filename filename i <> filename.
Proof.
  intros H. apply (f_equal Py.len) in H. unfold Downloader.chunk_filename in H.
  rewrite !PyFacts.len_app in H. change (Py.len ".part") with 5 in H. lia.
Qed.

Lemma chunks_cons (env : Env) (url filename : string) (n i : nat) (rest : list nat)
    (w : World) :
  Downloader.download_chunks env url filename n (i :: rest) w
  = let first := fst (Downloader.chunk_range n i) in
    let last := snd (Downloader.chunk_range n i) in
    let r := http_range env (W.tick w) url first last in
    let w1 := W.leave (Downloader.chunk_filename filename i) r
                (W.emit (EvHttpRange url first last) w) in
    (match r with
     | Some _ => fst (Downloader.download_chunks env url filename n rest w1)
     | None => false
     end,
     snd (Downloader.download_chunks env url filename n rest w1)).
Proof.
  cbn [Downloader.download_chunks].
  destruct (Downloader.chunk_range n i) as [start stop]. cbn [fst snd]. cbv zeta.
  destruct (Downloader.download_chunks _ _ _ _ _ _) as [ok w']. reflexivity.
Qed.

Lemma chunks_trace (env : Env) (url filename : string) (n : nat) (indices : list nat)
    (w : World) :
  trace (snd (Downloader.download_chunks env url filename n indices w))
  = trace w ++ map (fun i => EvHttpRange url (fst (Downloader.chunk_range n i))
                                (snd (Downloader.chunk_range n i))) indices.
Proof.
  revert w. induction indices as [|i rest IH]; intros w.
  - simpl. rewrite app_nil_r. reflexivity.
  - rewrite chunks_cons. cbv zeta. cbn [snd map].
    rewrite IH, RetrySchedule.trace_leave. simpl. rewrite <- app_assoc. reflexivity.
Qed.

Lemma fs_leave_other (path p : string) (left : option string) (w : World) :
  p <> path -> fs (W.leave path left w) !! p = fs w !! p.
Proof. intros Hp. destruct left; [|reflexivity]. simpl. apply lookup_insert_ne. congruence. Qed.

Lemma chunks_other (env : Env) (url filename : string) (n : nat) (indices : list nat)
    (w : World) (p : string) :
  (forall i, In i indices -> p <> Downloader.chunk_filename filename i) ->
  fs (snd (Downloader.download_chunks env url filename n indices w)) !! p = fs w !! p.
Proof.
  revert w. induction indices as [|i rest IH]; intros w Hp; [reflexivity|].
  rewrite chunks_cons. cbv zeta. cbn [snd].
  rewrite IH by (intros j Hj; apply Hp; right; exact Hj).
  rewrite fs_leave_other by (apply Hp; left; reflexivity). reflexivity.
Qed.

(** The part file of worker [i], the [k]-th of the list: what the worker
    received, or what was there when its request failed. *)
Lemma chunks_part (env : Env) (url filename : string) (n : nat) (indices : list nat) :
  NoDup indices -> (forall i, In i indices -> i < 4) ->
  forall (w : World) (k i : nat),
    indices !! k = Some i ->
    fs (snd (Downloader.download_chunks env url filename n indices w))
      !! Downloader.chunk_filename filename i
    = match http_range env (W.tick w + k) url (fst (Downloader.chunk_range n i))
              (snd (Downloader.chunk_range n i)) with
      | Some c => Some c
      | None => fs w !! Downloader.chunk_filename filename i
      end.
Proof.
  induction indices as [|i0 rest IH]; intros Hnd Hlt w k i Hk; [discriminate|].
  apply NoDup_cons in Hnd as [Hnotin Hnd].
  assert (Hlt' : forall j, In j rest -> j < 4) by (intros j Hj; apply Hlt; right; exact Hj).
  rewrite chunks_cons. cbv zeta. cbn [snd]. destruct k as [|k].
  - injection Hk as ->. rewrite Nat.add_0_r.
    rewrite chunks_other.
    + destruct (http_range _ _ _ _ _) as [c|]; simpl; [apply lookup_insert_eq | reflexivity].
    + intros j Hj Heq. apply chunk_filename_inj in Heq; [|apply Hlt; left; reflexivity|auto].
      subst j. apply Hnotin. apply list_elem_of_In. exact Hj.
  - cbn in Hk. rewrite (IH Hnd Hlt' _ k i Hk).
    rewrite RetrySchedule.tick_leave, WorldFacts.tick_emit.
    replace (S (W.tick w) + k) with (W.tick w + S k) by lia.
    assert (Hne : Downloader.chunk_filename filename i <> Downloader.chunk_filename filename i0).
    { intros Heq. apply chunk_filename_inj in Heq.
      - subst i0. apply Hnotin. apply list_elem_of_lookup. eauto.
      - apply Hlt'. apply list_elem_of_In, list_elem_of_lookup. eauto.
      - apply Hlt. left. reflexivity. }
    rewrite fs_leave_other by exact Hne. reflexivity.
Qed.

(** Every worker completed, or one request failed. *)
Lemma chunks_ok (env : Env) (url filename : string) (n : nat) (indices : list nat)
    (w : World) :
  fst (Downloader.download_chunks env url filename n indices w) = true <->
  (forall k i, indices !! k = Some i ->
     is_Some (http_range env (W.tick w + k) url (fst (Downloader.chunk_range n i))
                (snd (Downloader.chunk_range n i)))).
Proof.
  revert w. induction indices as [|i0 rest IH]; intros w.
  - split; [intros _ k i [=] | reflexivity].
  - rewrite chunks_cons. cbv zeta. cbn [fst]. split.
    + intros H [|k] i Hk.
      * injection Hk as ->. rewrite Nat.add_0_r.
        destruct (http_range _ _ _ _ _); [eauto | discriminate H].
      * destruct (http_range env (W.tick w) url _ _) as [c|]; [|discriminate H].
        apply IH with (k := k) (i := i) in H; [|exact Hk].
        rewrite RetrySchedule.tick_leave, WorldFacts.tick_emit in H.
        replace (W.tick w + S k) with (S (W.tick w) + k) by lia. exact H.
    + intros H. pose proof (H 0 i0 eq_refl) as H0. rewrite Nat.add_0_r in H0.
      destruct (http_range env (W.tick w) url _ _) as [c|]; [|destruct H0 as [? [=]]].
      apply IH. intros k i Hk. rewrite RetrySchedule.tick_leave, WorldFacts.tick_emit.
      replace (S (W.tick w) + k) with (W.tick w + S k) by lia. apply H. exact Hk.
Qed.

Lemma trace_combine (filename : string) (indices : list nat) (acc : string) (w : World) :
  trace (Downloader.combine_chunks filename indices acc w) = trace w.
Proof.
  revert acc w. induction indices as [|i rest IH]; intros acc w; [reflexivity|].
  cbn [Downloader.combine_chunks]. rewrite IH. reflexivity.
Qed.

Lemma combine_other (filename : string) (indices : list nat) (acc : string) (w : World)
    (p : string) :
  p <> filename ->
  (forall i, In i indices -> p <> Downloader.chunk_filename filename i) ->
  fs (Downloader.combine_chunks filename indices acc w) !! p = fs w !! p.
Proof.
  intros Hp. revert acc w. induction indices as [|i rest IH]; intros acc w Hi.
  - simpl. apply lookup_insert_ne. congruence.
  - cbn [Downloader.combine_chunks].
    rewrite IH by (intros j Hj; apply Hi; right; exact Hj).
    simpl. apply lookup_delete_ne. intros Heq. apply (Hi i); [left; reflexivity|].
    symmetry. exact Heq.
Qed.

Lemma combine_none (filename : string) (indices : list nat) (acc : string) (w : World)
    (p : string) :
  p <> filename -> fs w !! p = None ->
  fs (Downloader.combine_chunks filename indices acc w) !! p = None.
Proof.
  intros Hp. revert acc w. induction indices as [|i rest IH]; intros acc w Hn.
  - simpl. rewrite lookup_insert_ne by congruence. exact Hn.
  - cbn [Downloader.combine_chunks]. apply IH. simpl.
    apply lookup_delete_None. right. exact Hn.
Qed.

Lemma combine_parts_gone (filename : string) (indices : list nat) (acc : string)
    (w : World) (i : nat) :
  In i indices ->
  fs (Downloader.combine_chunks filename indices acc w)
    !! Downloader.chunk_filename filename i = None.
Proof.
  revert acc w. induction indices as [|i0 rest IH]; intros acc w Hin; [destruct Hin|].
  cbn [Downloader.combine_chunks].
  destruct (Nat.eq_dec i0 i) as [->|Hne].
  - apply combine_none; [apply chunk_filename_ne|]. simpl. apply lookup_delete_eq.
  - destruct Hin as [Heq|Hin]; [contradiction|]. apply IH. exact Hin.
Qed.

Lemma parts_remove (filename : string) (i0 : nat) (rest : list nat) (w : World) :
  i0 ∉ rest -> i0 < 4 -> (forall j, In j rest -> j < 4) ->
  fold_right
    (fun i s =>
       match fs (W.remove (Downloader.chunk_filename filename i0) w)
               !! Downloader.chunk_filename filename i with
       | Some c => c
       | None => ""
       end +:+ s) "" rest
  = fold_right
      (fun i s =>
         match fs w !! Downloader.chunk_filename filename i with
         | Some c => c
         | None => ""
         end +:+ s) "" rest.
Proof.
  intros Hnotin H0. induction rest as [|j rest IH]; intros Hlt; [reflexivity|].
  apply not_elem_of_cons in Hnotin as [Hne Hnotin].
  cbn [fold_right]. rewrite IH; [|exact Hnotin|intros k Hk; apply Hlt; right; exact Hk].
  simpl. rewrite lookup_delete_ne; [reflexivity|].
  intros Heq. apply chunk_filename_inj in Heq; [congruence|exact H0|].
  apply Hlt. left. reflexivity.
Qed.

(** The target after the parts have been joined: the parts in the order of
    the list. *)
Lemma combine_target (filename : string) (indices : list nat) :
  NoDup indices -> (forall i, In i indices -> i < 4) ->
  forall (acc : string) (w : World),
    fs (Downloader.combine_chunks filename indices acc w) !! filename
    = Some (acc +:+
            fold_right
              (fun i s =>
                 match fs w !! Downloader.chunk_filename filename i with
                 | Some c => c
                 | None => ""
                 end +:+ s) "" indices).
Proof.
  induction indices as [|i0 rest IH]; intros Hnd Hlt acc w.
  - simpl. rewrite PyFacts.app_nil_r. apply lookup_insert_eq.
  - apply NoDup_cons in Hnd as [Hnotin Hnd].
    cbn [Downloader.combine_chunks fold_right].
    rewrite IH; [|exact Hnd|intros j Hj; apply Hlt; right; exact Hj].
    rewrite PyFacts.app_assoc, parts_remove;
      [reflexivity|exact Hnotin|apply Hlt; left; reflexivity|].
    intros j Hj. apply Hlt. right. exact Hj.
Qed.

End Threaded.

(** X16: the parts of [method4_threaded_download], when the server reports
    the length of the document.  The method sends one [HEAD] request and
    four range requests, whatever their outcome, and touches no file but
    the target and the four part files.  When the four workers complete it
    returns [True], the target holds the four parts in the order of the
    ranges and the part files are removed.  When a worker fails it returns
    [False], the target is as it was, and the part files of the workers
    that completed stay on disk. *)
Theorem threaded_download_parts (env : Env) (url filename : string) (w : World)
    (file_size : nat) :
  http_head env (W.tick w) url = HeadLength file_size ->
  let first i := fst (Downloader.chunk_range file_size i) in
  let last i := snd (Downloader.chunk_range file_size i) in
  let part i := http_range env (W.tick w + 1 + i) url (first i) (last i) in
  let r := Downloader.method4_threaded_download env url filename w in
  trace (snd r)
  = trace w ++ EvHttpHead url :: map (fun i => EvHttpRange url (first i) (last i)) [0; 1; 2; 3] /\
  (forall p, p <> filename ->
     (forall i, i < 4 -> p <> Downloader.chunk_filename filename i) ->
     fs (snd r) !! p = fs w !! p) /\
  (forall c0 c1 c2 c3,
     part 0 = Some c0 -> part 1 = Some c1 -> part 2 = Some c2 -> part 3 = Some c3 ->
     fst r = Returned true /\
     fs (snd r) !! filename = Some (c0 +:+ c1 +:+ c2 +:+ c3) /\
     forall i, i < 4 -> fs (snd r) !! Downloader.chunk_filename filename i = None) /\
  (forall i, i < 4 -> part i = None ->
     fst r = Returned false /\
     fs (snd r) !! filename = fs w !! filename /\
     forall j c, j < 4 -> part j = Some c ->
       fs (snd r) !! Downloader.chunk_filename filename j = Some c).
Proof.
  intros Hh. cbv zeta. unfold Downloader.method4_threaded_download. rewrite Hh.
  change (seq 0 Downloader.num_threads) with [0; 1; 2; 3].
  set (w1 := W.emit (EvHttpHead url) w).
  assert (Ht1 : W.tick w1 = W.tick w + 1) by (unfold w1; rewrite WorldFacts.tick_emit; lia).
  assert (Hnd : NoDup [0; 1; 2; 3]) by apply (NoDup_seq 0 4).
  assert (Hlt : forall i, In i [0; 1; 2; 3] -> i < 4) by (simpl; intros i Hi; lia).
  assert (Hin : forall i, i < 4 -> In i [0; 1; 2; 3]) by (simpl; intros i Hi; lia).
  assert (Hix : forall i, i < 4 -> [0; 1; 2; 3] !! i = Some i).
  { intros i Hi. apply (lookup_seq_lt 0 4 i Hi). }
  pose proof (Threaded.chunks_trace env url filename file_size [0; 1; 2; 3] w1) as Htr.
  pose proof (Threaded.chunks_other env url filename file_size [0; 1; 2; 3] w1) as Hoth.
  pose proof (Threaded.chunks_part env url filename file_size [0; 1; 2; 3] Hnd Hlt w1) as Hpart.
  pose proof (Threaded.chunks_ok env url filename file_size [0; 1; 2; 3] w1) as Hok.
  rewrite Ht1 in Hok.
  assert (Hpart' : forall i, i < 4 ->
            fs (snd (Downloader.download_chunks env url filename file_size [0; 1; 2; 3] w1))
              !! Downloader.chunk_filename filename i
            = match http_range env (W.tick w + 1 + i) url
                      (fst (Downloader.chunk_range file_size i))
                      (snd (Downloader.chunk_range file_size i)) with
              | Some c => Some c
              | None => fs w !! Downloader.chunk_filename filename i
              end).
  { intros i Hi. rewrite (Hpart i i (Hix i Hi)), Ht1. reflexivity. }
  clear Hpart.
  destruct (Downloader.download_chunks env url filename file_size [0; 1; 2; 3] w1)
    as [ok w5]. cbn [fst snd] in *.
  split; [|split; [|split]].
  - destruct ok; cbn [snd]; rewrite ?Threaded.trace_combine, Htr; unfold w1; simpl;
      rewrite <- app_assoc; reflexivity.
  - intros p Hp Hpi.
    assert (Hpi' : forall i, In i [0; 1; 2; 3] -> p <> Downloader.chunk_filename filename i)
      by (intros i Hi; apply Hpi, Hlt, Hi).
    destruct ok; cbn [snd]; rewrite ?Threaded.combine_other by assumption;
      rewrite Hoth by exact Hpi'; reflexivity.
  - intros c0 c1 c2 c3 H0 H1 H2 H3.
    assert (Hall : ok = true).
    { apply Hok. intros k i Hk. apply (lookup_seq 0 4) in Hk as [-> Hk]. cbn [Nat.add].
      destruct k as [|[|[|[|k]]]]; try lia; [rewrite H0|rewrite H1|rewrite H2|rewrite H3];
        eauto. }
    subst ok. cbn [fst snd]. split; [reflexivity|]. split.
    + rewrite Threaded.combine_target by assumption. cbn [fold_right].
      rewrite !Hpart' by lia. rewrite H0, H1, H2, H3.
      rewrite PyFacts.app_nil_l, PyFacts.app_nil_r. reflexivity.
    + intros i Hi. apply Threaded.combine_parts_gone, Hin, Hi.
  - intros i Hi Hnone.
    assert (Hfail : ok = false).
    { destruct ok; [|reflexivity]. destruct (proj1 Hok eq_refl i i (Hix i Hi)) as [c Hc].
      congruence. }
    subst ok. cbn [fst snd]. split; [reflexivity|]. split.
    + rewrite Hoth; [reflexivity|]. intros j _ Heq.
      apply (Threaded.chunk_filename_ne filename j). symmetry. exact Heq.
    + intros j c Hj Hc. rewrite (Hpart' j Hj), Hc. reflexivity.
Qed.

Lemma threaded_download_parts_witness :
  let r := Downloader.method4_threaded_download (Scenario.ranged t1)
             "https://nsearchives.nseindia.com/corporate/EPL.pdf" "EPL.pdf"
             Scenario.empty_world in
  fst r = Returned true /\
  fs (snd r) !! "EPL.pdf" = Some ("%PD" +:+ "F-1" +:+ ".4 " +:+ "body") /\
  forall i, i < 4 -> fs (snd r) !! Downloader.chunk_filename "EPL.pdf" i = None.
Proof.
  apply (proj1 (proj2 (proj2 (threaded_download_parts (Scenario.ranged t1)
                                "https://nsearchives.nseindia.com/corporate/EPL.pdf"
                                "EPL.pdf" Scenario.empty_world 13 eq_refl)))).
  - vm_compute. reflexivity.
  - vm_compute. reflexivity.
  - vm_compute. reflexivity.
  - vm_compute. reflexivity.
Defined.

(** ** The retry queue of [IncrementalNSEMonitor] *)

Module RetryQueue.

Lemma queue_set_retry (q : list RetryItem) (w : World) :
  Incremental.load_retry_queue (W.set_retry q w) = q.
Proof. reflexivity. Qed.

Lemma download_keeps_queue (env : Env) (pdf_url filename : string) (w : World) :
  retry_file (snd (Incremental.download_pdf_with_smart_fallback env pdf_url filename w))
  = retry_file w.
Proof. apply (Frame.eff_retry _ _ _ _ (DownloadFrame.incremental_download_effect _ _ _ _)). Qed.

(** One record: nothing is added, or the entry that describes it. *)
Lemma print_queue (env : Env) (entry : gmap string string) (is_new download_pdf : bool)
    (w : World) :
  exists added,
    Incremental.load_retry_queue
      (Incremental.print_announcement env entry is_new download_pdf w)
    = Incremental.load_retry_queue w ++ added /\
    length added <= 1 /\ Forall (Queue.describes entry) added.
Proof.
  unfold Incremental.print_announcement.
  destruct (_ && _).
  - cbv zeta.
    pose proof (download_keeps_queue env (dict_get entry "link" "No Link")
                  (Incremental.safe_filename_of entry) w) as Hq.
    destruct (Incremental.download_pdf_with_smart_fallback _ _ _ _) as [ok w1].
    cbn [snd] in Hq. destruct ok.
    + exists []. unfold Incremental.load_retry_queue. rewrite Hq, app_nil_r.
      split; [reflexivity|]. split; [simpl; lia | constructor].
    + eexists [_]. rewrite queue_set_retry. unfold Incremental.load_retry_queue.
      rewrite Hq. split; [reflexivity|]. split; [simpl; lia|].
      constructor; [|constructor]. repeat split.
  - exists []. rewrite app_nil_r. split; [reflexivity|]. split; [simpl; lia | constructor].
Qed.

Lemma entries_queue (env : Env) (entries : list (gmap string string)) (l : Incremental.Loop) :
  exists added,
    Incremental.load_retry_queue
      (Incremental.lp_world (fold_left (Incremental.check_entry env) entries l))
    = Incremental.load_retry_queue (Incremental.lp_world l) ++ added /\
    length added <= length entries /\
    Forall (fun item =>
              exists entry,
                In entry entries /\
                (Incremental.generate_item_id entry
                 ∉ Incremental.seen_items (Incremental.lp_monitor l)) /\
                Queue.describes entry item) added.
Proof.
  revert l. induction entries as [|entry rest IH]; intros l.
  - exists []. rewrite app_nil_r. split; [reflexivity|]. split; [simpl; lia | constructor].
  - cbn [fold_left].
    destruct (decide (Incremental.generate_item_id entry
                      ∈ Incremental.seen_items (Incremental.lp_monitor l))) as [Hs|Hs].
    + rewrite IncrementalLoop.incremental_check_entry_seen by exact Hs.
      destruct (IH l) as (a2 & E2 & L2 & F2).
      exists a2. split; [exact E2|]. split; [simpl; lia|].
      eapply Forall_impl; [exact F2|]. intros item (e & He & Hnew & Hd).
      exists e. split; [right; exact He|]. auto.
    + rewrite IncrementalLoop.incremental_check_entry_new by exact Hs. cbv zeta.
      match goal with
      | |- context [fold_left (Incremental.check_entry env) rest ?l0] =>
          destruct (IH l0) as (a2 & E2 & L2 & F2)
      end.
      cbn [Incremental.lp_world Incremental.lp_monitor] in E2, F2.
      match type of E2 with
      | context [Incremental.print_announcement env entry true ?dp ?w0] =>
          destruct (print_queue env entry true dp w0) as (a1 & E1 & L1 & F1)
      end.
      exists (a1 ++ a2). rewrite E2, E1, <- app_assoc. split; [reflexivity|].
      split; [rewrite length_app; simpl; lia|].
      apply Forall_app. split.
      * eapply Forall_impl; [exact F1|]. intros item Hd.
        exists entry. split; [left; reflexivity|]. split; [exact Hs | exact Hd].
      * eapply Forall_impl; [exact F2|]. intros item (e & He & Hnew & Hd).
        exists e. split; [right; exact He|]. split; [|exact Hd].
        intros Hseen. apply Hnew. simpl. apply elem_of_union_r. exact Hseen.
Qed.

End RetryQueue.

(** X17: the retry queue of [IncrementalNSEMonitor].  A cycle only appends
    to the queue, and every entry it appends describes a record among the
    first [max_items_to_process] of the feed that was new in this cycle:
    its link, the file name built for it, its title and its date.  A
    record whose link does not end in [.pdf] is put on the queue without
    any transfer; a record whose download succeeds leaves the queue as it
    is. *)
Theorem failed_downloads_are_queued (env : Env) (m : Incremental.Monitor) (w : World) :
  (let w' := snd (Incremental.smart_incremental_check env m w) in
   exists added,
     Incremental.load_retry_queue w' = Incremental.load_retry_queue w ++ added /\
     Forall (fun item =>
               exists entries entry,
                 feed_get env (W.tick w) rss_url = FeedEntries entries /\
                 In entry (py_take (Incremental.max_items_to_process m) entries) /\
                 (Incremental.generate_item_id entry ∉ Incremental.seen_items m) /\
                 Queue.describes entry item) added) /\
  (forall entry,
     let link := dict_get entry "link" "No Link" in
     link <> "No Link" -> Py.endswith link ".pdf" = false ->
     Incremental.print_announcement env entry true true w
     = W.set_retry
         (Incremental.load_retry_queue w
          ++ [{| ri_url := link; ri_filename := Incremental.safe_filename_of entry;
                 ri_company := dict_get entry "title" "";
                 ri_date := dict_get entry "published" "";
                 ri_timestamp := now env (W.tick w) |}]) w) /\
  (forall entry,
     fst (Incremental.download_pdf_with_smart_fallback env (dict_get entry "link" "No Link")
            (Incremental.safe_filename_of entry) w) = true ->
     retry_file (Incremental.print_announcement env entry true true w) = retry_file w).
Proof.
  split; [|split].
  - cbv zeta. unfold Incremental.smart_incremental_check,
      Incremental.method1_process_only_latest_items.
    destruct (feed_get env (W.tick w) rss_url) as [|entries] eqn:Hf.
    { exists []. rewrite app_nil_r. split; [reflexivity | constructor]. }
    destruct entries as [|e es].
    { exists []. rewrite app_nil_r. split; [reflexivity | constructor]. }
    cbn [snd].
    destruct (RetryQueue.entries_queue env
                (py_take (Incremental.max_items_to_process m) (e :: es))
                {| Incremental.lp_monitor := m; Incremental.lp_new_count := 0;
                   Incremental.lp_world := W.emit (EvFeedGet rss_url) w |})
      as (added & E & _ & F).
    exists added. split.
    + unfold Incremental.save_cache, Incremental.load_retry_queue in *. simpl in *. exact E.
    + eapply Forall_impl; [exact F|]. intros item (entry & Hin & Hnew & Hd).
      exists (e :: es), entry. auto.
  - intros entry link Hne Hpdf. subst link. unfold Incremental.print_announcement.
    cbn [andb]. apply String.eqb_neq in Hne. rewrite Hne. cbn [negb]. cbv zeta.
    unfold Incremental.download_pdf_with_smart_fallback. rewrite Hpdf. cbn [negb].
    rewrite orb_true_r. reflexivity.
  - intros entry Hok. unfold Incremental.print_announcement. cbn [andb].
    destruct (negb _); [|reflexivity]. cbv zeta.
    pose proof (RetryQueue.download_keeps_queue env (dict_get entry "link" "No Link")
                  (Incremental.safe_filename_of entry) w) as Hq.
    destruct (Incremental.download_pdf_with_smart_fallback _ _ _ _) as [ok w1].
    cbn [fst snd] in *. subst ok. exact Hq.
Qed.

Lemma failed_downloads_are_queued_witness :
  let m := {| Incremental.seen_items := ∅; Incremental.max_items_to_process := 50;
              Incremental.download_pdfs := true; Incremental.last_check_time := None |} in
  let link := dict_get Scenario.xml_entry "link" "No Link" in
  Incremental.print_announcement (Scenario.generous t1) Scenario.xml_entry true true
    Scenario.empty_world
  = W.set_retry
      (Incremental.load_retry_queue Scenario.empty_world
       ++ [{| ri_url := link; ri_filename := Incremental.safe_filename_of Scenario.xml_entry;
              ri_company := dict_get Scenario.xml_entry "title" "";
              ri_date := dict_get Scenario.xml_entry "published" "";
              ri_timestamp := now (Scenario.generous t1) (W.tick Scenario.empty_world) |}])
      Scenario.empty_world.
Proof.
  intros m.
  apply (proj1 (proj2 (failed_downloads_are_queued (Scenario.generous t1) m
                         Scenario.empty_world)) Scenario.xml_entry).
  - vm_compute. discriminate.
  - vm_compute. reflexivity.
Defined.

(** ** The fields of a parsed record *)

Module RecordFacts.

Lemma rstrip_cons (p : ascii -> bool) (c : ascii) (r : string) :
  Py.rstrip_by p (String c r)
  = match Py.rstrip_by p r with
    | EmptyString => if p c then EmptyString else String c EmptyString
    | r' => String c r'
    end.
Proof. reflexivity. Qed.

Lemma rstrip_idem (p : ascii -> bool) (s : string) :
  Py.rstrip_by p (Py.rstrip_by p s) = Py.rstrip_by p s.
Proof.
  induction s as [|c r IH]; [reflexivity|].
  rewrite rstrip_cons. destruct (Py.rstrip_by p r) as [|d r'] eqn:E.
  - destruct (p c) eqn:Hc; [reflexivity|]. rewrite rstrip_cons. simpl. rewrite Hc. reflexivity.
  - rewrite rstrip_cons, IH. reflexivity.
Qed.

Lemma rstrip_first (p : ascii -> bool) (s : string) (c : ascii) :
  Py.first_char (Py.rstrip_by p s) = Some c -> Py.first_char s = Some c.
Proof.
  destruct s as [|d r]; [discriminate|]. rewrite rstrip_cons.
  destruct (Py.rstrip_by p r); [destruct (p d)|]; simpl; congruence.
Qed.

Lemma rstrip_last (p : ascii -> bool) (s : string) (c : ascii) :
  Py.last_char (Py.rstrip_by p s) = Some c -> p c = false.
Proof.
  induction s as [|d r IH]; [discriminate|]. rewrite rstrip_cons.
  destruct (Py.rstrip_by p r) as [|e r'] eqn:E.
  - destruct (p d) eqn:Hd; simpl; [discriminate|]. intros [= <-]. exact Hd.
  - intros H. apply IH. exact H.
Qed.

Lemma lstrip_fixed (p : ascii -> bool) (s : string) :
  (forall c, Py.first_char s = Some c -> p c = false) -> Py.lstrip_by p s = s.
Proof.
  destruct s as [|d r]; [reflexivity|]. intros H. simpl. rewrite (H d eq_refl). reflexivity.
Qed.

Lemma strip_first (s : string) (c : ascii) :
  Py.first_char (Py.strip s) = Some c -> Py.isspace c = false.
Proof. intros H. apply rstrip_first in H. apply NameFacts.lstrip_first in H. exact H. Qed.

Lemma strip_idem (s : string) : Py.strip (Py.strip s) = Py.strip s.
Proof.
  unfold Py.strip at 1. rewrite lstrip_fixed by apply strip_first. apply rstrip_idem.
Qed.

(** The loop over the children: for a key of the list, the last child with
    that tag decides. *)
Lemma fold_lookup (k : string) (cs : list Element) (acc : gmap string string) :
  fold_left
    (fun item_data child =>
       if Parser.in_whitelist (Parser.tag_of child)
       then <[Parser.tag_of child := Parser.text_value child]> item_data
       else item_data) cs acc !! k
  = match (if Parser.in_whitelist k
           then last (List.filter (fun c => String.eqb (Parser.tag_of c) k) cs)
           else None) with
    | Some child => Some (Parser.text_value child)
    | None => acc !! k
    end.
Proof.
  revert acc. induction cs as [|c rest IH]; intros acc.
  - simpl. destruct (Parser.in_whitelist k); reflexivity.
  - cbn [fold_left List.filter]. rewrite IH.
    destruct (String.eqb (Parser.tag_of c) k) eqn:Ek.
    + apply String.eqb_eq in Ek. rewrite Ek.
      destruct (Parser.in_whitelist k) eqn:Hk.
      * rewrite last_cons.
        destruct (last (List.filter _ rest)) as [child|]; [reflexivity|].
        apply lookup_insert_eq.
      * reflexivity.
    + apply String.eqb_neq in Ek.
      destruct (Parser.in_whitelist k);
        (destruct (last (List.filter _ rest)) as [child|] || idtac); try reflexivity;
        destruct (Parser.in_whitelist (Parser.tag_of c)); try reflexivity;
        apply lookup_insert_ne; exact Ek.
Qed.

Lemma item_data_lookup (item : Element) (k : string) :
  Parser.item_data_of item !! k
  = if Parser.in_whitelist k
    then Parser.text_value
           <$> last (List.filter (fun c => String.eqb (Parser.tag_of c) k)
                       (Parser.children_of item))
    else None.
Proof.
  unfold Parser.item_data_of. rewrite fold_lookup.
  destruct (Parser.in_whitelist k); [|apply lookup_empty].
  destruct (last _); [reflexivity | apply lookup_empty].
Qed.

End RecordFacts.

(** X18: the fields of the records of [parse_rss_manually].  For an
    [item] element and a key among [title], [link], [description] and
    [pubDate], the value is the stripped text of the last child with that
    tag (a later child overwrites an earlier one), and other tags give no
    key; the element yields a record exactly when that last [title] child
    has a text that is not only white space.  Every value of a returned
    record is stripped: stripping it again changes nothing, and it neither
    starts nor ends with white space. *)
Theorem parsed_record_fields (env : Env) (xml_content : string) :
  (forall item k,
     Parser.item_data_of item !! k
     = if Parser.in_whitelist k
       then Parser.text_value
              <$> last (List.filter (fun c => String.eqb (Parser.tag_of c) k)
                          (Parser.children_of item))
       else None) /\
  (forall item,
     Parser.has_title (Parser.item_data_of item)
     = match last (List.filter (fun c => String.eqb (Parser.tag_of c) "title")
                     (Parser.children_of item)) with
       | Some child => negb (Py.len (Parser.text_value child) =? 0)
       | None => false
       end) /\
  (forall record k v,
     In record (fst (Parser.parse_rss_manually env xml_content)) ->
     record !! k = Some v ->
     Py.strip v = v /\
     (forall c, Py.first_char v = Some c -> Py.isspace c = false) /\
     (forall c, Py.last_char v = Some c -> Py.isspace c = false) /\
     exists root item child,
       et_fromstring env (Parser.sub_xml_decl xml_content) = Some root /\
       In item (Parser.findall_items root) /\ record = Parser.item_data_of item /\
       In child (Parser.children_of item) /\ Parser.tag_of child = k /\
       v = Parser.text_value child).
Proof.
  split; [|split].
  - apply RecordFacts.item_data_lookup.
  - intros item. unfold Parser.has_title.
    rewrite RecordFacts.item_data_lookup. change (Parser.in_whitelist "title") with true.
    destruct (last _); reflexivity.
  - intros record k v Hin Hv. unfold Parser.parse_rss_manually in Hin.
    destruct (et_fromstring env (Parser.sub_xml_decl xml_content)) as [root|] eqn:Hroot;
      [|destruct Hin].
    cbn [fst] in Hin. apply filter_In in Hin as [(item & <- & Hitem)%in_map_iff _].
    rewrite RecordFacts.item_data_lookup in Hv.
    destruct (Parser.in_whitelist k); [|discriminate].
    destruct (last _) as [child|] eqn:Hlast; [|discriminate].
    injection Hv as <-.
    assert (Hchild : In child (Parser.children_of item) /\ Parser.tag_of child = k).
    { apply last_Some in Hlast as [pre Hpre].
      assert (Hc : In child (List.filter (fun c => String.eqb (Parser.tag_of c) k)
                                (Parser.children_of item))).
      { rewrite Hpre. apply in_or_app. right. left. reflexivity. }
      apply filter_In in Hc as [Hc Ht]. apply String.eqb_eq in Ht. auto. }
    destruct Hchild as [Hc Ht].
    split; [apply RecordFacts.strip_idem|]. split; [|split].
    + intros c. apply RecordFacts.strip_first.
    + intros c. apply RecordFacts.rstrip_last.
    + exists root, item, child. auto 10.
Qed.

Lemma parsed_record_fields_witness :
  Py.strip "EPL Limited" = "EPL Limited" /\
  (forall c, Py.first_char "EPL Limited" = Some c -> Py.isspace c = false) /\
  (forall c, Py.last_char "EPL Limited" = Some c -> Py.isspace c = false) /\
  exists root item child,
    et_fromstring (Scenario.feed_only t0) (Parser.sub_xml_decl Scenario.feed_xml)
    = Some root /\
    In item (Parser.findall_items root) /\ Scenario.epl_item = Parser.item_data_of item /\
    In child (Parser.children_of item) /\ Parser.tag_of child = "title" /\
    "EPL Limited" = Parser.text_value child.
Proof.
  apply (proj2 (proj2 (parsed_record_fields (Scenario.feed_only t0) Scenario.feed_xml))
           Scenario.epl_item "title" "EPL Limited").
  - vm_compute. left. reflexivity.
  - vm_compute. reflexivity.
Defined.

(** ** What the other two monitors leave after a download *)

Module Outcome2.

Lemma logs_leave (path : string) (left : option string) (w : World) :
  download_log (W.leave path left w) = download_log w /\
  failed_log (W.leave path left w) = failed_log w.
Proof. destruct left; split; reflexivity. Qed.

Lemma logs_remove_if_exists (path : string) (w : World) :
  download_log (W.remove_if_exists path w) = download_log w /\
  failed_log (W.remove_if_exists path w) = failed_log w.
Proof. unfold W.remove_if_exists. destruct (W.exists_ path w); split; reflexivity. Qed.

Lemma incremental_requests_outcome (env : Env) (pdf_url filepath : string) (attempts : nat)
    (w : World) :
  let r := Incremental.requests_attempts env pdf_url filepath attempts w in
  (fst r = true ->
   W.exists_ filepath (snd r) = true /\
   exists line,
     download_log (snd r) = download_log w ++ [line] /\
     dl_filename line = Py.basename filepath /\
     dl_size line = W.getsize filepath (snd r) /\ dl_method line = Some "requests") /\
  (fst r = false -> download_log (snd r) = download_log w) /\
  failed_log (snd r) = failed_log w.
Proof.
  cbv zeta. revert w. induction attempts as [|n IH]; intros w.
  - cbn. split; [discriminate|]. auto.
  - cbn [Incremental.requests_attempts].
    destruct (http_get env (W.tick w) pdf_url) as [body|p|p|p]; cbn [fst snd].
    + split; [|split]; [|discriminate|reflexivity].
      intros _. split; [apply DownloaderResult.exists_write|].
      eexists. split; [reflexivity|]. auto.
    + destruct (logs_leave filepath p (W.emit (EvHttpGet pdf_url) w)) as [Hd Hf].
      destruct (IH (W.leave filepath p (W.emit (EvHttpGet pdf_url) w))) as (S1 & F1 & L1).
      rewrite Hd in S1, F1. rewrite Hf in L1. auto.
    + destruct (logs_leave filepath p (W.emit (EvHttpGet pdf_url) w)) as [Hd Hf].
      destruct (IH (W.leave filepath p (W.emit (EvHttpGet pdf_url) w))) as (S1 & F1 & L1).
      rewrite Hd in S1, F1. rewrite Hf in L1. auto.
    + destruct (logs_leave filepath p (W.emit (EvHttpGet pdf_url) w)) as [Hd Hf].
      split; [discriminate|]. auto.
Qed.

Lemma incremental_tool_outcome (method : string) (cmd : list string) (env : Env)
    (filepath : string) (w : World) :
  let r := Incremental.download_method_tool method cmd env filepath w in
  (fst r = true ->
   W.exists_ filepath (snd r) = true /\
   exists line,
     download_log (snd r) = download_log w ++ [line] /\
     dl_filename line = Py.basename filepath /\
     dl_size line = W.getsize filepath (snd r) /\ dl_method line = Some method) /\
  (fst r = false ->
   download_log (snd r) = download_log w /\
   (W.exists_ filepath (snd r) = true ->
    forall rc, proc_status (run_process env (W.tick w) cmd) <> Exited rc)) /\
  failed_log (snd r) = failed_log w.
Proof.
  cbv zeta. unfold Incremental.download_method_tool.
  set (o := run_process env (W.tick w) cmd).
  set (w1 := W.leave filepath (proc_output o) (W.emit (EvProcess cmd) w)).
  destruct (logs_leave filepath (proc_output o) (W.emit (EvProcess cmd) w)) as [Hd Hf].
  fold w1 in Hd, Hf. simpl in Hd, Hf.
  destruct (logs_remove_if_exists filepath w1) as [Hrd Hrf].
  destruct (proc_status o) as [rc| | |] eqn:Hs.
  - destruct ((rc =? 0)%Z && W.exists_ filepath w1) eqn:Hc; cbn [fst snd].
    + apply andb_true_iff in Hc as [_ He].
      split; [|split]; [|discriminate|exact Hf].
      intros _. split; [exact He|]. eexists. simpl. rewrite Hd.
      split; [reflexivity|]. auto.
    + split; [|split]; [discriminate| |congruence].
      intros _. split; [congruence|].
      rewrite WorldFacts.exists_remove_if_exists. discriminate.
  - cbn [fst snd]. split; [|split]; [discriminate| |exact Hf].
    intros _. split; [exact Hd|]. intros _ rc. discriminate.
  - cbn [fst snd]. split; [|split]; [discriminate| |exact Hf].
    intros _. split; [exact Hd|]. intros _ rc. discriminate.
  - cbn [fst snd]. split; [|split]; [discriminate| |exact Hf].
    intros _. split; [exact Hd|]. intros _ rc. discriminate.
Qed.

End Outcome2.

(** X19: the books of [IncrementalNSEMonitor.download_pdf_with_smart_fallback],
    for a non-empty URL ending in [.pdf] and a target that does not exist
    yet.  When it returns [True] the target exists and exactly one line
    was added to the download log, with the base name of the target, the
    size of the file and the method that succeeded: [requests] when
    [_download_method_requests] returned [True], [curl] when that one
    returned [False] and [_download_method_curl] returned [True], [wget]
    otherwise.  When it returns [False] the download log is as it was.
    The log of failures is never written.  A file that stays at the
    target after [False] means that [wget] did not run to an exit: after
    an exit of the tool the method removes what is there. *)
Theorem incremental_download_books (env : Env) (url filename : string) (w : World) :
  Py.len url <> 0 -> Py.endswith url ".pdf" = true ->
  W.exists_ (Py.path_join "nse_downloads" filename) w = false ->
  let target := Py.path_join "nse_downloads" filename in
  let r1 := Incremental._download_method_requests env url target w in
  let r2 := Incremental._download_method_curl env url target (snd r1) in
  let r := Incremental.download_pdf_with_smart_fallback env url filename w in
  failed_log (snd r) = failed_log w /\
  (fst r = true ->
   W.exists_ target (snd r) = true /\
   exists line,
     download_log (snd r) = download_log w ++ [line] /\
     dl_filename line = Py.basename target /\
     dl_size line = W.getsize target (snd r) /\
     dl_method line
     = Some (if fst r1 then "requests" else if fst r2 then "curl" else "wget")) /\
  (fst r = false ->
   download_log (snd r) = download_log w /\
   (W.exists_ target (snd r) = true ->
    exists t, forall rc,
      proc_status (run_process env t (Incremental.wget_cmd url target)) <> Exited rc)).
Proof.
  intros Hlen Hpdf Hex. cbv zeta. unfold Incremental.download_pdf_with_smart_fallback.
  apply Nat.eqb_neq in Hlen. rewrite Hlen, Hpdf. cbn [negb orb]. cbv zeta. rewrite Hex.
  set (filepath := Py.path_join "nse_downloads" filename).
  pose proof (Outcome2.incremental_requests_outcome env url filepath 3 w) as O1.
  cbv zeta in O1. unfold Incremental._download_method_requests.
  destruct (Incremental.requests_attempts env url filepath 3 w) as [b1 w1].
  cbn [fst snd] in O1 |- *. destruct O1 as (S1 & F1 & L1).
  destruct b1.
  { cbn [fst snd]. split; [exact L1|]. split; [|discriminate]. intros _.
    destruct (S1 eq_refl) as (He & line & Hl & Hn & Hs & Hm).
    split; [exact He|]. exists line. auto 10. }
  pose proof (F1 eq_refl) as D1.
  pose proof (Outcome2.incremental_tool_outcome "curl" (Incremental.curl_cmd url filepath)
                env filepath w1) as O2.
  cbv zeta in O2. unfold Incremental._download_method_curl.
  destruct (Incremental.download_method_tool "curl" _ env filepath w1) as [b2 w2].
  cbn [fst snd] in O2 |- *. destruct O2 as (S2 & F2 & L2).
  destruct b2.
  { cbn [fst snd]. split; [congruence|]. split; [|discriminate]. intros _.
    destruct (S2 eq_refl) as (He & line & Hl & Hn & Hs & Hm).
    split; [exact He|]. exists line. rewrite Hl, D1. auto 10. }
  destruct (F2 eq_refl) as [D2 _].
  pose proof (Outcome2.incremental_tool_outcome "wget" (Incremental.wget_cmd url filepath)
                env filepath w2) as O3.
  cbv zeta in O3. unfold Incremental._download_method_wget.
  destruct (Incremental.download_method_tool "wget" _ env filepath w2) as [b3 w3].
  cbn [fst snd] in O3. destruct O3 as (S3 & F3 & L3).
  destruct b3.
  { cbn [fst snd]. split; [congruence|]. split; [|discriminate]. intros _.
    destruct (S3 eq_refl) as (He & line & Hl & Hn & Hs & Hm).
    split; [exact He|]. exists line. rewrite Hl, D2, D1. auto 10. }
  destruct (F3 eq_refl) as [D3 Hleft].
  cbn [fst snd]. split; [congruence|]. split; [discriminate|]. intros _.
  split; [congruence|]. intros He. exists (W.tick w2). apply Hleft. exact He.
Qed.

Lemma incremental_download_books_witness :
  let env := Scenario.stalling t1 in
  let url := "https://nsearchives.nseindia.com/corporate/EPL.pdf" in
  let filename := "EPL_Limited_08Aug2025_211422.pdf" in
  let target := Py.path_join "nse_downloads" filename in
  let r := Incremental.download_pdf_with_smart_fallback env url filename
             Scenario.empty_world in
  download_log (snd r) = download_log Scenario.empty_world /\
  (W.exists_ target (snd r) = true ->
   exists t, forall rc,
     proc_status (run_process env t (Incremental.wget_cmd url target)) <> Exited rc).
Proof.
  apply (proj2 (proj2 (incremental_download_books (Scenario.stalling t1)
                         "https://nsearchives.nseindia.com/corporate/EPL.pdf"
                         "EPL_Limited_08Aug2025_211422.pdf" Scenario.empty_world
                         ltac:(vm_compute; discriminate) eq_refl eq_refl))).
  vm_compute. reflexivity.
Defined.

(** X20: the books of [SimpleNSECurlMonitor.download_pdf_with_curl], for a
    URL ending in [.pdf] and a target that does not exist yet.  The one
    [curl] command is run.  When the method returns [True] the target
    holds what [curl] wrote, which is not empty, and exactly one line was
    added to the download log, with the file name and the size.  When it
    returns [False] the download log is as it was; a file stays at the
    target only when [curl] exited with a code other than 0 or could not
    be run: after exit code 0 (an empty file) and after a timeout the
    target is removed.  The log of failures is never written. *)
Theorem simple_download_books (env : Env) (url filename : string) (w : World) :
  Py.endswith url ".pdf" = true ->
  W.exists_ (Py.path_join "nse_downloads" filename) w = false ->
  let target := Py.path_join "nse_downloads" filename in
  let o := run_process env (W.tick w) (Simple.curl_cmd url target) in
  let r := Simple.download_pdf_with_curl env url filename w in
  trace (snd r) = trace w ++ [EvProcess (Simple.curl_cmd url target)] /\
  failed_log (snd r) = failed_log w /\
  (fst r = true ->
   proc_status o = Exited 0 /\
   fs (snd r) !! target = proc_output o /\ 0 < W.getsize target (snd r) /\
   download_log (snd r)
   = download_log w ++ [{| dl_time := now env (S (W.tick w)); dl_filename := filename;
                           dl_size := W.getsize target (snd r); dl_method := None |}]) /\
  (fst r = false ->
   download_log (snd r) = download_log w /\
   (W.exists_ target (snd r) = true ->
    proc_status o <> Exited 0 /\ proc_status o <> TimeoutExpired /\
    fs (snd r) !! target = proc_output o)).
Proof.
  intros Hpdf Hex. cbv zeta. unfold Simple.download_pdf_with_curl.
  rewrite Hpdf. cbn [negb]. cbv zeta. rewrite Hex.
  set (target := Py.path_join "nse_downloads" filename).
  set (cmd := Simple.curl_cmd url target).
  set (o := run_process env (W.tick w) cmd).
  set (w1 := W.leave target (proc_output o) (W.emit (EvProcess cmd) w)).
  assert (Ht : trace w1 = trace w ++ [EvProcess cmd])
    by (unfold w1; rewrite RetrySchedule.trace_leave; reflexivity).
  assert (Htick : W.tick w1 = S (W.tick w))
    by (unfold w1; rewrite RetrySchedule.tick_leave; apply WorldFacts.tick_emit).
  destruct (Outcome2.logs_leave target (proc_output o) (W.emit (EvProcess cmd) w))
    as [Hd Hf]. fold w1 in Hd, Hf. simpl in Hd, Hf.
  destruct (Outcome2.logs_remove_if_exists target w1) as [Hrd Hrf].
  assert (Hnone : fs w !! target = None).
  { apply WorldFacts.exists_false. exact Hex. }
  assert (Hfs : W.exists_ target w1 = true -> fs w1 !! target = proc_output o).
  { unfold w1. destruct (proc_output o) as [c|]; simpl.
    - intros _. apply lookup_insert_eq.
    - intros He. change (W.exists_ target w = true) in He. congruence. }
  assert (Htr : forall v, trace (W.remove_if_exists target v) = trace v).
  { intros v. unfold W.remove_if_exists. destruct (W.exists_ target v); reflexivity. }
  destruct (proc_status o) as [rc| | |] eqn:Hs.
  - destruct (rc =? 0)%Z eqn:Hrc; cbn [andb].
    + apply Z.eqb_eq in Hrc. subst rc.
      destruct (W.exists_ target w1) eqn:He.
      * destruct (0 <? W.getsize target w1) eqn:Hsz; cbn [fst snd].
        -- split; [exact Ht|]. split; [exact Hf|]. split; [|discriminate].
           intros _. split; [reflexivity|]. split; [apply Hfs; reflexivity|].
           split; [apply Nat.ltb_lt; exact Hsz|]. simpl. rewrite Hd, Htick. reflexivity.
        -- split; [exact Ht|]. split; [exact Hf|]. split; [discriminate|].
           intros _. split; [exact Hd|]. rewrite WorldFacts.exists_remove. discriminate.
      * cbn [fst snd]. split; [exact Ht|]. split; [exact Hf|]. split; [discriminate|].
        intros _. split; [exact Hd|]. rewrite He. discriminate.
    + cbn [fst snd]. split; [exact Ht|]. split; [exact Hf|]. split; [discriminate|].
      intros _. split; [exact Hd|]. intros He.
      split; [|split]; [|discriminate|apply Hfs; exact He].
      intros [= ->]. discriminate Hrc.
  - cbn [fst snd]. rewrite Htr. split; [exact Ht|]. split; [congruence|].
    split; [discriminate|]. intros _. split; [congruence|].
    rewrite WorldFacts.exists_remove_if_exists. discriminate.
  - cbn [fst snd]. split; [exact Ht|]. split; [exact Hf|]. split; [discriminate|].
    intros _. split; [exact Hd|]. intros He.
    split; [|split]; [discriminate|discriminate|apply Hfs; exact He].
  - cbn [fst snd]. split; [exact Ht|]. split; [exact Hf|]. split; [discriminate|].
    intros _. split; [exact Hd|]. intros He.
    split; [|split]; [discriminate|discriminate|apply Hfs; exact He].
Qed.

Lemma simple_download_books_witness :
  let env := Scenario.truncating t1 in
  let url := "https://nsearchives.nseindia.com/corporate/EPL.pdf" in
  let filename := "EPL_Limited_08Aug2025_211422.pdf" in
  let target := Py.path_join "nse_downloads" filename in
  let o := run_process env (W.tick Scenario.empty_world) (Simple.curl_cmd url target) in
  let r := Simple.download_pdf_with_curl env url filename Scenario.empty_world in
  proc_status o <> Exited 0 /\ proc_status o <> TimeoutExpired /\
  fs (snd r) !! target = proc_output o.
Proof.
  intros env url filename target o r.
  destruct (simple_download_books (Scenario.truncating t1)
              "https://nsearchives.nseindia.com/corporate/EPL.pdf"
              "EPL_Limited_08Aug2025_211422.pdf" Scenario.empty_world eq_refl eq_refl)
    as (_ & _ & _ & Hfalse).
  apply Hfalse.
  - vm_compute. reflexivity.
  - vm_compute. reflexivity.
Defined.

(** ** A download that succeeded is not repeated *)

Module Repeat.

Lemma complete_true (env : Env) (url filename : string) (w : World) :
  fst (Complete.smart_download_file env url filename w) = true ->
  Complete.supported url = true /\
  W.exists_ (Py.path_join "nse_downloads" filename)
    (snd (Complete.smart_download_file env url filename w)) = true.
Proof.
  unfold Complete.smart_download_file.
  destruct (Complete.supported url); cbn [negb]; [|discriminate]. cbv zeta.
  set (filepath := Py.path_join "nse_downloads" filename).
  destruct (W.exists_ filepath w) eqn:Hex; [auto|].
  pose proof (Outcome.complete_requests_outcome env url filepath filename w) as O1.
  cbv zeta in O1.
  destruct (Complete._download_with_requests env url filepath filename w) as [b1 w1].
  cbn [fst snd] in O1. destruct O1 as (S1 & _ & _).
  destruct b1; [intros _; split; [reflexivity | apply S1; reflexivity]|].
  pose proof (Outcome.complete_tool_outcome "curl" (Complete.curl_cmd url filepath) env
                filepath filename w1) as O2.
  cbv zeta in O2. unfold Complete._download_with_curl.
  destruct (Complete.download_with_tool "curl" _ env filepath filename w1) as [b2 w2].
  cbn [fst snd] in O2. destruct O2 as (S2 & _ & _).
  destruct b2; [intros _; split; [reflexivity | apply S2; reflexivity]|].
  pose proof (Outcome.complete_tool_outcome "wget" (Complete.wget_cmd url filepath) env
                filepath filename w2) as O3.
  cbv zeta in O3. unfold Complete._download_with_wget.
  destruct (Complete.download_with_tool "wget" _ env filepath filename w2) as [b3 w3].
  cbn [fst snd] in O3. destruct O3 as (S3 & _ & _).
  destruct b3; [intros _; split; [reflexivity | apply S3; reflexivity]|].
  discriminate.
Qed.

Lemma simple_true (env : Env) (url filename : string) (w : World) :
  fst (Simple.download_pdf_with_curl env url filename w) = true ->
  Py.endswith url ".pdf" = true /\
  W.exists_ (Py.path_join "nse_downloads" filename)
    (snd (Simple.download_pdf_with_curl env url filename w)) = true.
Proof.
  unfold Simple.download_pdf_with_curl.
  destruct (Py.endswith url ".pdf"); cbn [negb]; [|discriminate]. cbv zeta.
  set (filepath := Py.path_join "nse_downloads" filename).
  destruct (W.exists_ filepath w) eqn:Hex; [auto|]. clear Hex.
  set (w1 := W.leave filepath _ _).
  destruct (proc_status _); try discriminate.
  destruct (_ =? _)%Z; cbn [andb]; [|discriminate].
  destruct (W.exists_ filepath w1) eqn:He; [|discriminate].
  destruct (0 <? _); [|discriminate]. intros _. split; [reflexivity | exact He].
Qed.

Lemma incremental_true (env : Env) (url filename : string) (w : World) :
  fst (Incremental.download_pdf_with_smart_fallback env url filename w) = true ->
  (Py.len url =? 0) || negb (Py.endswith url ".pdf") = false /\
  W.exists_ (Py.path_join "nse_downloads" filename)
    (snd (Incremental.download_pdf_with_smart_fallback env url filename w)) = true.
Proof.
  unfold Incremental.download_pdf_with_smart_fallback.
  destruct ((Py.len url =? 0) || negb (Py.endswith url ".pdf")); [discriminate|]. cbv zeta.
  set (filepath := Py.path_join "nse_downloads" filename).
  destruct (W.exists_ filepath w) eqn:Hex; [auto|].
  pose proof (Outcome2.incremental_requests_outcome env url filepath 3 w) as O1.
  cbv zeta in O1. unfold Incremental._download_method_requests.
  destruct (Incremental.requests_attempts env url filepath 3 w) as [b1 w1].
  cbn [fst snd] in O1. destruct O1 as (S1 & _ & _).
  destruct b1; [intros _; split; [reflexivity | apply S1; reflexivity]|].
  pose proof (Outcome2.incremental_tool_outcome "curl" (Incremental.curl_cmd url filepath)
                env filepath w1) as O2.
  cbv zeta in O2. unfold Incremental._download_method_curl.
  destruct (Incremental.download_method_tool "curl" _ env filepath w1) as [b2 w2].
  cbn [fst snd] in O2. destruct O2 as (S2 & _ & _).
  destruct b2; [intros _; split; [reflexivity | apply S2; reflexivity]|].
  pose proof (Outcome2.incremental_tool_outcome "wget" (Incremental.wget_cmd url filepath)
                env filepath w2) as O3.
  cbv zeta in O3. unfold Incremental._download_method_wget.
  destruct (Incremental.download_method_tool "wget" _ env filepath w2) as [b3 w3].
  cbn [fst snd] in O3. destruct O3 as (S3 & _ & _).
  destruct b3; [intros _; split; [reflexivity | apply S3; reflexivity]|].
  discriminate.
Qed.

End Repeat.

(** X21: a download that succeeded is not repeated.  In each of the three
    monitors, when the download of a URL to a file name has returned
    [True], a second call for the same URL and file name returns [True]
    again, in any environment, without a transfer and without a line in a
    log: the world stays as the first call left it. *)
Theorem successful_download_is_not_repeated (env env' : Env) (url filename : string)
    (w : World) :
  (let first := Complete.smart_download_file env url filename w in
   fst first = true ->
   Complete.smart_download_file env' url filename (snd first) = (true, snd first)) /\
  (let first := Simple.download_pdf_with_curl env url filename w in
   fst first = true ->
   Simple.download_pdf_with_curl env' url filename (snd first) = (true, snd first)) /\
  (let first := Incremental.download_pdf_with_smart_fallback env url filename w in
   fst first = true ->
   Incremental.download_pdf_with_smart_fallback env' url filename (snd first)
   = (true, snd first)).
Proof.
  split; [|split]; cbv zeta; intros H.
  - apply Repeat.complete_true in H as [Hs He].
    unfold Complete.smart_download_file at 1. rewrite Hs. cbn [negb]. cbv zeta.
    rewrite He. reflexivity.
  - apply Repeat.simple_true in H as [Hs He].
    unfold Simple.download_pdf_with_curl at 1. rewrite Hs. cbn [negb]. cbv zeta.
    rewrite He. reflexivity.
  - apply Repeat.incremental_true in H as [Hs He].
    unfold Incremental.download_pdf_with_smart_fallback at 1. rewrite Hs. cbv zeta.
    rewrite He. reflexivity.
Qed.

Lemma successful_download_is_not_repeated_witness :
  let url := "https://nsearchives.nseindia.com/corporate/EPL.pdf" in
  let filename := "EPL_Limited_08Aug2025_211422.pdf" in
  let first := Complete.smart_download_file (Scenario.curl_works t0) url filename
                 Scenario.empty_world in
  Complete.smart_download_file (Scenario.dead t1) url filename (snd first)
  = (true, snd first).
Proof.
  apply (proj1 (successful_download_is_not_repeated (Scenario.curl_works t0)
                  (Scenario.dead t1) "https://nsearchives.nseindia.com/corporate/EPL.pdf"
                  "EPL_Limited_08Aug2025_211422.pdf" Scenario.empty_world)).
  vm_compute. reflexivity.
Defined.

(** ** What [NSEDownloader] may change *)

Module AmongFacts.

Lemma among_refl (allowed : string -> Prop) (w : World) : Frame.Among allowed 0 w w.
Proof.
  split; try reflexivity.
  exists []. rewrite app_nil_r. split; [reflexivity | simpl; lia].
Qed.

Lemma among_weaken (allowed : string -> Prop) (n k : nat) (w w' : World) :
  Frame.Among allowed n w w' -> n <= k -> Frame.Among allowed k w w'.
Proof.
  intros [H1 H2 H3 H4 H5 (evs & H6 & H7)] Hle. split; try assumption.
  exists evs. split; [exact H6 | lia].
Qed.

Lemma among_trans (allowed : string -> Prop) (n k : nat) (w w1 w2 : World) :
  Frame.Among allowed n w w1 -> Frame.Among allowed k w1 w2 ->
  Frame.Among allowed (n + k) w w2.
Proof.
  intros [A1 A2 A3 A4 A5 (e1 & A6 & A7)] [B1 B2 B3 B4 B5 (e2 & B6 & B7)].
  split; try congruence.
  - intros p Hp. rewrite B1, A1 by exact Hp. reflexivity.
  - exists (e1 ++ e2). rewrite B6, A6, <- app_assoc, length_app. split; [reflexivity|lia].
Qed.

Lemma among_emit (allowed : string -> Prop) (n : nat) (e : Event) (w w0 : World) :
  Frame.Among allowed n w w0 -> Frame.Among allowed (S n) w (W.emit e w0).
Proof.
  intros H. replace (S n) with (n + 1) by lia. apply (among_trans _ _ _ _ w0); [exact H|].
  split; try reflexivity. exists [e]. split; [reflexivity | simpl; lia].
Qed.

Lemma among_print (allowed : string -> Prop) (n : nat) (m : Msg) (w w0 : World) :
  Frame.Among allowed n w w0 -> Frame.Among allowed n w (W.print m w0).
Proof.
  intros H. replace n with (n + 0) by lia. apply (among_trans _ _ _ _ w0); [exact H|].
  split; try reflexivity. exists []. rewrite app_nil_r. split; [reflexivity | simpl; lia].
Qed.

Lemma among_write (allowed : string -> Prop) (path content : string) (n : nat)
    (w w0 : World) :
  allowed path -> Frame.Among allowed n w w0 ->
  Frame.Among allowed n w (W.write path content w0).
Proof.
  intros Ha H. replace n with (n + 0) by lia. apply (among_trans _ _ _ _ w0); [exact H|].
  split; try reflexivity.
  - intros p Hp. simpl. apply lookup_insert_ne. intros <-. contradiction.
  - exists []. rewrite app_nil_r. split; [reflexivity | simpl; lia].
Qed.

Lemma among_remove (allowed : string -> Prop) (path : string) (n : nat) (w w0 : World) :
  allowed path -> Frame.Among allowed n w w0 ->
  Frame.Among allowed n w (W.remove path w0).
Proof.
  intros Ha H. replace n with (n + 0) by lia. apply (among_trans _ _ _ _ w0); [exact H|].
  split; try reflexivity.
  - intros p Hp. simpl. apply lookup_delete_ne. intros <-. contradiction.
  - exists []. rewrite app_nil_r. split; [reflexivity | simpl; lia].
Qed.

Lemma among_leave (allowed : string -> Prop) (path : string) (left : option string)
    (n : nat) (w w0 : World) :
  allowed path -> Frame.Among allowed n w w0 ->
  Frame.Among allowed n w (W.leave path left w0).
Proof. intros Ha H. destruct left; [apply among_write; assumption | exact H]. Qed.

Lemma among_remove_if_exists (allowed : string -> Prop) (path : string) (n : nat)
    (w w0 : World) :
  allowed path -> Frame.Among allowed n w w0 ->
  Frame.Among allowed n w (W.remove_if_exists path w0).
Proof.
  intros Ha H. unfold W.remove_if_exists.
  destruct (W.exists_ path w0); [apply among_remove; assumption | exact H].
Qed.

Lemma target_allowed (filename : string) : Frame.target_or_part filename filename.
Proof. left. reflexivity. Qed.

Lemma part_allowed (filename : string) (i : nat) :
  i < Downloader.num_threads ->
  Frame.target_or_part filename (Downloader.chunk_filename filename i).
Proof. intros Hi. right. exists i. auto. Qed.

Lemma requests_among (env : Env) (url filename : string) (attempts : nat) (w : World) :
  Frame.Among (Frame.target_or_part filename) attempts w
    (snd (Downloader.requests_attempts env url filename attempts w)).
Proof.
  pose proof (target_allowed filename) as Ha.
  revert w. induction attempts as [|n IH]; intros w; [apply among_refl|].
  cbn [Downloader.requests_attempts].
  destruct (http_get env (W.tick w) url) as [body|p|p|p]; cbn [snd].
  - apply among_write; [exact Ha|]. eapply among_weaken; [apply among_emit, among_refl|lia].
  - replace (S n) with (1 + n) by lia. eapply among_trans; [|apply IH].
    apply among_leave; [exact Ha|]. apply among_emit, among_refl.
  - replace (S n) with (1 + n) by lia. eapply among_trans; [|apply IH].
    apply among_leave; [exact Ha|]. apply among_emit, among_refl.
  - apply among_leave; [exact Ha|]. eapply among_weaken; [apply among_emit, among_refl|lia].
Qed.

Lemma tool_among (cmd : list string) (env : Env) (filename : string) (w : World) :
  Frame.Among (Frame.target_or_part filename) 1 w
    (snd (Downloader.method_tool cmd env filename w)).
Proof.
  unfold Downloader.method_tool.
  destruct (proc_status _); cbn [snd];
    (apply among_leave; [apply target_allowed|]; apply among_emit, among_refl).
Qed.

Lemma chunks_among (env : Env) (url filename : string) (file_size : nat)
    (indices : list nat) (w : World) :
  (forall i, In i indices -> i < Downloader.num_threads) ->
  Frame.Among (Frame.target_or_part filename) (length indices) w
    (snd (Downloader.download_chunks env url filename file_size indices w)).
Proof.
  revert w. induction indices as [|i rest IH]; intros w Hlt; [apply among_refl|].
  rewrite Threaded.chunks_cons. cbv zeta. cbn [snd length].
  replace (S (length rest)) with (1 + length rest) by lia.
  eapply among_trans; [|apply IH; intros j Hj; apply Hlt; right; exact Hj].
  apply among_leave; [apply part_allowed, Hlt; left; reflexivity|].
  apply among_emit, among_refl.
Qed.

Lemma combine_among (filename : string) (indices : list nat) (acc : string) (n : nat)
    (w w0 : World) :
  (forall i, In i indices -> i < Downloader.num_threads) ->
  Frame.Among (Frame.target_or_part filename) n w w0 ->
  Frame.Among (Frame.target_or_part filename) n w
    (Downloader.combine_chunks filename indices acc w0).
Proof.
  revert acc w0. induction indices as [|i rest IH]; intros acc w0 Hlt H.
  - apply among_write; [apply target_allowed | exact H].
  - cbn [Downloader.combine_chunks].
    apply IH; [intros j Hj; apply Hlt; right; exact Hj|].
    apply among_remove; [apply part_allowed, Hlt; left; reflexivity | exact H].
Qed.

Lemma threaded_among (env : Env) (url filename : string) (w : World) :
  Frame.Among (Frame.target_or_part filename) 5 w
    (snd (Downloader.method4_threaded_download env url filename w)).
Proof.
  assert (Hlt : forall i, In i (seq 0 Downloader.num_threads) -> i < Downloader.num_threads).
  { intros i Hi. apply in_seq in Hi. lia. }
  unfold Downloader.method4_threaded_download.
  destruct (http_head env (W.tick w) url) as [| |n].
  - cbn [snd]. eapply among_weaken; [apply among_emit, among_refl|lia].
  - unfold Downloader.method1_requests_with_retry.
    match goal with
    | |- context [Downloader.requests_attempts env url filename 3 ?w0] =>
        pose proof (requests_among env url filename 3 w0) as H;
        destruct (Downloader.requests_attempts env url filename 3 w0) as [[b|] w']
    end; cbn [snd] in *;
      (eapply among_weaken; [eapply among_trans; [apply among_emit, among_refl|exact H]|lia]).
  - match goal with
    | |- context [Downloader.download_chunks env url filename n ?l ?w0] =>
        pose proof (chunks_among env url filename n l w0 Hlt) as H;
        destruct (Downloader.download_chunks env url filename n l w0) as [ok w']
    end.
    cbn [snd] in H. rewrite length_seq in H. change Downloader.num_threads with 4 in H.
    assert (H' : Frame.Among (Frame.target_or_part filename) 5 w w').
    { eapply among_weaken; [eapply among_trans; [apply among_emit, among_refl|exact H]|lia]. }
    destruct ok; cbn [snd]; [apply combine_among; assumption | exact H'].
Qed.

Lemma run_method_among (env : Env) (method url filename : string) (w : World) :
  method <> "browser" ->
  Frame.Among (Frame.target_or_part filename) 5 w
    (snd (Downloader.run_method env method url filename w)).
Proof.
  intros Hb. unfold Downloader.run_method.
  destruct (String.eqb method "requests");
    [eapply among_weaken; [apply requests_among|lia]|].
  destruct (String.eqb method "curl"); [eapply among_weaken; [apply tool_among|lia]|].
  destruct (String.eqb method "wget"); [eapply among_weaken; [apply tool_among|lia]|].
  destruct (String.eqb method "threaded"); [apply threaded_among|].
  destruct (String.eqb method "browser") eqn:E; [apply String.eqb_eq in E; contradiction|].
  eapply among_weaken; [apply among_refl|lia].
Qed.

Lemma loop_among (env : Env) (url filename : string) (methods : list string) (w : World) :
  ~ In "browser" methods ->
  Frame.Among (Frame.target_or_part filename) (5 * length methods) w
    (snd (Downloader.smart_download_loop env url filename methods w)).
Proof.
  revert w. induction methods as [|m rest IH]; intros w Hb; [apply among_refl|].
  cbn [Downloader.smart_download_loop].
  assert (Hm : m <> "browser") by (intros ->; apply Hb; left; reflexivity).
  assert (Hrest : ~ In "browser" rest) by (intros Hin; apply Hb; right; exact Hin).
  pose proof (run_method_among env m url filename (W.print (MsgTryingMethod m) w) Hm) as H.
  assert (H1 : forall w1,
            Frame.Among (Frame.target_or_part filename) 5
              (W.print (MsgTryingMethod m) w) w1 ->
            Frame.Among (Frame.target_or_part filename) 5 w w1).
  { intros w1 Hw1. replace 5 with (0 + 5) by lia.
    eapply among_trans; [|exact Hw1]. apply among_print, among_refl. }
  destruct (Downloader.run_method env m url filename _) as [[[|]|] w1]; cbn [snd] in *.
  - eapply among_weaken; [apply H1, H | simpl; lia].
  - replace (5 * length (m :: rest)) with (5 + 5 * length rest) by (simpl; lia).
    eapply among_trans; [|apply IH; exact Hrest].
    apply among_remove_if_exists; [apply AmongFacts.target_allowed|]. apply H1, H.
  - eapply among_weaken; [apply H1, H | simpl; lia].
Qed.

(** The part files are regular files of the directory of the target, and
    none of them is a file that a monitor keeps. *)
Lemma part_last_char (filename : string) (i : nat) :
  i < Downloader.num_threads ->
  exists d,
    Py.last_char (Downloader.chunk_filename filename i) = Some d /\ Py.is_digit d = true.
Proof.
  intros Hi. unfold Downloader.chunk_filename, Downloader.num_threads in *.
  destruct i as [|[|[|[|i]]]]; [| | | |lia].
  - change (".part" +:+ Clock.dec 0) with ".part0".
    rewrite (PyFacts.last_char_app filename "." "part0"). eexists. split; reflexivity.
  - change (".part" +:+ Clock.dec 1) with ".part1".
    rewrite (PyFacts.last_char_app filename "." "part1"). eexists. split; reflexivity.
  - change (".part" +:+ Clock.dec 2) with ".part2".
    rewrite (PyFacts.last_char_app filename "." "part2"). eexists. split; reflexivity.
  - change (".part" +:+ Clock.dec 3) with ".part3".
    rewrite (PyFacts.last_char_app filename "." "part3"). eexists. split; reflexivity.
Qed.

Lemma part_plain (filename : string) (i : nat) :
  i < Downloader.num_threads -> Frame.plain filename ->
  Frame.plain (Downloader.chunk_filename filename i) /\
  ~ In (Downloader.chunk_filename filename i) Frame.book_files.
Proof.
  intros Hi (Hsep & _). split; [split; [|split; [|split]]|].
  - unfold Downloader.chunk_filename, Downloader.num_threads in *.
    rewrite !PyFacts.forallb_app, Hsep.
    destruct i as [|[|[|[|i]]]]; [reflexivity|reflexivity|reflexivity|reflexivity|lia].
  - intros H. apply (f_equal Py.len) in H. unfold Downloader.chunk_filename in H.
    rewrite !PyFacts.len_app in H. change (Py.len ".part") with 5 in H.
    change (Py.len "") with 0 in H. lia.
  - intros H. apply (f_equal Py.len) in H. unfold Downloader.chunk_filename in H.
    rewrite !PyFacts.len_app in H. change (Py.len ".part") with 5 in H.
    change (Py.len ".") with 1 in H. lia.
  - intros H. apply (f_equal Py.len) in H. unfold Downloader.chunk_filename in H.
    rewrite !PyFacts.len_app in H. change (Py.len ".part") with 5 in H.
    change (Py.len "..") with 2 in H. lia.
  - destruct (part_last_char filename i Hi) as (d & Hd & Hdigit).
    intros Hin. unfold Frame.book_files in Hin. cbn [In] in Hin.
    repeat (destruct Hin as [Heq|Hin];
            [apply (f_equal Py.last_char) in Heq; rewrite Hd in Heq;
             vm_compute in Heq; injection Heq as <-; discriminate Hdigit|]).
    exact Hin.
Qed.

End AmongFacts.

(** X22: what [NSEDownloader.smart_download] may change, for a list of
    methods without [browser] (the default list has none) and a target
    that is a plain file name, none of the files that the monitors keep.
    Whatever the outcome of the methods, the download changes no file but
    its target and the part files [<target>.part0] to [<target>.part3],
    which are plain names too and none of the monitors' files; it writes
    to neither log, to no cache file and to no retry queue, and it starts
    at most five transfers or processes for each method of the list. *)
Theorem downloader_touches_target_and_parts (env : Env) (url filename : string)
    (methods : option (list string)) (w : World) :
  ~ In "browser" (Downloader.effective methods) ->
  Frame.plain filename -> ~ In filename Frame.book_files ->
  (forall p, Frame.target_or_part filename p ->
             Frame.plain p /\ ~ In p Frame.book_files) /\
  Frame.Among (Frame.target_or_part filename) (5 * length (Downloader.effective methods)) w
    (snd (Downloader.smart_download env url filename methods w)).
Proof.
  intros Hb Hplain Hbook. split.
  - intros p [->|(i & Hi & ->)]; [auto|]. apply AmongFacts.part_plain; assumption.
  - apply AmongFacts.loop_among. exact Hb.
Qed.

Lemma downloader_touches_target_and_parts_witness :
  Frame.Among (Frame.target_or_part "EPL.pdf")
    (5 * length (Downloader.effective None)) Scenario.empty_world
    (snd (Downloader.smart_download (Scenario.dead t1)
            "https://nsearchives.nseindia.com/corporate/EPL.pdf" "EPL.pdf" None
            Scenario.empty_world)).
Proof.
  apply (downloader_touches_target_and_parts (Scenario.dead t1)
           "https://nsearchives.nseindia.com/corporate/EPL.pdf" "EPL.pdf" None
           Scenario.empty_world).
  - simpl. intros [H|[H|[H|[H|[]]]]]; discriminate H.
  - split; [reflexivity|]. split; [|split]; discriminate.
  - simpl. intros [H|[H|[H|[H|[H|[H|[]]]]]]]; discriminate H.
Defined.

(** ** The monitoring loops *)

Module Monitoring.

Lemma complete_cycles_cons (env : Env) (rest : list Env) (m : Complete.Monitor) (w : World) :
  Complete.run_cycles (env :: rest) (m, w)
  = Complete.run_cycles rest
      (fst (Complete.check_announcements env m w),
       snd (Complete.check_announcements env m w)).
Proof.
  unfold Complete.run_cycles. cbn [fold_left fst snd].
  destruct (Complete.check_announcements env m w); reflexivity.
Qed.

Lemma complete_run (envs : list Env) (m : Complete.Monitor) (w : World) :
  let st := Complete.run_cycles envs (m, w) in
  Complete.max_items (fst st) = Complete.max_items m /\
  Complete.download_pdfs (fst st) = Complete.download_pdfs m /\
  exists n,
    Frame.Within (length envs + 3 * n) w (snd st) /\
    ((0 <= Complete.max_items m)%Z ->
     n <= length envs * Z.to_nat (Complete.max_items m)).
Proof.
  cbv zeta. revert m w. induction envs as [|env rest IH]; intros m w.
  - split; [reflexivity|]. split; [reflexivity|]. exists 0.
    split; [apply WithinFacts.within_refl | simpl; lia].
  - rewrite complete_cycles_cons.
    destruct (QuietCycle.complete_cycle_fields env m w) as [Hmax Hdl].
    destruct (CycleWithin.complete_cycle_within env m w) as (n1 & H1 & B1).
    destruct (IH (fst (Complete.check_announcements env m w))
                (snd (Complete.check_announcements env m w)))
      as (Imax & Idl & n2 & H2 & B2).
    rewrite Hmax in Imax, B2. rewrite Hdl in Idl.
    split; [exact Imax|]. split; [exact Idl|]. exists (n1 + n2). split.
    + eapply WithinFacts.within_weaken;
        [eapply WithinFacts.within_trans; [exact H1 | exact H2] | simpl; lia].
    + intros Hpos. specialize (B1 Hpos). specialize (B2 Hpos). simpl. lia.
Qed.





End Monitoring.

(** X23: the monitoring loop of [CompleteNSEMonitor] ([run_continuous]),
    for any number of cycles.  The settings [max_items] and
    [download_pdfs] never change.  Of the files of the working directory
    the run changes only files directly in the download directory, the
    cache file of the monitor and the two logs, to which it only appends;
    the retry queue is as it was.  With a non-negative [max_items] the
    whole run starts at most [1 + 3 * max_items] processes and transfers
    per cycle. *)
Theorem monitoring_writes_downloads_and_books (envs : list Env) (m : Complete.Monitor)
    (w : World) :
  let st := Complete.run_cycles envs (m, w) in
  Complete.max_items (fst st) = Complete.max_items m /\
  Complete.download_pdfs (fst st) = Complete.download_pdfs m /\
  Frame.Books Complete.cache_file w (snd st) /\
  retry_file (snd st) = retry_file w /\
  ((0 <= Complete.max_items m)%Z ->
   exists evs,
     trace (snd st) = trace w ++ evs /\
     length evs <= length envs * (1 + 3 * Z.to_nat (Complete.max_items m))).
Proof.
  cbv zeta. destruct (Monitoring.complete_run envs m w) as (Hmax & Hdl & n & H & B).
  split; [exact Hmax|]. split; [exact Hdl|]. split; [|split].
  - apply (CycleRel.complete_run_rel (Frame.Books Complete.cache_file)).
    + apply BooksFacts.books_refl.
    + apply BooksFacts.books_trans.
    + intros env m0 w0.
      apply (CycleRel.complete_cycle_rel env (Frame.Books Complete.cache_file)).
      * apply BooksFacts.books_refl.
      * apply BooksFacts.books_trans.
      * apply BooksFacts.books_emit.
      * apply BooksFacts.books_print.
      * apply BooksFacts.books_set_cache.
      * intros m1 item w1. apply BooksFacts.complete_process_books.
  - apply (CycleRel.complete_run_rel (fun a b => retry_file b = retry_file a));
      try reflexivity; try congruence.
    intros env m0 w0.
    apply (CycleRel.complete_cycle_rel env (fun a b => retry_file b = retry_file a));
      try reflexivity; try congruence.
    intros m1 item w1. apply (BooksFacts.complete_process_books Complete.cache_file).
  - intros Hpos. apply (CycleWithin.within_bound _ 0 _ _ _ H). specialize (B Hpos). lia.
Qed.

Lemma monitoring_writes_downloads_and_books_witness :
  let st := Complete.run_cycles [Scenario.generous t0; Scenario.generous t1]
              (Scenario.fresh_monitor, Scenario.empty_world) in
  exists evs,
    trace (snd st) = trace Scenario.empty_world ++ evs /\
    length evs <= 2 * (1 + 3 * Z.to_nat (Complete.max_items Scenario.fresh_monitor)).
Proof.
  apply (proj2 (proj2 (proj2 (proj2 (monitoring_writes_downloads_and_books
                                       [Scenario.generous t0; Scenario.generous t1]
                                       Scenario.fresh_monitor Scenario.empty_world))))).
  vm_compute. discriminate.
Defined.


